(** * RL visualisation front end and training core: a shallow embedding

    The TypeScript client (types, REST service, Redux slices, canvas and
    formatting helpers, the realtime-training hook) is embedded function by
    function.  JSON numbers that carry real quantities (gamma, delta, ...)
    are exact rationals [Q]; counters and grid coordinates are integers [Z];
    an optional field is an [option]; a [Record<string, number>] is a
    [gmap] keyed by strings.  The training core that runs behind the
    socket is written from the specification. *)

From Stdlib Require Import ZArith QArith Qminmax Qabs List Ascii String Lia Lqa.
From Stdlib Require Import DecimalString DecimalZ DecimalN.
From stdpp Require Import base option gmap strings.

Local Open Scope string_scope.
Local Open Scope Z_scope.

(** JavaScript's [a ?? d]: the default is taken for a missing value only. *)
Definition nullish {A : Type} (a : option A) (d : A) : A :=
  match a with
  | Some v => v
  | None => d
  end.

(** Truthiness of a JavaScript number, string and optional boolean. *)
Definition truthyZ (n : Z) : bool := negb (n =? 0).
Definition truthyQ (q : Q) : bool := negb (Qeq_bool q 0).
Definition truthyS (s : string) : bool :=
  match s with
  | EmptyString => false
  | String _ _ => true
  end.
Definition truthyB (b : option bool) : bool := nullish b false.

(** [n || d] on optional numbers: a missing value and 0 both give [d]. *)
Definition orZ (n : option Z) (d : Z) : Z :=
  match n with
  | Some v => if truthyZ v then v else d
  | None => d
  end.
Definition orQ (q : option Q) (d : Q) : Q :=
  match q with
  | Some v => if truthyQ v then v else d
  | None => d
  end.

(** ** types/rl.types.ts *)
Module RlTypes.

Inductive AlgorithmType :=
| value_iteration
| policy_iteration
| mc_first_visit
| mc_every_visit
| mc_control
| td_zero
| sarsa
| n_step_td.

Inductive EnvironmentType := gridworld | frozen_lake | breakout.

(** The string literal each member of the union type stands for. *)
Definition algorithm_literal (a : AlgorithmType) : string :=
  match a with
  | value_iteration => "value_iteration"
  | policy_iteration => "policy_iteration"
  | mc_first_visit => "mc_first_visit"
  | mc_every_visit => "mc_every_visit"
  | mc_control => "mc_control"
  | td_zero => "td_zero"
  | sarsa => "sarsa"
  | n_step_td => "n_step_td"
  end.

Definition environment_literal (e : EnvironmentType) : string :=
  match e with
  | gridworld => "gridworld"
  | frozen_lake => "frozen_lake"
  | breakout => "breakout"
  end.

(** The [id] column of the [ALGORITHMS] and [ENVIRONMENTS] tables, which
    is what the selectors offer to the user. *)
Definition ALGORITHMS_ids : list AlgorithmType :=
  [value_iteration; policy_iteration; mc_first_visit; mc_every_visit;
   mc_control; td_zero; sarsa; n_step_td].

Definition ENVIRONMENTS_ids : list EnvironmentType :=
  [gridworld; frozen_lake; breakout].

End RlTypes.

(** ** The identifiers of the external interface (section 6 of the spec) *)
Module Interface.

Definition algorithm_identifiers : list string :=
  ["value_iteration"; "policy_iteration"; "monte_carlo_first_visit";
   "monte_carlo_every_visit"; "monte_carlo_control"; "td_zero"; "sarsa";
   "n_step_td"].

Definition environment_identifiers : list string :=
  ["gridworld"; "frozen_lake"; "breakout"].

(** The algorithms that the API documentation shipped with the client
    types lists as available for POST [/api/algorithms/run/]. *)
Definition documented_run_algorithms : list string :=
  ["value_iteration"; "policy_iteration"; "monte_carlo_first_visit";
   "monte_carlo_every_visit"; "monte_carlo_control"; "td_zero"].

Definition mem_string (s : string) (l : list string) : bool :=
  existsb (String.eqb s) l.

End Interface.

(** ** redux/slices/paramSlice.ts *)
Module ParamSlice.

Record ParamState := {
  gamma : Q;
  theta : Q;
  numEpisodes : Z;
  alpha : Q;
  epsilon : Q
}.

Definition initialState : ParamState := {|
  gamma := 99 # 100;
  theta := 1 # 10000;
  numEpisodes := 1000;
  alpha := 1 # 10;
  epsilon := 1 # 10
|}.

End ParamSlice.

(** ** services/api.ts *)
Module Api.
Import RlTypes.

Record RunAlgorithmParams := {
  ra_algorithm : AlgorithmType;
  ra_gridSize : option Z;
  ra_agentPosition : option (Z * Z);
  ra_goalPosition : option (Z * Z);
  ra_gamma : option Q;
  ra_theta : option Q;
  ra_numEpisodes : option Z;
  ra_alpha : option Q;
  ra_epsilon : option Q
}.

Record RunAlgorithmBody := {
  rb_algorithm : string;
  rb_grid_size : Z;
  rb_agent_position : Z * Z;
  rb_goal_position : Z * Z;
  rb_gamma : Q;
  rb_theta : Q;
  rb_num_episodes : Z;
  rb_alpha : Q;
  rb_epsilon : Q
}.

(** [params.gridSize ? params.gridSize - 1 : 3] *)
Definition goal_coordinate (gridSize : option Z) : Z :=
  match gridSize with
  | Some g => if truthyZ g then g - 1 else 3
  | None => 3
  end.

(** The body that [runAlgorithm] posts to [/algorithms/run/]. *)
Definition runAlgorithm (params : RunAlgorithmParams) : RunAlgorithmBody := {|
  rb_algorithm := algorithm_literal (ra_algorithm params);
  rb_grid_size := nullish (ra_gridSize params) 4;
  rb_agent_position := nullish (ra_agentPosition params) (0, 0);
  rb_goal_position :=
    nullish (ra_goalPosition params)
            (goal_coordinate (ra_gridSize params),
             goal_coordinate (ra_gridSize params));
  rb_gamma := nullish (ra_gamma params) (99 # 100);
  rb_theta := nullish (ra_theta params) (1 # 10000);
  rb_num_episodes := nullish (ra_numEpisodes params) 1000;
  rb_alpha := nullish (ra_alpha params) (1 # 10);
  rb_epsilon := nullish (ra_epsilon params) (1 # 10)
|}.

Record SimulatePolicyParams := {
  sp_maxSteps : option Z;
  sp_agentPosition : option (Z * Z);
  sp_goalPosition : Z * Z;
  sp_gridSize : option Z;
  sp_gamma : option Q;
  sp_environment : option string;
  sp_policy : option (gmap string Z);
  sp_isSlippery : option bool;
  sp_numBrickRows : option Z
}.

(** A key that the code adds only under a condition is an [option]. *)
Record SimulatePolicyBody := {
  sb_max_steps : Z;
  sb_agent_position : option (Z * Z);
  sb_goal_position : Z * Z;
  sb_grid_size : Z;
  sb_gamma : Q;
  sb_environment : string;
  sb_policy : option (gmap string Z);
  sb_is_slippery : option bool;
  sb_num_brick_rows : option Z
}.

(** The body that [simulatePolicy] posts to [/algorithms/simulate/]. *)
Definition simulatePolicy (params : SimulatePolicyParams) : SimulatePolicyBody := {|
  sb_max_steps := nullish (sp_maxSteps params) 100;
  sb_agent_position := sp_agentPosition params;
  sb_goal_position := sp_goalPosition params;
  sb_grid_size := nullish (sp_gridSize params) 4;
  sb_gamma := nullish (sp_gamma params) (99 # 100);
  sb_environment := nullish (sp_environment params) "gridworld";
  sb_policy :=
    match sp_policy params with
    | Some p => if (0 <? size p)%nat then Some p else None
    | None => None
    end;
  sb_is_slippery := sp_isSlippery params;
  sb_num_brick_rows := sp_numBrickRows params
|}.

(** A call in which every optional parameter is left out. *)
Definition run_omitted (a : AlgorithmType) : RunAlgorithmParams := {|
  ra_algorithm := a;
  ra_gridSize := None;
  ra_agentPosition := None;
  ra_goalPosition := None;
  ra_gamma := None;
  ra_theta := None;
  ra_numEpisodes := None;
  ra_alpha := None;
  ra_epsilon := None
|}.

Definition simulate_omitted (goal : Z * Z) : SimulatePolicyParams := {|
  sp_maxSteps := None;
  sp_agentPosition := None;
  sp_goalPosition := goal;
  sp_gridSize := None;
  sp_gamma := None;
  sp_environment := None;
  sp_policy := None;
  sp_isSlippery := None;
  sp_numBrickRows := None
|}.

End Api.

(** ** JavaScript numbers and strings as the helpers below use them *)
Module Js.

(** Decimal digits of a natural number. *)
Definition digitsN (n : N) : string := NilZero.string_of_uint (N.to_uint n).

Fixpoint strip_zeros (rev_digits : string) : string :=
  match rev_digits with
  | String "0"%char r => strip_zeros r
  | _ => rev_digits
  end.

Fixpoint rev_string (s acc : string) : string :=
  match s with
  | EmptyString => acc
  | String c r => rev_string r (String c acc)
  end.

(** Exponent notation [d.ddde+n] of a natural number from its digits. *)
Definition exponentN (n : N) : string :=
  let ds := digitsN n in
  let e := digitsN (N.of_nat (String.length ds - 1)) in
  match rev_string (strip_zeros (rev_string ds EmptyString)) EmptyString with
  | EmptyString => ds
  | String c EmptyString => String c ("e+" ++ e)
  | String c frac => String c ("." ++ frac ++ "e+" ++ e)
  end.

(** [Number.prototype.toString] on an integer-valued number, which a
    template literal applies: plain digits below 10^21, exponent notation
    from there on.  The digits are those of the exact value. *)
Definition natToString (n : N) : string :=
  if (n <? 10 ^ 21)%N then digitsN n else exponentN n.

Definition numberToString (z : Z) : string :=
  match z with
  | Zneg p => "-" ++ natToString (Npos p)
  | _ => natToString (Z.to_N z)
  end.

(** The character classes [\d] and [\s] on code units below 256. *)
Definition isDigit (c : ascii) : bool :=
  let n := N_of_ascii c in ((48 <=? n) && (n <=? 57))%N.

Definition isSpace (c : ascii) : bool :=
  let n := N_of_ascii c in
  (((9 <=? n) && (n <=? 13)) || (n =? 32) || (n =? 160))%N.

(** Longest prefix of digits, and what follows it. *)
Fixpoint takeDigits (s : string) : string * string :=
  match s with
  | String c r =>
      if isDigit c then let (d, rest) := takeDigits r in (String c d, rest)
      else (EmptyString, s)
  | EmptyString => (EmptyString, EmptyString)
  end.

Fixpoint skipSpaces (s : string) : string :=
  match s with
  | String c r => if isSpace c then skipSpaces r else s
  | EmptyString => EmptyString
  end.

(** [parseInt] on a string of decimal digits. *)
Definition parseIntDigits (s : string) : Z :=
  match NilEmpty.uint_of_string s with
  | Some d => Z.of_N (N.of_uint d)
  | None => 0
  end.

(** What may follow a run of digits: nothing, or a character that is no
    digit. *)
Definition stops_digits (rest : string) : Prop :=
  match rest with
  | String c _ => isDigit c = false
  | EmptyString => True
  end.

End Js.

(** ** redux/slices: the environment, algorithm and simulation slices *)
Module EnvSlice.
Import RlTypes.

Record EnvironmentConfig := {
  gridSize : Z;
  agentPosition : Z * Z;
  goalPosition : Z * Z;
  isSlippery : option bool;
  numBrickRows : option Z
}.

Record BreakoutState := {
  paddlePosition : Z;
  ballPosition : Z * Z;
  bricks : list (Z * Z);
  score : Z
}.

Record EnvState := {
  selectedEnvironment : EnvironmentType;
  config : EnvironmentConfig;
  isCreated : bool;
  currentPosition : Z * Z;
  isTerminated : bool;
  breakoutState : option BreakoutState
}.

Definition initialState : EnvState := {|
  selectedEnvironment := gridworld;
  config := {| gridSize := 4; agentPosition := (0, 0); goalPosition := (3, 3);
               isSlippery := Some false; numBrickRows := Some 2 |};
  isCreated := false;
  currentPosition := (0, 0);
  isTerminated := false;
  breakoutState := None
|}.

(** [if (c >= n) c = n - 1] on one coordinate. *)
Definition clampCoordinate (c n : Z) : Z := if c >=? n then n - 1 else c.

(** The [setGridSize] reducer: the size is stored, then the four
    coordinates are tested and overwritten one after the other. *)
Definition setGridSize (state : EnvState) (payload : Z) : EnvState :=
  let c := config state in
  let goal := (clampCoordinate (fst (goalPosition c)) payload,
               clampCoordinate (snd (goalPosition c)) payload) in
  let agent := (clampCoordinate (fst (agentPosition c)) payload,
                clampCoordinate (snd (agentPosition c)) payload) in
  {| selectedEnvironment := selectedEnvironment state;
     config := {| gridSize := payload;
                  agentPosition := agent;
                  goalPosition := goal;
                  isSlippery := isSlippery c;
                  numBrickRows := numBrickRows c |};
     isCreated := isCreated state;
     currentPosition := currentPosition state;
     isTerminated := isTerminated state;
     breakoutState := breakoutState state |}.

Definition updateCurrentPosition (state : EnvState) (payload : Z * Z) : EnvState :=
  {| selectedEnvironment := selectedEnvironment state;
     config := config state;
     isCreated := isCreated state;
     currentPosition := payload;
     isTerminated := isTerminated state;
     breakoutState := breakoutState state |}.

Definition setBreakoutState (state : EnvState) (payload : BreakoutState) : EnvState :=
  {| selectedEnvironment := selectedEnvironment state;
     config := config state;
     isCreated := isCreated state;
     currentPosition := currentPosition state;
     isTerminated := isTerminated state;
     breakoutState := Some payload |}.

End EnvSlice.

Module AlgoSlice.
Import RlTypes.

Record AlgoState := {
  selectedAlgorithm : AlgorithmType;
  isTrained : bool;
  valueFunction : gmap string Q;
  policy : gmap string Z;
  qValues : gmap string (gmap string Q)
}.

Definition initialState : AlgoState := {|
  selectedAlgorithm := value_iteration;
  isTrained := false;
  valueFunction := ∅;
  policy := ∅;
  qValues := ∅
|}.

Definition setTrained (state : AlgoState) (payload : bool) : AlgoState :=
  {| selectedAlgorithm := selectedAlgorithm state;
     isTrained := payload;
     valueFunction := valueFunction state;
     policy := policy state;
     qValues := qValues state |}.

Definition setValueFunction (state : AlgoState) (payload : gmap string Q) : AlgoState :=
  {| selectedAlgorithm := selectedAlgorithm state;
     isTrained := isTrained state;
     valueFunction := payload;
     policy := policy state;
     qValues := qValues state |}.

Definition setPolicy (state : AlgoState) (payload : gmap string Z) : AlgoState :=
  {| selectedAlgorithm := selectedAlgorithm state;
     isTrained := isTrained state;
     valueFunction := valueFunction state;
     policy := payload;
     qValues := qValues state |}.

End AlgoSlice.

Module SimulationSlice.

Inductive SimulationMode := mode_idle | mode_training | mode_inference.

Inductive ConnectionStatus :=
| disconnected
| connecting
| connected
| connection_error.

(** One step of a replayed trajectory (types/index.ts). *)
Record Trajectory := {
  step : Z;
  agentPosition : list Z;
  action : option Z;
  actionName : option string;
  reward : Q;
  paddlePosition : option Z;
  ballPosition : option (list Z)
}.

Record SimulationState := {
  mode : SimulationMode;
  isRunning : bool;
  progress : Q;
  currentEpisode : Z;
  totalEpisodes : Z;
  connectionStatus : ConnectionStatus;
  trajectory : list Trajectory;
  currentStep : Z;
  playbackSpeed : Z;
  totalReward : Q;
  reachedGoal : bool;
  error : option string
}.

Definition initialState : SimulationState := {|
  mode := mode_idle;
  isRunning := false;
  progress := 0;
  currentEpisode := 0;
  totalEpisodes := 0;
  connectionStatus := disconnected;
  trajectory := [];
  currentStep := 0;
  playbackSpeed := 500;
  totalReward := 0;
  reachedGoal := false;
  error := None
|}.

Definition setProgress (state : SimulationState) (payload : Q) : SimulationState :=
  {| mode := mode state;
     isRunning := isRunning state;
     progress := payload;
     currentEpisode := currentEpisode state;
     totalEpisodes := totalEpisodes state;
     connectionStatus := connectionStatus state;
     trajectory := trajectory state;
     currentStep := currentStep state;
     playbackSpeed := playbackSpeed state;
     totalReward := totalReward state;
     reachedGoal := reachedGoal state;
     error := error state |}.

End SimulationSlice.

(** ** utils/canvasUtils.ts *)
Module CanvasUtils.

Definition ACTION_SYMBOLS : gmap Z string :=
  <[0 := "↑"]> (<[1 := "↓"]> (<[2 := "←"]> (<[3 := "→"]> ∅))).

Definition ACTION_NAMES : gmap Z string :=
  <[0 := "Up"]> (<[1 := "Down"]> (<[2 := "Left"]> (<[3 := "Right"]> ∅))).

(** One attempt of [/\((\d+),\s*(\d+)\)/] at the head of [s].  A digit
    run is always followed by a character that is no digit, and the blank
    run by a digit, so the longest run is the only one that can match and
    no backtracking is lost. *)
Definition matchAt (s : string) : option (string * string) :=
  match s with
  | String "("%char r =>
      match Js.takeDigits r with
      | (EmptyString, _) => None
      | (d1, String ","%char r2) =>
          match Js.takeDigits (Js.skipSpaces r2) with
          | (EmptyString, _) => None
          | (d2, String ")"%char _) => Some (d1, d2)
          | _ => None
          end
      | _ => None
      end
  | _ => None
  end.

(** [key.match(re)]: the leftmost position at which the pattern matches. *)
Fixpoint regexMatch (key : string) : option (string * string) :=
  match matchAt key with
  | Some groups => Some groups
  | None =>
      match key with
      | String _ r => regexMatch r
      | EmptyString => None
      end
  end.

Definition parseStateKey (key : string) : option (Z * Z) :=
  match regexMatch key with
  | Some (g1, g2) => Some (Js.parseIntDigits g1, Js.parseIntDigits g2)
  | None => None
  end.

Definition createStateKey (x y : Z) : string :=
  "(" ++ Js.numberToString x ++ ", " ++ Js.numberToString y ++ ")".

End CanvasUtils.

(** ** The formatting helpers ([formatActionName]) *)
Module Formatters.

Definition actions : gmap Z string :=
  <[0 := "Up"]> (<[1 := "Down"]> (<[2 := "Left"]> (<[3 := "Right"]> ∅))).

(** [actions[action] || `Action ${action}`] *)
Definition formatActionName (action : Z) : string :=
  match actions !! action with
  | Some name => if truthyS name then name else "Action " ++ Js.numberToString action
  | None => "Action " ++ Js.numberToString action
  end.

End Formatters.

(** ** The policy grid component ([getArrow]) *)
Module PolicyGrid.

Definition arrows : gmap Z string :=
  <[0 := "↑"]> (<[1 := "↓"]> (<[2 := "←"]> (<[3 := "→"]> ∅))).

(** [action === null] gives the empty string, and so does a number
    without an entry. *)
Definition getArrow (action : option Z) : string :=
  match action with
  | None => EmptyString
  | Some a =>
      match arrows !! a with
      | Some arrow => if truthyS arrow then arrow else EmptyString
      | None => EmptyString
      end
  end.

End PolicyGrid.

(** ** hooks/useRealtimeTraining.ts *)
Module Hook.
Import RlTypes.

Record TrainingConfig := {
  tc_algorithm : AlgorithmType;
  tc_environment : EnvironmentType;
  tc_gridSize : Z;
  tc_agentPosition : Z * Z;
  tc_goalPosition : Z * Z;
  tc_gamma : Q;
  tc_theta : Q;
  tc_numEpisodes : Z;
  tc_alpha : Q;
  tc_epsilon : Q;
  tc_isSlippery : option bool;
  tc_numBrickRows : option Z;
  tc_nSteps : option Z
}.

Inductive TrajectoryStep :=
| GridworldStep (step : Z) (position : Z * Z) (action : Z) (reward : Q)
| FrozenLakeStep (step : Z) (position : Z * Z) (action : Z) (reward : Q)
                 (cell_type : string)
| BreakoutStep (step : Z) (paddle_position : Z) (ball_position : Z * Z)
               (ball_direction : Z) (action : Z) (reward : Q).

(** A parsed incoming message. *)
Record TrainingUpdate := {
  type : string;
  episode : option Z;
  total_episodes : option Z;
  progress : option Q;
  iteration : option Z;
  delta : option Q;
  converged : option bool;
  sample_values : option (gmap string Q);
  value_function : option (gmap string Q);
  policy : option (gmap string Z);
  avg_value : option Q;
  avg_reward : option Q;
  episode_reward : option Q;
  states_evaluated : option Z;
  trajectory : option (list TrajectoryStep);
  episode_length : option Z;
  environment : option string;
  episode_rewards : option (list Q);
  n_steps : option Z
}.

(** The hook's React state, together with whether the socket held in
    [socketRef] is open. *)
Record HookState := {
  socketOpen : bool;
  isConnected : bool;
  isTraining : bool;
  currentEpisode : Z;
  totalEpisodes : Z;
  currentIteration : Z;
  currentDelta : Q;
  avgValue : Q;
  avgReward : Q;
  episodeRewards : list Q;
  deltaHistory : list Q;
  agentPosition : option (Z * Z);
  currentTrajectory : list TrajectoryStep;
  currentEnvironment : string
}.

Definition setIsTraining (v : bool) (h : HookState) : HookState :=
  {| socketOpen := socketOpen h;
     isConnected := isConnected h;
     isTraining := v;
     currentEpisode := currentEpisode h;
     totalEpisodes := totalEpisodes h;
     currentIteration := currentIteration h;
     currentDelta := currentDelta h;
     avgValue := avgValue h;
     avgReward := avgReward h;
     episodeRewards := episodeRewards h;
     deltaHistory := deltaHistory h;
     agentPosition := agentPosition h;
     currentTrajectory := currentTrajectory h;
     currentEnvironment := currentEnvironment h |}.

Definition setCurrentEpisode (v : Z) (h : HookState) : HookState :=
  {| socketOpen := socketOpen h;
     isConnected := isConnected h;
     isTraining := isTraining h;
     currentEpisode := v;
     totalEpisodes := totalEpisodes h;
     currentIteration := currentIteration h;
     currentDelta := currentDelta h;
     avgValue := avgValue h;
     avgReward := avgReward h;
     episodeRewards := episodeRewards h;
     deltaHistory := deltaHistory h;
     agentPosition := agentPosition h;
     currentTrajectory := currentTrajectory h;
     currentEnvironment := currentEnvironment h |}.

Definition setTotalEpisodes (v : Z) (h : HookState) : HookState :=
  {| socketOpen := socketOpen h;
     isConnected := isConnected h;
     isTraining := isTraining h;
     currentEpisode := currentEpisode h;
     totalEpisodes := v;
     currentIteration := currentIteration h;
     currentDelta := currentDelta h;
     avgValue := avgValue h;
     avgReward := avgReward h;
     episodeRewards := episodeRewards h;
     deltaHistory := deltaHistory h;
     agentPosition := agentPosition h;
     currentTrajectory := currentTrajectory h;
     currentEnvironment := currentEnvironment h |}.

Definition setCurrentIteration (v : Z) (h : HookState) : HookState :=
  {| socketOpen := socketOpen h;
     isConnected := isConnected h;
     isTraining := isTraining h;
     currentEpisode := currentEpisode h;
     totalEpisodes := totalEpisodes h;
     currentIteration := v;
     currentDelta := currentDelta h;
     avgValue := avgValue h;
     avgReward := avgReward h;
     episodeRewards := episodeRewards h;
     deltaHistory := deltaHistory h;
     agentPosition := agentPosition h;
     currentTrajectory := currentTrajectory h;
     currentEnvironment := currentEnvironment h |}.

Definition setCurrentDelta (v : Q) (h : HookState) : HookState :=
  {| socketOpen := socketOpen h;
     isConnected := isConnected h;
     isTraining := isTraining h;
     currentEpisode := currentEpisode h;
     totalEpisodes := totalEpisodes h;
     currentIteration := currentIteration h;
     currentDelta := v;
     avgValue := avgValue h;
     avgReward := avgReward h;
     episodeRewards := episodeRewards h;
     deltaHistory := deltaHistory h;
     agentPosition := agentPosition h;
     currentTrajectory := currentTrajectory h;
     currentEnvironment := currentEnvironment h |}.

Definition setAvgValue (v : Q) (h : HookState) : HookState :=
  {| socketOpen := socketOpen h;
     isConnected := isConnected h;
     isTraining := isTraining h;
     currentEpisode := currentEpisode h;
     totalEpisodes := totalEpisodes h;
     currentIteration := currentIteration h;
     currentDelta := currentDelta h;
     avgValue := v;
     avgReward := avgReward h;
     episodeRewards := episodeRewards h;
     deltaHistory := deltaHistory h;
     agentPosition := agentPosition h;
     currentTrajectory := currentTrajectory h;
     currentEnvironment := currentEnvironment h |}.

Definition setAvgReward (v : Q) (h : HookState) : HookState :=
  {| socketOpen := socketOpen h;
     isConnected := isConnected h;
     isTraining := isTraining h;
     currentEpisode := currentEpisode h;
     totalEpisodes := totalEpisodes h;
     currentIteration := currentIteration h;
     currentDelta := currentDelta h;
     avgValue := avgValue h;
     avgReward := v;
     episodeRewards := episodeRewards h;
     deltaHistory := deltaHistory h;
     agentPosition := agentPosition h;
     currentTrajectory := currentTrajectory h;
     currentEnvironment := currentEnvironment h |}.

Definition setEpisodeRewards (v : list Q) (h : HookState) : HookState :=
  {| socketOpen := socketOpen h;
     isConnected := isConnected h;
     isTraining := isTraining h;
     currentEpisode := currentEpisode h;
     totalEpisodes := totalEpisodes h;
     currentIteration := currentIteration h;
     currentDelta := currentDelta h;
     avgValue := avgValue h;
     avgReward := avgReward h;
     episodeRewards := v;
     deltaHistory := deltaHistory h;
     agentPosition := agentPosition h;
     currentTrajectory := currentTrajectory h;
     currentEnvironment := currentEnvironment h |}.

Definition setDeltaHistory (v : list Q) (h : HookState) : HookState :=
  {| socketOpen := socketOpen h;
     isConnected := isConnected h;
     isTraining := isTraining h;
     currentEpisode := currentEpisode h;
     totalEpisodes := totalEpisodes h;
     currentIteration := currentIteration h;
     currentDelta := currentDelta h;
     avgValue := avgValue h;
     avgReward := avgReward h;
     episodeRewards := episodeRewards h;
     deltaHistory := v;
     agentPosition := agentPosition h;
     currentTrajectory := currentTrajectory h;
     currentEnvironment := currentEnvironment h |}.

Definition setAgentPosition (v : option (Z * Z)) (h : HookState) : HookState :=
  {| socketOpen := socketOpen h;
     isConnected := isConnected h;
     isTraining := isTraining h;
     currentEpisode := currentEpisode h;
     totalEpisodes := totalEpisodes h;
     currentIteration := currentIteration h;
     currentDelta := currentDelta h;
     avgValue := avgValue h;
     avgReward := avgReward h;
     episodeRewards := episodeRewards h;
     deltaHistory := deltaHistory h;
     agentPosition := v;
     currentTrajectory := currentTrajectory h;
     currentEnvironment := currentEnvironment h |}.

Definition setCurrentTrajectory (v : list TrajectoryStep) (h : HookState) : HookState :=
  {| socketOpen := socketOpen h;
     isConnected := isConnected h;
     isTraining := isTraining h;
     currentEpisode := currentEpisode h;
     totalEpisodes := totalEpisodes h;
     currentIteration := currentIteration h;
     currentDelta := currentDelta h;
     avgValue := avgValue h;
     avgReward := avgReward h;
     episodeRewards := episodeRewards h;
     deltaHistory := deltaHistory h;
     agentPosition := agentPosition h;
     currentTrajectory := v;
     currentEnvironment := currentEnvironment h |}.

Definition setCurrentEnvironment (v : string) (h : HookState) : HookState :=
  {| socketOpen := socketOpen h;
     isConnected := isConnected h;
     isTraining := isTraining h;
     currentEpisode := currentEpisode h;
     totalEpisodes := totalEpisodes h;
     currentIteration := currentIteration h;
     currentDelta := currentDelta h;
     avgValue := avgValue h;
     avgReward := avgReward h;
     episodeRewards := episodeRewards h;
     deltaHistory := deltaHistory h;
     agentPosition := agentPosition h;
     currentTrajectory := currentTrajectory h;
     currentEnvironment := v |}.

(** What the hook dispatches to the Redux store. *)
Inductive Action :=
| SetProgress (payload : Q)
| SetValueFunction (payload : gmap string Q)
| SetPolicy (payload : gmap string Z)
| SetTrained (payload : bool)
| UpdateCurrentPosition (payload : Z * Z)
| SetBreakoutState (payload : EnvSlice.BreakoutState).

Record Store := {
  st_environment : EnvSlice.EnvState;
  st_algorithm : AlgoSlice.AlgoState;
  st_parameters : ParamSlice.ParamState;
  st_simulation : SimulationSlice.SimulationState
}.

Definition reduce (s : Store) (a : Action) : Store :=
  match a with
  | SetProgress p =>
      {| st_environment := st_environment s; st_algorithm := st_algorithm s;
         st_parameters := st_parameters s;
         st_simulation := SimulationSlice.setProgress (st_simulation s) p |}
  | SetValueFunction v =>
      {| st_environment := st_environment s;
         st_algorithm := AlgoSlice.setValueFunction (st_algorithm s) v;
         st_parameters := st_parameters s; st_simulation := st_simulation s |}
  | SetPolicy p =>
      {| st_environment := st_environment s;
         st_algorithm := AlgoSlice.setPolicy (st_algorithm s) p;
         st_parameters := st_parameters s; st_simulation := st_simulation s |}
  | SetTrained b =>
      {| st_environment := st_environment s;
         st_algorithm := AlgoSlice.setTrained (st_algorithm s) b;
         st_parameters := st_parameters s; st_simulation := st_simulation s |}
  | UpdateCurrentPosition p =>
      {| st_environment := EnvSlice.updateCurrentPosition (st_environment s) p;
         st_algorithm := st_algorithm s;
         st_parameters := st_parameters s; st_simulation := st_simulation s |}
  | SetBreakoutState b =>
      {| st_environment := EnvSlice.setBreakoutState (st_environment s) b;
         st_algorithm := st_algorithm s;
         st_parameters := st_parameters s; st_simulation := st_simulation s |}
  end.

Definition dispatchAll (s : Store) (acts : list Action) : Store :=
  fold_left reduce acts s.

(** A handler's effect: the next hook state and the actions it
    dispatched, in order. *)
Definition Effect : Type := HookState * list Action.

Definition updatePositionFromStep (step : TrajectoryStep) (h : HookState) : Effect :=
  match step with
  | BreakoutStep _ paddle ball _ _ _ =>
      (setAgentPosition (Some (paddle, snd ball)) h,
       [SetBreakoutState {| EnvSlice.paddlePosition := paddle;
                            EnvSlice.ballPosition := ball;
                            EnvSlice.bricks := [];
                            EnvSlice.score := 0 |};
        UpdateCurrentPosition (paddle, snd ball)])
  | GridworldStep _ pos _ _ | FrozenLakeStep _ pos _ _ _ =>
      (setAgentPosition (Some pos) h, [UpdateCurrentPosition pos])
  end.

(** [animateTrajectory] up to its first frame, which runs inside the
    call; the later frames run from timers and go through
    [updatePositionFromStep] as well. *)
Definition animateTrajectory (traj : list TrajectoryStep) (h : HookState) : Effect :=
  let maxStepsToAnimate := Nat.min (length traj) 10 in
  let startIdx := (length traj - maxStepsToAnimate)%nat in
  match traj !! startIdx with
  | Some step => updatePositionFromStep step h
  | None => (h, [])
  end.

Definition setEnvironmentIfGiven (e : option string) (h : HookState) : HookState :=
  match e with
  | Some s => if truthyS s then setCurrentEnvironment s h else h
  | None => h
  end.

(** [data.converged ? 100 : Math.min(95, (1 - Math.min(data.delta || 1, 1)) * 100)] *)
Definition dpProgress (data : TrainingUpdate) : Q :=
  if truthyB (converged data) then 100
  else Qmin 95 ((1 - Qmin (orQ (delta data) 1) 1) * 100).

Definition dispatchSampleValues (data : TrainingUpdate) : list Action :=
  match sample_values data with
  | Some sv => [SetValueFunction sv]
  | None => []
  end.

(** [ws.onmessage], after [JSON.parse]. *)
Definition onmessage (data : TrainingUpdate) (h : HookState) : Effect :=
  if String.eqb (type data) "connection_established" then (h, [])
  else if String.eqb (type data) "training_started" then
    (setEnvironmentIfGiven (environment data)
       (setTotalEpisodes (orZ (total_episodes data) 0) (setIsTraining true h)), [])
  else if String.eqb (type data) "dp_started" then
    (setEnvironmentIfGiven (environment data) (setIsTraining true h), [])
  else if String.eqb (type data) "agent_step" then
    match trajectory data with
    | Some (step :: rest) =>
        animateTrajectory (step :: rest) (setCurrentTrajectory (step :: rest) h)
    | _ => (h, [])
    end
  else if String.eqb (type data) "training_progress" then
    let h1 := setCurrentEpisode (orZ (episode data) 0) h in
    let h2 := setTotalEpisodes (orZ (total_episodes data) 0) h1 in
    let h3 := setAvgValue (orQ (avg_value data) 0) h2 in
    let h4 := setAvgReward (orQ (avg_reward data) 0) h3 in
    let h5 := match episode_rewards data with
              | Some (r :: rs) => setEpisodeRewards (r :: rs) h4
              | _ => h4
              end in
    (h5, SetProgress (orQ (progress data) 0) :: dispatchSampleValues data)
  else if String.eqb (type data) "dp_iteration" then
    let h1 := setCurrentIteration (orZ (iteration data) 0) h in
    let h2 := setCurrentDelta (orQ (delta data) 0) h1 in
    let h3 := setAvgValue (orQ (avg_value data) 0) h2 in
    let h4 := match delta data with
              | Some d => setDeltaHistory (deltaHistory h3 ++ [d]) h3
              | None => h3
              end in
    (h4, SetProgress (dpProgress data) :: dispatchSampleValues data)
  else if String.eqb (type data) "training_complete" then
    let h1 := setIsTraining false h in
    let h2 := match episode_rewards data with
              | Some rs => setEpisodeRewards rs h1
              | None => h1
              end in
    (h2,
     ([SetProgress 100]
        ++ match value_function data with Some v => [SetValueFunction v] | None => [] end
        ++ match policy data with Some p => [SetPolicy p] | None => [] end
        ++ [SetTrained true])%list)
  else if String.eqb (type data) "training_stopped" then (setIsTraining false h, [])
  else if String.eqb (type data) "error" then (setIsTraining false h, [])
  else (h, []).

(** [mapAlgorithmName]: [mapping[algorithm] || algorithm]. *)
Definition mapping : gmap string string :=
  <["value_iteration" := "value_iteration"]>
  (<["policy_iteration" := "policy_iteration"]>
  (<["mc_first_visit" := "monte_carlo_first_visit"]>
  (<["mc_every_visit" := "monte_carlo_every_visit"]>
  (<["mc_control" := "monte_carlo_control"]>
  (<["td_zero" := "td_zero"]>
  (<["sarsa" := "sarsa"]>
  (<["n_step_td" := "n_step_td"]> ∅))))))).

Definition mapAlgorithmName (algorithm : string) : string :=
  match mapping !! algorithm with
  | Some name => if truthyS name then name else algorithm
  | None => algorithm
  end.

(** What the hook writes to the socket. *)
Record StartTraining := {
  m_algorithm : string;
  m_environment : string;
  m_grid_size : Z;
  m_agent_position : Z * Z;
  m_goal_position : Z * Z;
  m_gamma : Q;
  m_theta : Q;
  m_num_episodes : Z;
  m_alpha : Q;
  m_epsilon : Q;
  m_is_slippery : option bool;
  m_num_brick_rows : option Z;
  m_n_steps : option Z
}.

Inductive Outgoing :=
| start_training (m : StartTraining)
| stop_training.

Definition startTrainingMessage (config : TrainingConfig) : StartTraining := {|
  m_algorithm := mapAlgorithmName (algorithm_literal (tc_algorithm config));
  m_environment := environment_literal (tc_environment config);
  m_grid_size := tc_gridSize config;
  m_agent_position := tc_agentPosition config;
  m_goal_position := tc_goalPosition config;
  m_gamma := tc_gamma config;
  m_theta := tc_theta config;
  m_num_episodes := tc_numEpisodes config;
  m_alpha := tc_alpha config;
  m_epsilon := tc_epsilon config;
  m_is_slippery := tc_isSlippery config;
  m_num_brick_rows := tc_numBrickRows config;
  m_n_steps := tc_nSteps config
|}.

(** [sendStartTraining]: nothing happens on a closed socket; otherwise
    the counters are reset and one [start_training] message is sent. *)
Definition sendStartTraining (config : TrainingConfig) (h : HookState)
  : Effect * list Outgoing :=
  if socketOpen h then
    (setCurrentEnvironment (environment_literal (tc_environment config))
       (setAgentPosition (Some (tc_agentPosition config))
       (setDeltaHistory []
       (setEpisodeRewards []
       (setAvgReward 0
       (setAvgValue 0
       (setCurrentDelta 0
       (setCurrentIteration 0
       (setCurrentEpisode 0 h)))))))),
     [SetProgress 0; UpdateCurrentPosition (tc_agentPosition config)],
     [start_training (startTrainingMessage config)])
  else (h, [], []).

(** [stopTraining]: the request is sent on an open socket, and the
    training flag is dropped at once in either case. *)
Definition stopTraining (h : HookState) : HookState * list Outgoing :=
  (setIsTraining false h, if socketOpen h then [stop_training] else []).

End Hook.

(** ** The training core behind the socket

    The engines and the session driver run on the server, whose code is
    not part of the client sources; they are written here from sections 3
    to 5 of the specification. *)
Module Core.

(** The strict comparison [x < y] as a test. *)
Definition Qltb (x y : Q) : bool := negb (Qle_bool y x).

(** Modelled from the spec: the greedy choice, [argmax] with ties broken
    towards the lowest action index (section 3, Policy). *)
Fixpoint argmax_from (vals : list Q) (i best_i : nat) (best_v : Q) : nat :=
  match vals with
  | [] => best_i
  | v :: vs =>
      if Qltb best_v v then argmax_from vs (S i) i v
      else argmax_from vs (S i) best_i best_v
  end.

(** Modelled from the spec: the server's [argmax] over the values of the
    actions 0, 1, ...; the first of several equal maxima wins. *)
Definition argmax (vals : list Q) : nat :=
  match vals with
  | [] => O
  | v :: vs => argmax_from vs 1%nat O v
  end.

(** Modelled from the spec: the server's [max_a] of the backup, the
    largest of the action values (0 when there is no action). *)
Definition best (vals : list Q) : Q :=
  match vals with
  | [] => 0%Q
  | v :: vs => fold_left Qmax vs v
  end.

(** Modelled from the spec: the factor [(1 - terminated)], resp.
    [(1 - done)], of the server's backups. *)
Definition unless (flag : bool) : Q := if flag then 0%Q else 1%Q.

(** *** Dynamic-programming engine: value iteration (section 4.2) *)
Section ValueIteration.
Context {State : Type} `{Countable State}.

(** Modelled from the spec: the environment contract that the DP
    engine consumes (section 4.1): the enumerated states, the number
    of actions, the one-step distribution as
    (probability, next state, reward, terminated), and the terminal
    states. *)
Record Model := {
  enumerate_states : list State;
  n_actions : nat;
  transition_model : State -> nat -> list (Q * State * Q * bool);
  is_terminal : State -> bool
}.

Variable env : Model.
Variable gamma theta : Q.

(** Modelled from the spec: a value function is a mapping with
    default 0 for unseen states (section 3). *)
Definition value_at (V : gmap State Q) (s : State) : Q :=
  match V !! s with
  | Some v => v
  | None => 0%Q
  end.

(** Modelled from the spec: the server's expected one-step return of an
    action, [Σ P(sp|s,a) (R + γ V(sp) (1 - terminated))]. *)
Definition action_value (V : gmap State Q) (s : State) (a : nat) : Q :=
  fold_right
    (fun '(p, sp, r, term) acc =>
       (p * (r + gamma * value_at V sp * unless term) + acc)%Q)
    0%Q (transition_model env s a).

(** Modelled from the spec: the values of all actions in a state, in
    the order of the action indices. *)
Definition action_values (V : gmap State Q) (s : State) : list Q :=
  map (action_value V s) (seq 0 (n_actions env)).

(** Modelled from the spec: the Bellman backup; a terminal state is
    pinned at 0. *)
Definition backup (V : gmap State Q) (s : State) : Q :=
  if is_terminal env s then 0%Q else best (action_values V s).

(** Modelled from the spec: one increment, a full synchronous sweep.
    Every new value is computed from the old table [V]; the result is
    the new table and [δ = max_s |V'(s) - V(s)|]. *)
Definition sweep (V : gmap State Q) : gmap State Q * Q :=
  fold_left
    (fun '(V', d) s =>
       let v := backup V s in
       (<[s := v]> V', Qmax d (Qabs (v - value_at V s))))
    (enumerate_states env) (V, 0%Q).

(** Modelled from the spec: the policy derived by [argmax] over the same
    backup from a table. *)
Definition greedy_policy (V : gmap State Q) : gmap State nat :=
  list_to_map (map (fun s => (s, argmax (action_values V s)))
                   (enumerate_states env)).

(** Modelled from the spec: the two terminal outcomes of the DP engine,
    [completed] with the table, the policy, the number of sweeps and the
    last δ, and [failed] with its reason and the last δ. *)
Inductive dp_outcome :=
| dp_converged (V : gmap State Q) (policy : gmap State nat)
               (sweeps : nat) (delta : Q)
| dp_failed (reason : string) (sweeps : nat) (last_delta : Q).

(** Modelled from the spec: the engine loop.  A sweep is made; when
    [δ < θ] the engine has converged; otherwise it goes on while the
    safety bound allows and reports the failure with the last δ when
    it does not.  [more] is the number of sweeps still allowed after
    the current one. *)
Fixpoint vi_loop (more done : nat) (V : gmap State Q) : dp_outcome :=
  let '(V', d) := sweep V in
  if Qltb d theta then dp_converged V' (greedy_policy V') (S done) d
  else match more with
       | O => dp_failed "did not converge" (S done) d
       | S m => vi_loop m (S done) V'
       end.

(** Modelled from the spec: value iteration from the all-zero table.
    The safety bound counts sweeps; at least one sweep is made. *)
Definition value_iteration (safety_bound : nat) : dp_outcome :=
  vi_loop (safety_bound - 1) 0 ∅.

(** The table after [k] sweeps from the table [V]. *)
Fixpoint after_sweeps (k : nat) (V : gmap State Q) : gmap State Q :=
  match k with
  | O => V
  | S k' => after_sweeps k' (fst (sweep V))
  end.

End ValueIteration.

(** *** Temporal-difference engine: SARSA (section 4.4) *)
Section Sarsa.
Context {State : Type} `{Countable State}.
Context {Rng : Type}.

(** Modelled from the spec: the result of one environment step
    (section 3, Transition). *)
Record Transition := {
  next_state : State;
  reward : Q;
  terminated : bool;
  truncated : bool
}.

(** Modelled from the spec: the environment as the sampling engines
    use it (section 4.1), with the random source threaded through,
    and the two draws ε-greedy selection needs. *)
Record Simulator := {
  sim_actions : nat;
  reset : Rng -> State * Rng;
  step : State -> nat -> Rng -> Transition * Rng;
  uniform : Rng -> Q * Rng;
  randint : nat -> Rng -> nat * Rng
}.

Variable sim : Simulator.
Variable gamma alpha epsilon : Q.

(** Modelled from the spec: a Q-table is a mapping on (state, action)
    with default 0 (section 3). *)
Definition q_at (Qt : gmap (State * nat) Q) (s : State) (a : nat) : Q :=
  match Qt !! (s, a) with
  | Some v => v
  | None => 0%Q
  end.

(** Modelled from the spec: the greedy action of a state under a
    Q-table. *)
Definition greedy_action (Qt : gmap (State * nat) Q) (s : State) : nat :=
  argmax (map (q_at Qt s) (seq 0 (sim_actions sim))).

(** Modelled from the spec: the server's ε-greedy selection from Q at a
    state: with probability ε a uniformly drawn action, else the greedy
    one. *)
Definition epsilon_greedy (Qt : gmap (State * nat) Q) (s : State) (g : Rng)
  : nat * Rng :=
  let '(u, g1) := uniform sim g in
  if Qltb u epsilon then randint sim (sim_actions sim) g1
  else (greedy_action Qt s, g1).

(** One recorded transition of a run: the table and the random source
    the selection of [A'] saw, the action executed, and the [A'] used
    in the update. *)
Record Recorded := {
  r_table : gmap (State * nat) Q;
  r_state : State;
  r_action : nat;
  r_reward : Q;
  r_next_state : State;
  r_seed : Rng;
  r_next_action : nat;
  r_done : bool;
  r_updated : gmap (State * nat) Q
}.

(** Modelled from the spec: the server's SARSA update,
    [Q(S,A) ← Q(S,A) + α (R + γ Q(S',A') (1 - done) - Q(S,A))]. *)
Definition td_update (Qt : gmap (State * nat) Q) (s : State) (a : nat)
           (r : Q) (s' : State) (a' : nat) (done : bool)
  : gmap (State * nat) Q :=
  <[(s, a) := (q_at Qt s a
               + alpha * (r + gamma * q_at Qt s' a' * unless done
                          - q_at Qt s a))%Q]> Qt.

(** Modelled from the spec: the body of a SARSA episode.  The
    environment is stepped with the action in hand, [A'] is selected
    from the table as it is before the update, the update is made with
    that [A'], and [A'] is the action in hand for the next step.
    [cap] bounds the length of the episode. *)
Fixpoint sarsa_steps (cap : nat) (Qt : gmap (State * nat) Q)
         (s : State) (a : nat) (g : Rng)
  : gmap (State * nat) Q * Rng * list Recorded :=
  match cap with
  | O => (Qt, g, [])
  | S cap' =>
      let '(tr, g1) := step sim s a g in
      let '(a', g2) := epsilon_greedy Qt (next_state tr) g1 in
      let Qt' := td_update Qt s a (reward tr) (next_state tr) a'
                           (terminated tr) in
      let rec := {| r_table := Qt; r_state := s; r_action := a;
                    r_reward := reward tr;
                    r_next_state := next_state tr; r_seed := g1;
                    r_next_action := a'; r_done := terminated tr;
                    r_updated := Qt' |} in
      if terminated tr || truncated tr then (Qt', g2, [rec])
      else
        let '(Qf, gf, log) := sarsa_steps cap' Qt' (next_state tr) a' g2 in
        (Qf, gf, rec :: log)
  end.

(** Modelled from the spec: one increment of the server's TD engine, a
    full episode from [reset]; the first action is selected by ε-greedy
    at the start state. *)
Definition sarsa_episode (cap : nat) (Qt : gmap (State * nat) Q) (g : Rng)
  : gmap (State * nat) Q * Rng * list Recorded :=
  let '(s0, g1) := reset sim g in
  let '(a0, g2) := epsilon_greedy Qt s0 g1 in
  sarsa_steps cap Qt s0 a0 g2.

(** Modelled from the spec: the server's training run, one episode
    after the other on the same table, each with its record. *)
Fixpoint sarsa_run (episodes cap : nat) (Qt : gmap (State * nat) Q) (g : Rng)
  : gmap (State * nat) Q * Rng * list (list Recorded) :=
  match episodes with
  | O => (Qt, g, [])
  | S n =>
      let '(Qt1, g1, log) := sarsa_episode cap Qt g in
      let '(Qf, gf, logs) := sarsa_run n cap Qt1 g1 in
      (Qf, gf, log :: logs)
  end.

(** The invariant a record must satisfy: each [A'] is the selection
    made from the table before the update, the update uses it, and the
    next transition starts in [S'] and executes that very [A']. *)
Definition selected_before_update (e : Recorded) : Prop :=
  r_next_action e = fst (epsilon_greedy (r_table e) (r_next_state e) (r_seed e))
  /\ r_updated e = td_update (r_table e) (r_state e) (r_action e)
                             (r_reward e) (r_next_state e)
                             (r_next_action e) (r_done e).

Fixpoint on_policy (log : list Recorded) : Prop :=
  match log with
  | e1 :: ((e2 :: _) as rest) =>
      r_action e2 = r_next_action e1
      /\ r_state e2 = r_next_state e1
      /\ r_table e2 = r_updated e1
      /\ on_policy rest
  | _ => True
  end.

(** The record of an episode body starts with the action in hand, in the
    state and with the table it was entered with. *)
Definition starts_with (log : list Recorded) (Qt : gmap (State * nat) Q)
           (s : State) (a : nat) : Prop :=
  match log with
  | e :: _ => r_action e = a /\ r_state e = s /\ r_table e = Qt
  | [] => True
  end.

End Sarsa.

(** *** Training session (sections 4.5, 5 and 6) *)
Section Session.
Context {Store Request Sample Table Policy : Type}.

(** Modelled from the spec: the status an engine returns after a unit
    (section 9): it goes on, it is done, or it met an unrecoverable
    error. *)
Inductive unit_status :=
| unit_more
| unit_last
| unit_fault (reason : string).

(** Modelled from the spec: a server engine as the session driver sees
    it, which runs one unit and returns its status (section 9): the store
    after the unit, its δ or reward, and the status; the validation of a
    request; and what an event shows of a store. *)
Record Engine := {
  validate : Request -> bool;
  total_units : Request -> nat;
  initial_store : Request -> Store;
  run_unit : Store -> Store * Q * unit_status;
  sample_of : Store -> Sample;
  table_of : Store -> Table;
  policy_of : Store -> Policy
}.

Variable engine : Engine.

(** Modelled from the spec: the lifecycle of the server's session
    (section 4.5). *)
Inductive lifecycle_state := idle | running | completed | cancelled | failed.

(** Modelled from the spec: the events of the server's session
    (section 6). *)
Inductive event :=
| ev_training_started (total : nat)
| ev_progress (unit_index : nat) (delta_or_reward : Q) (sample_values : Sample)
| ev_completed (value_function : Table) (policy : Policy) (history : list Q)
| ev_cancelled (partial_value_function : Table) (history : list Q)
| ev_failed (reason : string).

(** Modelled from the spec: the state of the server's session: its
    lifecycle, the cancellation flag, the engine's store, the number of
    increments completed, whether the last one was the engine's last, and
    the history of δ or reward values. *)
Record session := {
  lifecycle : lifecycle_state;
  cancel_flag : bool;
  store : option Store;
  unit_index : nat;
  engine_done : bool;
  history : list Q
}.

(** Modelled from the spec: a session before [start]. *)
Definition new_session : session :=
  {| lifecycle := idle; cancel_flag := false; store := None;
     unit_index := 0; engine_done := false; history := [] |}.

Definition is_progress (e : event) : bool :=
  match e with
  | ev_progress _ _ _ => true
  | _ => false
  end.

Definition is_completed (e : event) : bool :=
  match e with
  | ev_completed _ _ _ => true
  | _ => false
  end.

(** Modelled from the spec: [start] validates before a running
    session exists; an invalid request leaves the session as it is. *)
Definition start (req : Request) (s : session) : session * list event :=
  match lifecycle s with
  | idle =>
      if validate engine req then
        ({| lifecycle := running; cancel_flag := false;
            store := Some (initial_store engine req);
            unit_index := 0; engine_done := false; history := [] |},
         [ev_training_started (total_units engine req)])
      else (s, [])
  | _ => (s, [])
  end.

(** Modelled from the spec: [stop] only sets the cancellation flag. *)
Definition stop (s : session) : session :=
  match lifecycle s with
  | running =>
      {| lifecycle := running; cancel_flag := true; store := store s;
         unit_index := unit_index s; engine_done := engine_done s;
         history := history s |}
  | _ => s
  end.

(** Modelled from the spec: the move to a terminal state, which keeps
    what the session holds. *)
Definition finish (l : lifecycle_state) (s : session) : session :=
  {| lifecycle := l; cancel_flag := cancel_flag s; store := store s;
     unit_index := unit_index s; engine_done := engine_done s;
     history := history s |}.

(** Modelled from the spec: one increment and the progress event that
    reports it; an engine error ends the session as [failed]. *)
Definition increment (st : Store) (s : session) : session * list event :=
  match run_unit engine st with
  | (_, _, unit_fault reason) => (finish failed s, [ev_failed reason])
  | (st', m, status) =>
      ({| lifecycle := running; cancel_flag := cancel_flag s;
          store := Some st'; unit_index := S (unit_index s);
          engine_done := match status with unit_last => true | _ => false end;
          history := (history s ++ [m])%list |},
       [ev_progress (S (unit_index s)) m (sample_of engine st')])
  end.

(** Modelled from the spec: one turn of the driver.  At an increment
    boundary the progress event has been emitted already; the
    cancellation flag is looked at next, then whether the engine was
    done, and only then is another increment run.  Before the first
    increment there is no boundary, so every run reports at least one
    increment. *)
Definition turn (s : session) : session * list event :=
  match lifecycle s, store s with
  | running, Some st =>
      if (0 <? unit_index s)%nat && cancel_flag s then
        (finish cancelled s, [ev_cancelled (table_of engine st) (history s)])
      else if engine_done s then
        (finish completed s,
         [ev_completed (table_of engine st) (policy_of engine st) (history s)])
      else increment st s
  | _, _ => (s, [])
  end.

(** Modelled from the spec: what reaches the server's session, the two
    commands of section 6 and the driver's own turns. *)
Inductive input :=
| in_start (req : Request)
| in_stop
| in_turn.

Definition handle (s : session) (i : input) : session * list event :=
  match i with
  | in_start req => start req s
  | in_stop => (stop s, [])
  | in_turn => turn s
  end.

(** Modelled from the spec: a schedule of commands and driver turns,
    with the events the session emits. *)
Fixpoint run (s : session) (ins : list input) : session * list event :=
  match ins with
  | [] => (s, [])
  | i :: rest =>
      let '(s1, e1) := handle s i in
      let '(s2, e2) := run s1 rest in
      (s2, (e1 ++ e2)%list)
  end.

Definition has_turn (ins : list input) : bool :=
  existsb (fun i => match i with in_turn => true | _ => false end) ins.

(** What holds of a session reached from a new one, with the events emitted
    so far: a running session has a store; an idle one has emitted nothing;
    and once a running session has emitted a progress event it has
    completed an increment. *)
Definition reached (s : session) (evs : list event) : Prop :=
  (lifecycle s = running -> exists st, store s = Some st)
  /\ (lifecycle s = idle -> evs = [])
  /\ (lifecycle s = running ->
      existsb is_progress evs = true -> (0 < unit_index s)%nat).

End Session.

End Core.

(** ** Formulas and sample data the statements below refer to *)
Module Stated.
Import Hook.

(** The DP progress formula in the words of the specification claim: 100
    when converged, otherwise [min(95, (1 - min(delta, 1)) * 100)]. *)
Definition claimed_dpProgress (converged : bool) (delta : Q) : Q :=
  if converged then 100 else Qmin 95 ((1 - Qmin delta 1) * 100).

(** The same message with other [value_function] and [policy] fields. *)
Definition withResults (vf : option (gmap string Q)) (p : option (gmap string Z))
           (data : TrainingUpdate) : TrainingUpdate :=
  {| type := type data; episode := episode data;
     total_episodes := total_episodes data; progress := progress data;
     iteration := iteration data; delta := delta data;
     converged := converged data; sample_values := sample_values data;
     value_function := vf; policy := p;
     avg_value := avg_value data; avg_reward := avg_reward data;
     episode_reward := episode_reward data;
     states_evaluated := states_evaluated data;
     trajectory := trajectory data; episode_length := episode_length data;
     environment := environment data;
     episode_rewards := episode_rewards data; n_steps := n_steps data |}.

Definition isProgressType (data : TrainingUpdate) : bool :=
  String.eqb (type data) "training_progress"
  || String.eqb (type data) "dp_iteration".

(** The hook fields that are no statistics of a run: the socket and
    connection flags, the training flag, the agent position, the
    trajectory and the environment name. *)
Definition sameSession (h h' : HookState) : Prop :=
  socketOpen h' = socketOpen h
  /\ isConnected h' = isConnected h
  /\ isTraining h' = isTraining h
  /\ agentPosition h' = agentPosition h
  /\ currentTrajectory h' = currentTrajectory h
  /\ currentEnvironment h' = currentEnvironment h.

(** Actions that write the policy or the trained flag. *)
Definition writesResult (a : Action) : bool :=
  match a with
  | SetPolicy _ | SetTrained _ => true
  | _ => false
  end.

(** A message of the given type with every optional field absent. *)
Definition bare (t : string) : TrainingUpdate :=
  {| type := t; episode := None; total_episodes := None; progress := None;
     iteration := None; delta := None; converged := None;
     sample_values := None; value_function := None; policy := None;
     avg_value := None; avg_reward := None; episode_reward := None;
     states_evaluated := None; trajectory := None; episode_length := None;
     environment := None; episode_rewards := None; n_steps := None |}.

Definition dpIteration (d : option Q) (c : option bool) : TrainingUpdate :=
  {| type := "dp_iteration"; episode := None; total_episodes := None;
     progress := None; iteration := Some 3; delta := d; converged := c;
     sample_values := Some {[ "(0, 0)" := (1 # 2)%Q ]};
     value_function := None; policy := None;
     avg_value := None; avg_reward := None; episode_reward := None;
     states_evaluated := None; trajectory := None; episode_length := None;
     environment := None; episode_rewards := None; n_steps := None |}.

Definition freshHook : HookState :=
  {| socketOpen := true; isConnected := true; isTraining := true;
     currentEpisode := 0; totalEpisodes := 0; currentIteration := 0;
     currentDelta := 0; avgValue := 0; avgReward := 0;
     episodeRewards := []; deltaHistory := []; agentPosition := None;
     currentTrajectory := []; currentEnvironment := "gridworld" |}.

Definition freshStore : Store :=
  {| st_environment := EnvSlice.initialState;
     st_algorithm := AlgoSlice.initialState;
     st_parameters := ParamSlice.initialState;
     st_simulation := SimulationSlice.initialState |}.

(** The three front-end identifiers the REST path sends as they are. *)
Definition isMonteCarlo (a : RlTypes.AlgorithmType) : bool :=
  match a with
  | RlTypes.mc_first_visit | RlTypes.mc_every_visit | RlTypes.mc_control => true
  | _ => false
  end.

End Stated.

(** ** Small concrete instances on which the models are run *)
Module Samples.

(** A single state that loops onto itself with reward 1. *)
Definition loop_model : Core.Model (State := nat) :=
  {| Core.enumerate_states := [O];
     Core.n_actions := 1;
     Core.transition_model := fun _ _ => [(1%Q, O, 1%Q, false)];
     Core.is_terminal := fun _ => false |}.

(** A corridor of four cells; action 1 moves right, action 0 left, the
    last cell is the goal. *)
Definition corridor_move (s a : nat) : nat :=
  match a with
  | O => Nat.pred s
  | _ => Nat.min 3 (S s)
  end.

Definition corridor_model : Core.Model (State := nat) :=
  {| Core.enumerate_states := [0; 1; 2; 3]%nat;
     Core.n_actions := 2;
     Core.transition_model := fun s a =>
       let s' := corridor_move s a in
       [(1%Q, s', if (s' =? 3)%nat then 10%Q else (-1)%Q, (s' =? 3)%nat)];
     Core.is_terminal := fun s => (s =? 3)%nat |}.

(** A linear congruential source of draws. *)
Definition next_seed (g : N) : N := ((g * 1103515245 + 12345) mod 2147483648)%N.

Definition corridor_sim : Core.Simulator (State := nat) (Rng := N) :=
  {| Core.sim_actions := 2;
     Core.reset := fun g => (O, g);
     Core.step := fun s a g =>
       let s' := corridor_move s a in
       ({| Core.next_state := s';
           Core.reward := if (s' =? 3)%nat then 10%Q else (-1)%Q;
           Core.terminated := (s' =? 3)%nat;
           Core.truncated := false |}, g);
     Core.uniform := fun g =>
       (Z.of_N ((g / 65536) mod 100) # 100, next_seed g);
     Core.randint := fun n g =>
       (N.to_nat ((g / 65536) mod N.of_nat n), next_seed g) |}.

(** An engine that counts its units: the store is (units done, units
    asked for). *)
Definition counting_engine
  : Core.Engine (Store := nat * nat) (Request := nat)
                (Sample := nat) (Table := nat) (Policy := nat) :=
  {| Core.validate := fun req => (0 <? req)%nat;
     Core.total_units := fun req => req;
     Core.initial_store := fun req => (O, req);
     Core.run_unit := fun st =>
       ((S (fst st), snd st), 1%Q,
        if (S (fst st) =? snd st)%nat then Core.unit_last else Core.unit_more);
     Core.sample_of := fst;
     Core.table_of := fst;
     Core.policy_of := fst |}.

End Samples.

(** ** types/rl.types.ts: the algorithm and environment tables *)
Module Tables.
Import RlTypes.

Inductive Category := dp | mc | td.

Record ParameterConfig := {
  p_name : string;
  p_key : string;
  p_min : Q;
  p_max : Q;
  p_step : Q;
  p_default : Q;
  p_description : string
}.

Record AlgorithmInfo := {
  a_id : AlgorithmType;
  a_name : string;
  a_category : Category;
  a_description : string;
  a_parameters : list ParameterConfig
}.

Record EnvironmentInfo := {
  e_id : EnvironmentType;
  e_name : string;
  e_description : string;
  e_parameters : list ParameterConfig
}.

(** The three parameter rows that are written identically wherever they
    occur in [ALGORITHMS]. *)
Definition discountFactor : ParameterConfig :=
  {| p_name := "Discount Factor"; p_key := "gamma"; p_min := 0; p_max := 1;
     p_step := 1 # 100; p_default := 99 # 100;
     p_description := "How much to discount future rewards (γ)" |}.

Definition convergenceThreshold : ParameterConfig :=
  {| p_name := "Convergence Threshold"; p_key := "theta"; p_min := 1 # 10000;
     p_max := 1 # 10; p_step := 1 # 10000; p_default := 1 # 10000;
     p_description := "Threshold for determining convergence" |}.

Definition episodes : ParameterConfig :=
  {| p_name := "Episodes"; p_key := "num_episodes"; p_min := 100;
     p_max := 10000; p_step := 100; p_default := 1000;
     p_description := "Number of episodes to sample" |}.

Definition explorationRate : ParameterConfig :=
  {| p_name := "Epsilon"; p_key := "epsilon"; p_min := 0; p_max := 1;
     p_step := 1 # 100; p_default := 1 # 10;
     p_description := "Exploration rate for ε-greedy policy" |}.

Definition learningRate (description : string) : ParameterConfig :=
  {| p_name := "Learning Rate"; p_key := "alpha"; p_min := 0; p_max := 1;
     p_step := 1 # 100; p_default := 1 # 10;
     p_description := description |}.

Definition ALGORITHMS : list AlgorithmInfo :=
  [ {| a_id := value_iteration; a_name := "Value Iteration"; a_category := dp;
       a_description :=
         "Dynamic programming method that iteratively computes optimal value function.";
       a_parameters := [discountFactor; convergenceThreshold] |};
    {| a_id := policy_iteration; a_name := "Policy Iteration"; a_category := dp;
       a_description :=
         "Alternates between policy evaluation and policy improvement until optimal.";
       a_parameters := [discountFactor; convergenceThreshold] |};
    {| a_id := mc_first_visit; a_name := "Monte Carlo First Visit"; a_category := mc;
       a_description :=
         "Estimates values using first visits to states in sampled episodes.";
       a_parameters := [discountFactor; episodes] |};
    {| a_id := mc_every_visit; a_name := "Monte Carlo Every Visit"; a_category := mc;
       a_description :=
         "Estimates values using every visit to states in sampled episodes.";
       a_parameters := [discountFactor; episodes] |};
    {| a_id := mc_control; a_name := "Monte Carlo Control"; a_category := mc;
       a_description := "Learns optimal policy using ε-greedy Monte Carlo control.";
       a_parameters := [discountFactor; explorationRate; episodes] |};
    {| a_id := td_zero; a_name := "TD(0)"; a_category := td;
       a_description := "Temporal difference learning with one-step bootstrapping.";
       a_parameters :=
         [discountFactor; learningRate "Step size for value updates (α)";
          explorationRate; episodes] |};
    {| a_id := sarsa; a_name := "SARSA"; a_category := td;
       a_description :=
         "On-policy TD control - uses actual next action for bootstrapping.";
       a_parameters :=
         [discountFactor; learningRate "Step size for Q-value updates (α)";
          explorationRate; episodes] |};
    {| a_id := n_step_td; a_name := "n-Step TD"; a_category := td;
       a_description := "Bridge between TD(0) and Monte Carlo using n-step returns.";
       a_parameters :=
         [discountFactor; learningRate "Step size for value updates (α)";
          {| p_name := "N Steps"; p_key := "n_steps"; p_min := 1; p_max := 20;
             p_step := 1; p_default := 3;
             p_description := "Number of steps to look ahead (n)" |};
          episodes] |} ].

Definition gridParameter (name key : string) (lo hi step default : Q)
           (description : string) : ParameterConfig :=
  {| p_name := name; p_key := key; p_min := lo; p_max := hi; p_step := step;
     p_default := default; p_description := description |}.

Definition ENVIRONMENTS : list EnvironmentInfo :=
  [ {| e_id := gridworld; e_name := "Gridworld";
       e_description :=
         "A simple grid environment where an agent navigates to reach a goal.";
       e_parameters :=
         [gridParameter "Grid Size" "grid_size" 3 10 1 4 "Size of the grid (N×N)";
          gridParameter "Agent X" "agent_x" 0 9 1 0 "Agent starting X position";
          gridParameter "Agent Y" "agent_y" 0 9 1 0 "Agent starting Y position";
          gridParameter "Goal X" "goal_x" 0 9 1 3 "Goal X position";
          gridParameter "Goal Y" "goal_y" 0 9 1 3 "Goal Y position"] |};
    {| e_id := frozen_lake; e_name := "Frozen Lake";
       e_description :=
         "Navigate a frozen lake to reach the goal while avoiding holes.";
       e_parameters :=
         [gridParameter "Grid Size" "grid_size" 4 8 4 4 "Size of the lake (4×4 or 8×8)";
          gridParameter "Slippery" "is_slippery" 0 1 1 0
                        "Whether the ice is slippery (stochastic)"] |};
    {| e_id := breakout; e_name := "Breakout";
       e_description :=
         "A simplified Breakout game - paddle catches ball to break bricks.";
       e_parameters :=
         [gridParameter "Grid Size" "grid_size" 5 10 1 5
                        "Size of the playing area (N×N)";
          gridParameter "Brick Rows" "brick_rows" 1 3 1 2 "Number of rows of bricks"] |} ].

(** [a.id === id] on the literals of the union types. *)
Definition sameAlgorithm (a b : AlgorithmType) : bool :=
  String.eqb (algorithm_literal a) (algorithm_literal b).

Definition sameEnvironment (a b : EnvironmentType) : bool :=
  String.eqb (environment_literal a) (environment_literal b).

Definition getAlgorithmById (id : AlgorithmType) : option AlgorithmInfo :=
  List.find (fun a => sameAlgorithm (a_id a) id) ALGORITHMS.

Definition getEnvironmentById (id : EnvironmentType) : option EnvironmentInfo :=
  List.find (fun e => sameEnvironment (e_id e) id) ENVIRONMENTS.

(** A row a range slider can show: the default lies in the range and on
    the grid of steps that starts at the minimum. *)
Definition onSlider (p : ParameterConfig) : bool :=
  Qle_bool (p_min p) (p_default p)
  && Qle_bool (p_default p) (p_max p)
  && negb (Qle_bool (p_step p) 0)
  && (Zpos (Qden (Qred ((p_default p - p_min p) / p_step p))) =? 1).

End Tables.

(** ** The parameter panel ([ParameterSlider]) and the training panel
    ([TrainingPlayer]) *)
Module Panels.
Import RlTypes.

Inductive ParamKey := k_gamma | k_theta | k_numEpisodes | k_alpha | k_epsilon.

Definition paramKeyMap : gmap string ParamKey :=
  <["gamma" := k_gamma]>
  (<["theta" := k_theta]>
  (<["num_episodes" := k_numEpisodes]>
  (<["alpha" := k_alpha]>
  (<["epsilon" := k_epsilon]> ∅)))).

(** [params[stateKey]] *)
Definition readParam (params : ParamSlice.ParamState) (k : ParamKey) : Q :=
  match k with
  | k_gamma => ParamSlice.gamma params
  | k_theta => ParamSlice.theta params
  | k_numEpisodes => inject_Z (ParamSlice.numEpisodes params)
  | k_alpha => ParamSlice.alpha params
  | k_epsilon => ParamSlice.epsilon params
  end.

(** The props of one rendered [ParameterSliderItem]; [s_target] is the
    state key its [onChange] dispatches [setParameter] with. *)
Record SliderItem := {
  s_key : string;
  s_name : string;
  s_value : Q;
  s_min : Q;
  s_max : Q;
  s_step : Q;
  s_description : string;
  s_target : ParamKey
}.

(** The items [ParameterSlider] renders: nothing without an algorithm
    entry, and no item for a parameter whose key is not in [paramKeyMap]. *)
Definition sliders (selectedAlgorithm : AlgorithmType)
           (params : ParamSlice.ParamState) : list SliderItem :=
  match Tables.getAlgorithmById selectedAlgorithm with
  | None => []
  | Some algorithm =>
      omap (fun param =>
              match paramKeyMap !! Tables.p_key param with
              | None => None
              | Some stateKey =>
                  Some {| s_key := Tables.p_key param;
                          s_name := Tables.p_name param;
                          s_value := readParam params stateKey;
                          s_min := Tables.p_min param;
                          s_max := Tables.p_max param;
                          s_step := Tables.p_step param;
                          s_description := Tables.p_description param;
                          s_target := stateKey |}
              end)
           (Tables.a_parameters algorithm)
  end.

(** [TrainingPlayer]: the configuration [handleStartRealtimeTraining]
    passes to the hook, and the parameters [handleStartApiTraining] passes
    to [runAlgorithm]. *)
Definition realtimeConfig (selectedAlgorithm : AlgorithmType)
           (selectedEnvironment : EnvironmentType)
           (config : EnvSlice.EnvironmentConfig)
           (params : ParamSlice.ParamState) : Hook.TrainingConfig :=
  {| Hook.tc_algorithm := selectedAlgorithm;
     Hook.tc_environment := selectedEnvironment;
     Hook.tc_gridSize := EnvSlice.gridSize config;
     Hook.tc_agentPosition := EnvSlice.agentPosition config;
     Hook.tc_goalPosition := EnvSlice.goalPosition config;
     Hook.tc_gamma := ParamSlice.gamma params;
     Hook.tc_theta := ParamSlice.theta params;
     Hook.tc_numEpisodes := ParamSlice.numEpisodes params;
     Hook.tc_alpha := ParamSlice.alpha params;
     Hook.tc_epsilon := ParamSlice.epsilon params;
     Hook.tc_isSlippery := EnvSlice.isSlippery config;
     Hook.tc_numBrickRows := EnvSlice.numBrickRows config;
     Hook.tc_nSteps := None |}.

Definition apiParams (selectedAlgorithm : AlgorithmType)
           (config : EnvSlice.EnvironmentConfig)
           (params : ParamSlice.ParamState) : Api.RunAlgorithmParams :=
  {| Api.ra_algorithm := selectedAlgorithm;
     Api.ra_gridSize := Some (EnvSlice.gridSize config);
     Api.ra_agentPosition := Some (EnvSlice.agentPosition config);
     Api.ra_goalPosition := Some (EnvSlice.goalPosition config);
     Api.ra_gamma := Some (ParamSlice.gamma params);
     Api.ra_theta := Some (ParamSlice.theta params);
     Api.ra_numEpisodes := Some (ParamSlice.numEpisodes params);
     Api.ra_alpha := Some (ParamSlice.alpha params);
     Api.ra_epsilon := Some (ParamSlice.epsilon params) |}.

(** [isDPAlgorithm], which picks the convergence plot over the learning
    curve. *)
Definition isDPAlgorithm (selectedAlgorithm : AlgorithmType) : bool :=
  String.eqb (algorithm_literal selectedAlgorithm) "value_iteration"
  || String.eqb (algorithm_literal selectedAlgorithm) "policy_iteration".

End Panels.

(** ** The remaining reducers of the environment, algorithm and simulation
    slices *)
Module EnvReducers.
Import EnvSlice.

Definition withConfig (state : EnvState) (c : EnvironmentConfig) : EnvState :=
  {| selectedEnvironment := selectedEnvironment state;
     config := c;
     isCreated := isCreated state;
     currentPosition := currentPosition state;
     isTerminated := isTerminated state;
     breakoutState := breakoutState state |}.

Definition setAgentPosition (state : EnvState) (payload : Z * Z) : EnvState :=
  withConfig state
    {| gridSize := gridSize (config state);
       agentPosition := payload;
       goalPosition := goalPosition (config state);
       isSlippery := isSlippery (config state);
       numBrickRows := numBrickRows (config state) |}.

Definition setGoalPosition (state : EnvState) (payload : Z * Z) : EnvState :=
  withConfig state
    {| gridSize := gridSize (config state);
       agentPosition := agentPosition (config state);
       goalPosition := payload;
       isSlippery := isSlippery (config state);
       numBrickRows := numBrickRows (config state) |}.

(** [setEnvironmentCreated]: creating the environment puts the agent on
    its configured start and clears the terminated flag. *)
Definition setEnvironmentCreated (state : EnvState) (payload : bool) : EnvState :=
  {| selectedEnvironment := selectedEnvironment state;
     config := config state;
     isCreated := payload;
     currentPosition :=
       if payload then agentPosition (config state) else currentPosition state;
     isTerminated := if payload then false else isTerminated state;
     breakoutState := breakoutState state |}.

Definition resetEnvironment (state : EnvState) : EnvState :=
  {| selectedEnvironment := selectedEnvironment state;
     config := config state;
     isCreated := isCreated state;
     currentPosition := agentPosition (config state);
     isTerminated := false;
     breakoutState := None |}.

(** [updatePaddlePosition] and [updateBallPosition] write only into an
    existing breakout state. *)
Definition updatePaddlePosition (state : EnvState) (payload : Z) : EnvState :=
  match breakoutState state with
  | Some b =>
      setBreakoutState state
        {| paddlePosition := payload; ballPosition := ballPosition b;
           bricks := bricks b; score := score b |}
  | None => state
  end.

Definition updateBallPosition (state : EnvState) (payload : Z * Z) : EnvState :=
  match breakoutState state with
  | Some b =>
      setBreakoutState state
        {| paddlePosition := paddlePosition b; ballPosition := payload;
           bricks := bricks b; score := score b |}
  | None => state
  end.

(** Every coordinate of a position lies in [0, n - 1]. *)
Definition inGrid (n : Z) (p : Z * Z) : Prop :=
  0 <= fst p <= n - 1 /\ 0 <= snd p <= n - 1.

End EnvReducers.

Module AlgoReducers.
Import AlgoSlice.

Definition setAlgorithm (state : AlgoState) (payload : RlTypes.AlgorithmType)
  : AlgoState :=
  {| selectedAlgorithm := payload;
     isTrained := false;
     valueFunction := valueFunction state;
     policy := policy state;
     qValues := qValues state |}.

Definition clearTraining (state : AlgoState) : AlgoState :=
  {| selectedAlgorithm := selectedAlgorithm state;
     isTrained := false;
     valueFunction := ∅;
     policy := ∅;
     qValues := ∅ |}.

End AlgoReducers.

Module SimReducers.
Import SimulationSlice.

Definition setCurrentStep (state : SimulationState) (payload : Z) : SimulationState :=
  {| mode := mode state; isRunning := isRunning state; progress := progress state;
     currentEpisode := currentEpisode state; totalEpisodes := totalEpisodes state;
     connectionStatus := connectionStatus state; trajectory := trajectory state;
     currentStep := payload; playbackSpeed := playbackSpeed state;
     totalReward := totalReward state; reachedGoal := reachedGoal state;
     error := error state |}.

(** [incrementStep]: one step forward unless the last step is shown. *)
Definition incrementStep (state : SimulationState) : SimulationState :=
  if currentStep state <? Z.of_nat (length (trajectory state)) - 1
  then setCurrentStep state (currentStep state + 1)
  else state.

(** [setEpisodeProgress]: the counters, and their ratio as a percentage.
    With a total of 0 the ratio is no finite number; that case is [None]. *)
Definition setEpisodeProgress (state : SimulationState) (current total : Z)
  : option SimulationState :=
  if total =? 0 then None
  else
    Some {| mode := mode state; isRunning := isRunning state;
            progress := (inject_Z current / inject_Z total * 100)%Q;
            currentEpisode := current; totalEpisodes := total;
            connectionStatus := connectionStatus state;
            trajectory := trajectory state;
            currentStep := currentStep state;
            playbackSpeed := playbackSpeed state;
            totalReward := totalReward state; reachedGoal := reachedGoal state;
            error := error state |}.

Definition resetSimulation (state : SimulationState) : SimulationState :=
  {| mode := mode_idle; isRunning := false; progress := 0;
     currentEpisode := currentEpisode state; totalEpisodes := totalEpisodes state;
     connectionStatus := connectionStatus state; trajectory := [];
     currentStep := 0; playbackSpeed := playbackSpeed state;
     totalReward := 0; reachedGoal := false; error := None |}.

End SimReducers.

(** ** services/api.ts: [createEnvironment] *)
Module ApiEnvironment.
Import RlTypes.

Record CreateEnvironmentParams := {
  ce_environment : EnvironmentType;
  ce_gridSize : option Z;
  ce_agentPosition : option (Z * Z);
  ce_goalPosition : option (Z * Z);
  ce_isSlippery : option bool;
  ce_numBrickRows : option Z
}.

Record CreateEnvironmentBody := {
  cb_environment : string;
  cb_grid_size : Z;
  cb_agent_position : Z * Z;
  cb_goal_position : Z * Z;
  cb_is_slippery : option bool;
  cb_num_brick_rows : option Z
}.

(** The body that [createEnvironment] posts to [/environment/create/]. *)
Definition createEnvironment (params : CreateEnvironmentParams)
  : CreateEnvironmentBody := {|
  cb_environment := environment_literal (ce_environment params);
  cb_grid_size := nullish (ce_gridSize params) 4;
  cb_agent_position := nullish (ce_agentPosition params) (0, 0);
  cb_goal_position :=
    nullish (ce_goalPosition params)
            (Api.goal_coordinate (ce_gridSize params),
             Api.goal_coordinate (ce_gridSize params));
  cb_is_slippery := ce_isSlippery params;
  cb_num_brick_rows := ce_numBrickRows params
|}.

End ApiEnvironment.

(** ** The formatting helpers: [truncate] *)
Module Text.

(** The first [n] characters of a string. *)
Fixpoint takeChars (n : nat) (s : string) : string :=
  match n, s with
  | S n', String c r => String c (takeChars n' r)
  | _, _ => EmptyString
  end.

(** [str.slice(0, end)] for an integer [end]: a negative [end] counts
    from the end of the string. *)
Definition sliceTo (str : string) (stop : Z) : string :=
  if stop <? 0
  then takeChars (Z.to_nat (Z.max (Z.of_nat (String.length str) + stop) 0)) str
  else takeChars (Z.to_nat stop) str.

Definition truncate (str : string) (maxLength : Z) : string :=
  if Z.of_nat (String.length str) <=? maxLength then str
  else sliceTo str (maxLength - 3) ++ "...".

End Text.

(** ** The value heat map ([ValueHeatmap]) *)
Module Heatmap.

(** [Array.from({ length: gridSize }, () => Array(gridSize).fill(null))] *)
Definition emptyGrid {A : Type} (gridSize : Z) : list (list (option A)) :=
  replicate (Z.to_nat gridSize) (replicate (Z.to_nat gridSize) None).

(** The cell a key addresses: the pattern is the one of [parseStateKey],
    and the cell must lie inside the grid. *)
Definition cellOf (gridSize : Z) (key : string) : option (nat * nat) :=
  match CanvasUtils.regexMatch key with
  | Some (g1, g2) =>
      let x := Js.parseIntDigits g1 in
      let y := Js.parseIntDigits g2 in
      if (x <? gridSize) && (y <? gridSize)
      then Some (Z.to_nat x, Z.to_nat y)
      else None
  | None => None
  end.

(** [grid[y][x] = value] *)
Definition writeCell {A : Type} (grid : list (list (option A))) (x y : nat) (v : A)
  : list (list (option A)) :=
  alter (fun row => <[x := Some v]> row) y grid.

Definition lower (m : option Q) (v : Q) : option Q :=
  match m with
  | Some a => Some (Qmin a v)
  | None => Some v
  end.

Definition upper (m : option Q) (v : Q) : option Q :=
  match m with
  | Some a => Some (Qmax a v)
  | None => Some v
  end.

(** One round of the [forEach] over the entries of the value function;
    [None] stands for the initial [Infinity] and [-Infinity]. *)
Definition visit (gridSize : Z)
           (acc : list (list (option Q)) * option Q * option Q)
           (entry : string * Q)
  : list (list (option Q)) * option Q * option Q :=
  let '(grid, lo, hi) := acc in
  let '(key, value) := entry in
  match cellOf gridSize key with
  | Some (x, y) => (writeCell grid x y value, lower lo value, upper hi value)
  | None => acc
  end.

Record HeatmapData := {
  gridValues : list (list (option Q));
  minValue : Q;
  maxValue : Q
}.

(** [Array(gridSize)] throws a [RangeError] from 2^32 on. *)
Definition arrayLimit : Z := 4294967296.

(** The memoised grid of the heat map, from the entries of the value
    function in their order; [None] when building the rows throws. *)
Definition heatmapData (valueFunction : list (string * Q)) (gridSize : Z)
  : option HeatmapData :=
  if arrayLimit <=? gridSize then None
  else
    let '(grid, lo, hi) :=
      fold_left (visit gridSize) valueFunction (emptyGrid gridSize, None, None) in
    Some {| gridValues := grid;
            minValue := nullish lo 0%Q;
            maxValue := nullish hi 0%Q |}.

Definition visitPolicy (gridSize : Z) (grid : list (list (option Z)))
           (entry : string * Z) : list (list (option Z)) :=
  match cellOf gridSize (fst entry) with
  | Some (x, y) => writeCell grid x y (snd entry)
  | None => grid
  end.

(** The memoised policy grid; it is [null] without a policy. *)
Inductive PolicyGrid :=
| noPolicy
| policyCells (grid : list (list (option Z))).

Definition policyGrid (policy : option (list (string * Z))) (gridSize : Z)
  : option PolicyGrid :=
  match policy with
  | None => Some noPolicy
  | Some entries =>
      if arrayLimit <=? gridSize then None
      else Some (policyCells
                   (fold_left (visitPolicy gridSize) entries (emptyGrid gridSize)))
  end.

(** The cell at column [x] of row [y]; [None] outside the grid and for an
    empty cell. *)
Definition cellAt {A : Type} (grid : list (list (option A))) (x y : nat) : option A :=
  match grid !! y with
  | Some row =>
      match row !! x with
      | Some cell => cell
      | None => None
      end
  | None => None
  end.

(** The value of the last entry whose key addresses the cell. *)
Definition lastFor {A : Type} (gridSize : Z) (entries : list (string * A))
           (x y : nat) : option A :=
  fold_left
    (fun acc entry =>
       match cellOf gridSize (fst entry) with
       | Some (x', y') =>
           if ((x' =? x) && (y' =? y))%nat then Some (snd entry) else acc
       | None => acc
       end)
    entries None.

End Heatmap.

(** ** The convergence plot ([ConvergencePlot]) *)
Module ConvergencePlot.

Record Point := { iteration : Z; delta : Q }.

Definition positive (q : Q) : bool := negb (Qle_bool q 0).

(** [deltaHistory.map(...)] with the index of each entry. *)
Fixpoint points (index : Z) (deltaHistory : list Q) : list Point :=
  match deltaHistory with
  | [] => []
  | d :: rest =>
      {| iteration := index + 1;
         delta := if positive d then d else (1 # 10000000000)%Q |}
        :: points (index + 1) rest
  end.

Definition chartData (deltaHistory : list Q) : list Point :=
  List.filter (fun p => positive (delta p)) (points 0 deltaHistory).

Record Stats := {
  initial : Q;
  final : Q;
  iterations : Z;
  converged : bool
}.

Definition stats (deltaHistory : list Q) (theta : Q) : Stats :=
  let validDeltas := List.filter positive deltaHistory in
  let final := List.last validDeltas 0%Q in
  {| initial := List.hd 0%Q validDeltas;
     final := final;
     iterations := Z.of_nat (length deltaHistory);
     converged := positive final && negb (Qle_bool theta final) |}.

End ConvergencePlot.

(** ** The hook over a run of messages, and a whole animation *)
Module Stream.
Import Hook.

(** One incoming message: the handler runs and its dispatches reach the
    store. *)
Definition deliver (st : HookState * Store) (data : TrainingUpdate)
  : HookState * Store :=
  let '(h', acts) := onmessage data (fst st) in
  (h', dispatchAll (snd st) acts).

Definition deliverAll (msgs : list TrainingUpdate) (st : HookState * Store)
  : HookState * Store :=
  fold_left deliver msgs st.

Definition isType (t : string) (data : TrainingUpdate) : bool :=
  String.eqb (type data) t.

(** The deltas that a run of messages reports in [dp_iteration]
    messages. *)
Definition reportedDeltas (msgs : list TrainingUpdate) : list Q :=
  omap (fun data => if isType "dp_iteration" data then delta data else None) msgs.

(** The message types [onmessage] has a case for. *)
Definition handledTypes : list string :=
  ["connection_established"; "training_started"; "dp_started"; "agent_step";
   "training_progress"; "dp_iteration"; "training_complete";
   "training_stopped"; "error"].

(** The frames of an animation that is not interrupted: [animateStep]
    shows [trajectory[startIdx + stepIndex]] for
    [stepIndex = 0 .. maxStepsToAnimate - 1]. *)
Definition animationFrames (traj : list TrajectoryStep) : list TrajectoryStep :=
  let maxStepsToAnimate := Nat.min (length traj) 10 in
  drop (length traj - maxStepsToAnimate) traj.

(** All frames in order, with what they dispatch. *)
Definition animateAll (traj : list TrajectoryStep) (h : HookState) : Effect :=
  fold_left
    (fun eff step =>
       let '(h', acts) := updatePositionFromStep step (fst eff) in
       (h', (snd eff ++ acts)%list))
    (animationFrames traj) (h, []).

(** Where a step puts the agent marker. *)
Definition markerOf (step : TrajectoryStep) : Z * Z :=
  match step with
  | BreakoutStep _ paddle ball _ _ _ => (paddle, snd ball)
  | GridworldStep _ pos _ _ | FrozenLakeStep _ pos _ _ _ => pos
  end.

End Stream.

(** ** Notions the statements on the panels refer to *)
Module Derived.

(** The parameter rows of an algorithm, none without an entry. *)
Definition parametersOf (a : RlTypes.AlgorithmType) : list Tables.ParameterConfig :=
  match Tables.getAlgorithmById a with
  | Some info => Tables.a_parameters info
  | None => []
  end.

Definition isNSteps (p : Tables.ParameterConfig) : bool :=
  String.eqb (Tables.p_key p) "n_steps".

Definition isDP (c : Tables.Category) : bool :=
  match c with
  | Tables.dp => true
  | _ => false
  end.

End Derived.

(** ** Shapes of key strings the statements on [parseStateKey] refer to *)
Module KeyText.

(** No character of the string is [c]. *)
Fixpoint lacks (c : ascii) (s : string) : bool :=
  match s with
  | EmptyString => true
  | String a r => negb (Ascii.eqb a c) && lacks c r
  end.

(** Every character of the string is matched by [\s]. *)
Fixpoint allSpaces (s : string) : bool :=
  match s with
  | EmptyString => true
  | String a r => Js.isSpace a && allSpaces r
  end.

(** Up to this bound every integer is a number of its own, so that
    [parseInt] of its digits is exact. *)
Definition exactBound : Z := 9007199254740992.

End KeyText.

(** ** Shapes of grids the statements on the heat map refer to *)
Module Shapes.

(** A grid of [k] rows with [k] cells each. *)
Definition square {A : Type} (k : nat) (grid : list (list (option A))) : Prop :=
  length grid = k /\ Forall (fun row => length row = k) grid.

(** Every value the grid shows lies between the two bounds, which then
    both exist. *)
Definition bounded (grid : list (list (option Q))) (lo hi : option Q) : Prop :=
  forall x y v,
    Heatmap.cellAt grid x y = Some v ->
    (exists a, lo = Some a /\ (a <= v)%Q) /\ (exists b, hi = Some b /\ (v <= b)%Q).

End Shapes.

(** * Properties *)

Import RlTypes.

(** ** Identifiers sent to the server *)

Lemma mapAlgorithmName_stable (a : AlgorithmType) :
  In (Hook.mapAlgorithmName (algorithm_literal a)) Interface.algorithm_identifiers.
Proof. destruct a; vm_compute; tauto. Qed.

Lemma environment_literal_stable (e : EnvironmentType) :
  In (environment_literal e) Interface.environment_identifiers.
Proof. destruct e; vm_compute; tauto. Qed.

Lemma rest_identifier_membership (params : Api.RunAlgorithmParams) :
  Interface.mem_string (Api.rb_algorithm (Api.runAlgorithm params))
                       Interface.algorithm_identifiers
  = negb (Stated.isMonteCarlo (Api.ra_algorithm params)).
Proof. destruct params as [a ? ? ? ? ? ? ? ?]; destruct a; reflexivity. Qed.

(** C1.  The [start_training] message carries one of the eight stable
    algorithm identifiers and one of the three environment identifiers for
    every configuration, because [mapAlgorithmName] translates the three
    Monte Carlo names.  The REST body of [runAlgorithm] carries the
    front-end literal untranslated: for [mc_first_visit] it is the string
    [mc_first_visit], which is neither a stable identifier nor one of the
    algorithms the API documentation lists for that endpoint; the REST
    body is stable exactly for the five other algorithms. *)
Theorem transmitted_identifiers :
  (forall config,
      In (Hook.m_algorithm (Hook.startTrainingMessage config))
         Interface.algorithm_identifiers
      /\ In (Hook.m_environment (Hook.startTrainingMessage config))
            Interface.environment_identifiers)
  /\ Api.rb_algorithm (Api.runAlgorithm (Api.run_omitted mc_first_visit))
     = "mc_first_visit"
  /\ Interface.mem_string
       (Api.rb_algorithm (Api.runAlgorithm (Api.run_omitted mc_first_visit)))
       Interface.algorithm_identifiers = false
  /\ Interface.mem_string
       (Api.rb_algorithm (Api.runAlgorithm (Api.run_omitted mc_first_visit)))
       Interface.documented_run_algorithms = false
  /\ (forall params,
         Interface.mem_string (Api.rb_algorithm (Api.runAlgorithm params))
                              Interface.algorithm_identifiers
         = negb (Stated.isMonteCarlo (Api.ra_algorithm params))).
Proof.
  split; [| split; [| split; [| split]]].
  - intros config; split.
    + apply mapAlgorithmName_stable.
    + apply environment_literal_stable.
  - reflexivity.
  - reflexivity.
  - reflexivity.
  - apply rest_identifier_membership.
Qed.

(** ** Action names and arrows *)

(** C7.  Each of the three maps has exactly the keys 0, 1, 2, 3, and on
    every one of them [formatActionName] gives the entry of
    [ACTION_NAMES] and [getArrow] the arrow of that direction:
    0 Up ↑, 1 Down ↓, 2 Left ←, 3 Right →. *)
Theorem action_maps_agree :
  dom CanvasUtils.ACTION_NAMES = ({[0; 1; 2; 3]} : gset Z)
  /\ dom Formatters.actions = ({[0; 1; 2; 3]} : gset Z)
  /\ dom PolicyGrid.arrows = ({[0; 1; 2; 3]} : gset Z)
  /\ Forall (fun a => CanvasUtils.ACTION_NAMES !! a
                      = Some (Formatters.formatActionName a)
                      /\ CanvasUtils.ACTION_SYMBOLS !! a
                         = Some (PolicyGrid.getArrow (Some a)))
            [0; 1; 2; 3]
  /\ map (fun a => (Formatters.formatActionName a, PolicyGrid.getArrow (Some a)))
         [0; 1; 2; 3]
     = [("Up", "↑"); ("Down", "↓"); ("Left", "←"); ("Right", "→")].
Proof.
  split; [reflexivity |].
  split; [reflexivity |].
  split; [reflexivity |].
  split; [| reflexivity].
  repeat constructor.
Qed.

(** ** Defaults of the REST requests *)

(** C8.  Every optional parameter that is left out of a call is filled
    with its default.  [runAlgorithm] uses grid size 4, start (0, 0) and
    the five hyperparameters of the parameter slice's initial state (gamma
    0.99, theta 0.0001, 1000 episodes, alpha 0.1, epsilon 0.1); a missing
    goal is (g - 1, g - 1) when a nonzero grid size [g] is supplied and
    (3, 3) otherwise.  [simulatePolicy] uses 100 steps, grid size 4, that
    same gamma and the gridworld environment, and passes on the goal it is
    given.  Grid size 4 is also the initial size of the environment
    slice. *)
Theorem request_defaults :
  (forall params,
      Api.runAlgorithm params
      = {| Api.rb_algorithm := algorithm_literal (Api.ra_algorithm params);
           Api.rb_grid_size := nullish (Api.ra_gridSize params) 4;
           Api.rb_agent_position := nullish (Api.ra_agentPosition params) (0, 0);
           Api.rb_goal_position :=
             match Api.ra_goalPosition params, Api.ra_gridSize params with
             | Some goal, _ => goal
             | None, Some g => if g =? 0 then (3, 3) else (g - 1, g - 1)
             | None, None => (3, 3)
             end;
           Api.rb_gamma :=
             nullish (Api.ra_gamma params) (ParamSlice.gamma ParamSlice.initialState);
           Api.rb_theta :=
             nullish (Api.ra_theta params) (ParamSlice.theta ParamSlice.initialState);
           Api.rb_num_episodes :=
             nullish (Api.ra_numEpisodes params)
                     (ParamSlice.numEpisodes ParamSlice.initialState);
           Api.rb_alpha :=
             nullish (Api.ra_alpha params) (ParamSlice.alpha ParamSlice.initialState);
           Api.rb_epsilon :=
             nullish (Api.ra_epsilon params)
                     (ParamSlice.epsilon ParamSlice.initialState) |})
  /\ (forall a,
         Api.runAlgorithm (Api.run_omitted a)
         = {| Api.rb_algorithm := algorithm_literal a;
              Api.rb_grid_size := 4;
              Api.rb_agent_position := (0, 0);
              Api.rb_goal_position := (3, 3);
              Api.rb_gamma := (99 # 100)%Q;
              Api.rb_theta := (1 # 10000)%Q;
              Api.rb_num_episodes := 1000;
              Api.rb_alpha := (1 # 10)%Q;
              Api.rb_epsilon := (1 # 10)%Q |})
  /\ ParamSlice.initialState
     = {| ParamSlice.gamma := (99 # 100)%Q; ParamSlice.theta := (1 # 10000)%Q;
          ParamSlice.numEpisodes := 1000; ParamSlice.alpha := (1 # 10)%Q;
          ParamSlice.epsilon := (1 # 10)%Q |}
  /\ EnvSlice.gridSize (EnvSlice.config EnvSlice.initialState) = 4
  /\ (forall params,
         Api.sb_max_steps (Api.simulatePolicy params)
         = nullish (Api.sp_maxSteps params) 100
         /\ Api.sb_grid_size (Api.simulatePolicy params)
            = nullish (Api.sp_gridSize params) 4
         /\ Api.sb_gamma (Api.simulatePolicy params)
            = nullish (Api.sp_gamma params) (ParamSlice.gamma ParamSlice.initialState)
         /\ Api.sb_environment (Api.simulatePolicy params)
            = nullish (Api.sp_environment params) "gridworld"
         /\ Api.sb_goal_position (Api.simulatePolicy params)
            = Api.sp_goalPosition params)
  /\ (forall goal,
         Api.simulatePolicy (Api.simulate_omitted goal)
         = {| Api.sb_max_steps := 100;
              Api.sb_agent_position := None;
              Api.sb_goal_position := goal;
              Api.sb_grid_size := 4;
              Api.sb_gamma := (99 # 100)%Q;
              Api.sb_environment := "gridworld";
              Api.sb_policy := None;
              Api.sb_is_slippery := None;
              Api.sb_num_brick_rows := None |}).
Proof.
  split.
  { intros params. unfold Api.runAlgorithm. f_equal.
    destruct (Api.ra_goalPosition params) as [goal |]; [reflexivity |].
    destruct (Api.ra_gridSize params) as [g |]; [| reflexivity].
    cbn. unfold truthyZ. destruct (g =? 0); reflexivity. }
  repeat split.
Qed.

(** ** Grid size and positions *)

Lemma clampCoordinate_range (c n : Z) :
  0 <= c -> 1 <= n -> 0 <= EnvSlice.clampCoordinate c n <= n - 1.
Proof.
  intros Hc Hn. unfold EnvSlice.clampCoordinate.
  destruct (Z.geb_spec c n); lia.
Qed.

Lemma clampCoordinate_cases (c n : Z) :
  EnvSlice.clampCoordinate c n = if n <=? c then n - 1 else c.
Proof.
  unfold EnvSlice.clampCoordinate.
  destruct (Z.geb_spec c n), (Z.leb_spec n c); lia.
Qed.

(** C9.  From a state whose agent and goal coordinates are nonnegative,
    [setGridSize n] with [n >= 1] leaves each of the four coordinates in
    [0, n - 1]; a coordinate that was at least [n] becomes [n - 1] and any
    other coordinate keeps its value.  The size itself becomes [n]. *)
Theorem setGridSize_clamps (state : EnvSlice.EnvState) (n : Z) :
  let c := EnvSlice.config state in
  let c' := EnvSlice.config (EnvSlice.setGridSize state n) in
  0 <= fst (EnvSlice.agentPosition c) ->
  0 <= snd (EnvSlice.agentPosition c) ->
  0 <= fst (EnvSlice.goalPosition c) ->
  0 <= snd (EnvSlice.goalPosition c) ->
  1 <= n ->
  EnvSlice.gridSize c' = n
  /\ Forall (fun '(old, new) =>
               0 <= new <= n - 1
               /\ new = if n <=? old then n - 1 else old)
            [(fst (EnvSlice.agentPosition c), fst (EnvSlice.agentPosition c'));
             (snd (EnvSlice.agentPosition c), snd (EnvSlice.agentPosition c'));
             (fst (EnvSlice.goalPosition c), fst (EnvSlice.goalPosition c'));
             (snd (EnvSlice.goalPosition c), snd (EnvSlice.goalPosition c'))].
Proof.
  intros c c' Hax Hay Hgx Hgy Hn. split; [reflexivity |].
  subst c'. cbn.
  repeat constructor;
    solve [ apply clampCoordinate_range; assumption
          | apply clampCoordinate_cases ].
Qed.

Lemma setGridSize_clamps_witness :
  1 <= 2
  /\ (let c := EnvSlice.config EnvSlice.initialState in
      let c' := EnvSlice.config (EnvSlice.setGridSize EnvSlice.initialState 2) in
      EnvSlice.gridSize c' = 2
      /\ Forall (fun '(old, new) =>
                   0 <= new <= 2 - 1
                   /\ new = if 2 <=? old then 2 - 1 else old)
                [(fst (EnvSlice.agentPosition c), fst (EnvSlice.agentPosition c'));
                 (snd (EnvSlice.agentPosition c), snd (EnvSlice.agentPosition c'));
                 (fst (EnvSlice.goalPosition c), fst (EnvSlice.goalPosition c'));
                 (snd (EnvSlice.goalPosition c), snd (EnvSlice.goalPosition c'))]).
Proof.
  split; [lia |].
  apply (setGridSize_clamps EnvSlice.initialState 2); cbn; lia.
Defined.

(** ** Progress shown while a DP run is streaming *)

Lemma unconverged_progress_range (x : Q) :
  (0 <= Qmin 95 ((1 - Qmin x 1) * 100) <= 95)%Q.
Proof.
  pose proof (Q.le_min_r x 1) as Hm.
  split.
  - apply Q.min_glb; lra.
  - apply Q.le_min_l.
Qed.

Lemma dp_iteration_actions (data : Hook.TrainingUpdate) (h : Hook.HookState) :
  Hook.type data = "dp_iteration" ->
  snd (Hook.onmessage data h)
  = Hook.SetProgress (Hook.dpProgress data) :: Hook.dispatchSampleValues data.
Proof.
  intros Ht. unfold Hook.onmessage. rewrite Ht. reflexivity.
Qed.

Lemma training_progress_actions (data : Hook.TrainingUpdate) (h : Hook.HookState) :
  Hook.type data = "training_progress" ->
  snd (Hook.onmessage data h)
  = Hook.SetProgress (orQ (Hook.progress data) 0) :: Hook.dispatchSampleValues data.
Proof.
  intros Ht. unfold Hook.onmessage. rewrite Ht. cbn.
  destruct (Hook.episode_rewards data) as [[| r rs] |]; reflexivity.
Qed.

Lemma orQ_nonzero (d x : Q) : Qeq_bool d 0 = false -> orQ (Some d) x = d.
Proof. intros Hd. unfold orQ, truthyQ. rewrite Hd. reflexivity. Qed.

(** C10, as the handler computes it.  For a [dp_iteration] message the
    value dispatched with [setProgress] is 100 when [converged] is true.
    Otherwise it lies in [0, 95]; it is
    [min(95, (1 - min(delta, 1)) * 100)] when [delta] is present and not
    zero, and 0 when [delta] is absent, since a missing [delta] counts as
    1.  So this handler dispatches 100 exactly when [converged] is true. *)
Theorem dp_iteration_progress (data : Hook.TrainingUpdate) (h : Hook.HookState) :
  Hook.type data = "dp_iteration" ->
  snd (Hook.onmessage data h)
  = Hook.SetProgress (Hook.dpProgress data) :: Hook.dispatchSampleValues data
  /\ Qeq_bool (Hook.dpProgress data) 100 = truthyB (Hook.converged data)
  /\ match truthyB (Hook.converged data), Hook.delta data with
     | true, _ => Hook.dpProgress data = 100%Q
     | false, Some d =>
         (0 <= Hook.dpProgress data <= 95)%Q
         /\ (if Qeq_bool d 0 then True
             else Hook.dpProgress data = Stated.claimed_dpProgress false d)
     | false, None =>
         (0 <= Hook.dpProgress data <= 95)%Q /\ (Hook.dpProgress data == 0)%Q
     end.
Proof.
  intros Ht. split; [apply dp_iteration_actions; exact Ht |].
  unfold Hook.dpProgress.
  destruct (truthyB (Hook.converged data)) eqn:Hc.
  - split; [reflexivity |]. destruct (Hook.delta data); reflexivity.
  - pose proof (unconverged_progress_range (orQ (Hook.delta data) 1)) as Hr.
    split.
    + destruct (Qeq_bool _ 100) eqn:He; [| reflexivity].
      apply Qeq_bool_eq in He. lra.
    + destruct (Hook.delta data) as [d |] eqn:Hd.
      * split; [exact Hr |].
        destruct (Qeq_bool d 0) eqn:Hz; [exact I |].
        rewrite (orQ_nonzero d 1 Hz). reflexivity.
      * split; [exact Hr | reflexivity].
Qed.

Lemma dp_iteration_progress_witness :
  Hook.type (Stated.dpIteration (Some (1 # 4)%Q) None) = "dp_iteration"
  /\ snd (Hook.onmessage (Stated.dpIteration (Some (1 # 4)%Q) None) Stated.freshHook)
     = [Hook.SetProgress (Hook.dpProgress (Stated.dpIteration (Some (1 # 4)%Q) None));
        Hook.SetValueFunction {[ "(0, 0)" := (1 # 2)%Q ]}].
Proof.
  split; [reflexivity |].
  exact (proj1 (dp_iteration_progress
                  (Stated.dpIteration (Some (1 # 4)%Q) None) Stated.freshHook
                  eq_refl)).
Defined.

(** C10 as the claim words it fails.  With [delta = 0] and [converged]
    false the claimed formula gives 95 and the handler dispatches 0; and a
    message without [delta], for which the claimed formula has no value,
    has 0 dispatched as well. *)
Lemma dp_iteration_progress_counterexample :
  ~ (forall (data : Hook.TrainingUpdate) (h : Hook.HookState) (d : Q),
        Hook.type data = "dp_iteration" ->
        Hook.delta data = Some d ->
        exists p rest,
          snd (Hook.onmessage data h) = Hook.SetProgress p :: rest
          /\ (p == Stated.claimed_dpProgress (truthyB (Hook.converged data)) d)%Q)
  /\ (Hook.dpProgress (Stated.dpIteration (Some 0%Q) (Some false)) == 0)%Q
  /\ (Stated.claimed_dpProgress false 0 == 95)%Q
  /\ (Hook.dpProgress (Stated.dpIteration None (Some false)) == 0)%Q.
Proof.
  split; [| repeat split].
  intros Hclaim.
  destruct (Hclaim (Stated.dpIteration (Some 0%Q) (Some false)) Stated.freshHook
                   0%Q eq_refl eq_refl) as (p & rest & Hacts & Hp).
  cbn in Hacts. injection Hacts as Hp' _. subst p.
  vm_compute in Hp. discriminate Hp.
Qed.

(** ** What the message handler writes to the store *)

Lemma dispatchAll_frame (acts : list Hook.Action) (s : Hook.Store) :
  forallb (fun a => negb (Stated.writesResult a)) acts = true ->
  AlgoSlice.policy (Hook.st_algorithm (Hook.dispatchAll s acts))
  = AlgoSlice.policy (Hook.st_algorithm s)
  /\ AlgoSlice.isTrained (Hook.st_algorithm (Hook.dispatchAll s acts))
     = AlgoSlice.isTrained (Hook.st_algorithm s).
Proof.
  revert s. induction acts as [| a acts IH]; intros s Hall; [split; reflexivity |].
  cbn in Hall. apply andb_prop in Hall as [Ha Hrest].
  unfold Hook.dispatchAll in *. cbn [fold_left].
  destruct (IH (Hook.reduce s a) Hrest) as [Hp Ht].
  rewrite Hp, Ht. destruct a; try discriminate Ha; split; reflexivity.
Qed.

Lemma sample_values_no_result (data : Hook.TrainingUpdate) :
  forallb (fun a => negb (Stated.writesResult a)) (Hook.dispatchSampleValues data) = true.
Proof. unfold Hook.dispatchSampleValues. destruct (Hook.sample_values data); reflexivity. Qed.

Lemma animateTrajectory_no_result (traj : list Hook.TrajectoryStep) (h : Hook.HookState) :
  forallb (fun a => negb (Stated.writesResult a)) (snd (Hook.animateTrajectory traj h)) = true.
Proof.
  unfold Hook.animateTrajectory.
  destruct (traj !! _) as [[| |] |]; reflexivity.
Qed.

Lemma other_messages_no_result (data : Hook.TrainingUpdate) (h : Hook.HookState) :
  Hook.type data <> "training_complete" ->
  forallb (fun a => negb (Stated.writesResult a)) (snd (Hook.onmessage data h)) = true.
Proof.
  intros Hne. unfold Hook.onmessage.
  repeat match goal with
         | |- context [String.eqb (Hook.type data) ?t] =>
             destruct (String.eqb_spec (Hook.type data) t)
         end; try reflexivity; try contradiction.
  - destruct (Hook.trajectory data) as [[| st rest] |]; try reflexivity.
    apply animateTrajectory_no_result.
  - apply sample_values_no_result.
  - apply sample_values_no_result.
Qed.

Lemma other_messages_ignore_results (data : Hook.TrainingUpdate) (h : Hook.HookState)
      (vf : option (gmap string Q)) (p : option (gmap string Z)) :
  Hook.type data <> "training_complete" ->
  Hook.onmessage (Stated.withResults vf p data) h = Hook.onmessage data h.
Proof.
  intros Hne. unfold Hook.onmessage. cbn [Hook.type Stated.withResults].
  repeat match goal with
         | |- context [String.eqb (Hook.type data) ?t] =>
             destruct (String.eqb_spec (Hook.type data) t)
         end; try reflexivity; try contradiction.
Qed.

Lemma progress_type_actions (data : Hook.TrainingUpdate) (h : Hook.HookState) :
  Stated.isProgressType data = true ->
  exists x, snd (Hook.onmessage data h)
            = Hook.SetProgress x :: Hook.dispatchSampleValues data.
Proof.
  unfold Stated.isProgressType. intros Ht.
  apply orb_prop in Ht as [Ht | Ht]; apply String.eqb_eq in Ht.
  - eexists. apply training_progress_actions. exact Ht.
  - eexists. apply dp_iteration_actions. exact Ht.
Qed.

Lemma progress_type_hook (data : Hook.TrainingUpdate) (h : Hook.HookState) :
  Stated.isProgressType data = true ->
  Stated.sameSession h (fst (Hook.onmessage data h)).
Proof.
  unfold Stated.isProgressType. intros Ht.
  apply orb_prop in Ht as [Ht | Ht]; apply String.eqb_eq in Ht;
    unfold Hook.onmessage; rewrite Ht; cbn [String.eqb Ascii.eqb Bool.eqb fst].
  - destruct (Hook.episode_rewards data) as [[| r rs] |]; repeat split.
  - destruct (Hook.delta data); repeat split.
Qed.

(** C6.  A message of any type other than [training_complete], and so a
    [training_progress] or a [dp_iteration] message, is handled without
    reading its [value_function] and [policy] fields and without
    dispatching [setPolicy] or [setTrained]: the stored policy and the
    [isTrained] flag stay as they were.  For the two progress types the
    dispatches are [setProgress] followed by [setValueFunction] of the
    sample values when the message has them; the stored value function
    becomes that sample, the environment and parameter slices are not
    touched, and of the hook's own state only the run statistics
    change. *)
Theorem results_only_on_completion
        (data : Hook.TrainingUpdate) (h : Hook.HookState) (s : Hook.Store)
        (vf : option (gmap string Q)) (p : option (gmap string Z)) :
  Hook.type data <> "training_complete" ->
  let acts := snd (Hook.onmessage data h) in
  let s' := Hook.dispatchAll s acts in
  Hook.onmessage (Stated.withResults vf p data) h = Hook.onmessage data h
  /\ forallb (fun a => negb (Stated.writesResult a)) acts = true
  /\ AlgoSlice.policy (Hook.st_algorithm s') = AlgoSlice.policy (Hook.st_algorithm s)
  /\ AlgoSlice.isTrained (Hook.st_algorithm s')
     = AlgoSlice.isTrained (Hook.st_algorithm s)
  /\ (if Stated.isProgressType data then
        (exists x, acts = Hook.SetProgress x :: Hook.dispatchSampleValues data
                   /\ SimulationSlice.progress (Hook.st_simulation s') = x)
        /\ AlgoSlice.valueFunction (Hook.st_algorithm s')
           = nullish (Hook.sample_values data)
                     (AlgoSlice.valueFunction (Hook.st_algorithm s))
        /\ AlgoSlice.qValues (Hook.st_algorithm s')
           = AlgoSlice.qValues (Hook.st_algorithm s)
        /\ Hook.st_environment s' = Hook.st_environment s
        /\ Hook.st_parameters s' = Hook.st_parameters s
        /\ Stated.sameSession h (fst (Hook.onmessage data h))
      else True).
Proof.
  intros Hne acts s'.
  pose proof (other_messages_no_result data h Hne) as Hno.
  destruct (dispatchAll_frame acts s Hno) as [Hpol Htr].
  split; [apply other_messages_ignore_results; exact Hne |].
  split; [exact Hno |].
  split; [exact Hpol |].
  split; [exact Htr |].
  destruct (Stated.isProgressType data) eqn:Hprog; [| exact I].
  destruct (progress_type_actions data h Hprog) as [x Hx].
  pose proof (progress_type_hook data h Hprog) as Hhook.
  subst s'. fold acts in Hx. rewrite Hx.
  unfold Hook.dispatchSampleValues.
  destruct (Hook.sample_values data) as [sv |]; cbn [Hook.dispatchAll fold_left];
    (split; [exists x; split; reflexivity |]);
    (split; [reflexivity |]); (split; [reflexivity |]);
    (split; [reflexivity |]); (split; [reflexivity | exact Hhook]).
Qed.

Lemma results_only_on_completion_witness :
  Hook.type (Stated.dpIteration (Some (1 # 4)%Q) None) <> "training_complete"
  /\ AlgoSlice.policy
       (Hook.st_algorithm
          (Hook.dispatchAll Stated.freshStore
             (snd (Hook.onmessage (Stated.dpIteration (Some (1 # 4)%Q) None)
                                  Stated.freshHook))))
     = AlgoSlice.policy (Hook.st_algorithm Stated.freshStore).
Proof.
  assert (Hne : Hook.type (Stated.dpIteration (Some (1 # 4)%Q) None)
                <> "training_complete") by discriminate.
  split; [exact Hne |].
  exact (proj1 (proj2 (proj2
           (results_only_on_completion
              (Stated.dpIteration (Some (1 # 4)%Q) None) Stated.freshHook
              Stated.freshStore None None Hne)))).
Defined.

(** ** State keys *)

Lemma append_cons (c : ascii) (s t : string) : String c s ++ t = String c (s ++ t).
Proof. reflexivity. Qed.

Lemma append_nil (t : string) : EmptyString ++ t = t.
Proof. reflexivity. Qed.

Lemma takeDigits_uint (d : Decimal.uint) (rest : string) :
  Js.stops_digits rest ->
  Js.takeDigits (NilEmpty.string_of_uint d ++ rest)
  = (NilEmpty.string_of_uint d, rest).
Proof.
  intros Hstop.
  induction d as [| d IH | d IH | d IH | d IH | d IH | d IH | d IH | d IH | d IH | d IH];
    cbn [NilEmpty.string_of_uint];
    rewrite ?append_cons, ?append_nil; cbn [Js.takeDigits];
    try (rewrite IH; reflexivity).
  destruct rest as [| c r]; [reflexivity |].
  unfold Js.stops_digits in Hstop. cbn [Js.takeDigits]. rewrite Hstop. reflexivity.
Qed.

Lemma to_uint_nonnil (n : N) : N.to_uint n <> Decimal.Nil.
Proof.
  destruct n as [| p]; [discriminate |].
  apply DecimalPos.Unsigned.to_uint_nonnil.
Qed.

Lemma digitsN_plain (n : N) : Js.digitsN n = NilEmpty.string_of_uint (N.to_uint n).
Proof.
  unfold Js.digitsN, NilZero.string_of_uint.
  pose proof (to_uint_nonnil n) as Hn.
  destruct (N.to_uint n); [contradiction | reflexivity ..].
Qed.

(** A printed number starts with a digit. *)
Lemma digitsN_head (n : N) :
  exists c r, Js.digitsN n = String c r /\ Js.isDigit c = true.
Proof.
  rewrite digitsN_plain. pose proof (to_uint_nonnil n) as Hn.
  destruct (N.to_uint n); [contradiction | ..]; cbn; eauto.
Qed.

Lemma takeDigits_digitsN (n : N) (rest : string) :
  Js.stops_digits rest -> Js.takeDigits (Js.digitsN n ++ rest) = (Js.digitsN n, rest).
Proof. rewrite digitsN_plain. apply takeDigits_uint. Qed.

Lemma parseIntDigits_digitsN (n : N) : Js.parseIntDigits (Js.digitsN n) = Z.of_N n.
Proof.
  unfold Js.parseIntDigits. rewrite digitsN_plain, NilEmpty.usu.
  rewrite DecimalN.Unsigned.of_to. reflexivity.
Qed.

Lemma digit_not_space (c : ascii) : Js.isDigit c = true -> Js.isSpace c = false.
Proof.
  destruct c as [[] [] [] [] [] [] [] []]; cbn; intros Hd;
    solve [reflexivity | discriminate Hd].
Qed.

Lemma skipSpaces_digitsN (n : N) (rest : string) :
  Js.skipSpaces (Js.digitsN n ++ rest) = Js.digitsN n ++ rest.
Proof.
  destruct (digitsN_head n) as (c & r & Heq & Hc). rewrite Heq.
  rewrite append_cons. cbn [Js.skipSpaces]. rewrite (digit_not_space c Hc). reflexivity.
Qed.

Lemma matchAt_key (n m : N) :
  CanvasUtils.matchAt ("(" ++ Js.digitsN n ++ ", " ++ Js.digitsN m ++ ")")
  = Some (Js.digitsN n, Js.digitsN m).
Proof.
  rewrite !append_cons, !append_nil. cbn [CanvasUtils.matchAt].
  rewrite takeDigits_digitsN by exact eq_refl.
  change (Js.skipSpaces (String " " (Js.digitsN m ++ ")")))
    with (Js.skipSpaces (Js.digitsN m ++ ")")).
  rewrite skipSpaces_digitsN.
  rewrite takeDigits_digitsN by exact eq_refl.
  destruct (digitsN_head n) as (c & r & Heq & _).
  destruct (digitsN_head m) as (c' & r' & Heq' & _).
  rewrite Heq, Heq'. reflexivity.
Qed.

Lemma regexMatch_head (s : string) (g : string * string) :
  CanvasUtils.matchAt s = Some g -> CanvasUtils.regexMatch s = Some g.
Proof. intros Hm. destruct s; cbn [CanvasUtils.regexMatch]; rewrite Hm; reflexivity. Qed.

Lemma numberToString_plain (x : Z) :
  0 <= x < 1000000000000000000000 -> Js.numberToString x = Js.digitsN (Z.to_N x).
Proof.
  intros Hx. unfold Js.numberToString, Js.natToString.
  change (10 ^ 21)%N with 1000000000000000000000%N.
  destruct x as [| p | p]; [reflexivity | | lia].
  destruct (N.ltb_spec (Z.to_N (Z.pos p)) 1000000000000000000000); [reflexivity | lia].
Qed.

(** C5, within the range where a number is printed in plain digits.  For
    integers [x] and [y] with [0 <= x, y < 10^21],
    [parseStateKey (createStateKey x y)] is [(x, y)]. *)
Theorem state_key_round_trip (x y : Z) :
  0 <= x < 10 ^ 21 ->
  0 <= y < 10 ^ 21 ->
  CanvasUtils.parseStateKey (CanvasUtils.createStateKey x y) = Some (x, y).
Proof.
  change (10 ^ 21) with 1000000000000000000000.
  intros Hx Hy. unfold CanvasUtils.parseStateKey, CanvasUtils.createStateKey.
  rewrite (numberToString_plain x Hx), (numberToString_plain y Hy).
  rewrite (regexMatch_head _ _ (matchAt_key (Z.to_N x) (Z.to_N y))).
  rewrite !parseIntDigits_digitsN, !Z2N.id by lia.
  reflexivity.
Qed.

Lemma state_key_round_trip_witness :
  (0 <= 3 < 10 ^ 21) /\ (0 <= 12 < 10 ^ 21)
  /\ CanvasUtils.parseStateKey (CanvasUtils.createStateKey 3 12) = Some (3, 12).
Proof.
  assert (H3 : 0 <= 3 < 10 ^ 21) by (split; vm_compute; [discriminate | reflexivity]).
  assert (H12 : 0 <= 12 < 10 ^ 21) by (split; vm_compute; [discriminate | reflexivity]).
  split; [exact H3 |]. split; [exact H12 |].
  exact (state_key_round_trip 3 12 H3 H12).
Defined.

(** C5 for all natural numbers fails: 10^21 is printed as [1e+21], so the
    key is [(1e+21, 0)], which the pattern does not match. *)
Lemma state_key_round_trip_counterexample :
  CanvasUtils.createStateKey (10 ^ 21) 0 = "(1e+21, 0)"
  /\ CanvasUtils.parseStateKey (CanvasUtils.createStateKey (10 ^ 21) 0) = None
  /\ ~ (forall x y : Z,
           0 <= x -> 0 <= y ->
           CanvasUtils.parseStateKey (CanvasUtils.createStateKey x y) = Some (x, y)).
Proof.
  split; [vm_compute; reflexivity |].
  split; [vm_compute; reflexivity |].
  intros Hall.
  specialize (Hall (10 ^ 21) 0 ltac:(vm_compute; discriminate) ltac:(lia)).
  vm_compute in Hall. discriminate Hall.
Qed.

(** ** Value iteration stops *)

Section ValueIterationFacts.
Context {State : Type} `{Countable State}.
Variable env : Core.Model (State := State).
Variable gamma theta : Q.

Lemma Qltb_lt (x y : Q) : Core.Qltb x y = true -> (x < y)%Q.
Proof.
  unfold Core.Qltb. intros Hb. apply negb_true_iff in Hb.
  apply Qnot_le_lt. intros Hle. apply Qle_bool_iff in Hle. congruence.
Qed.

Lemma Qltb_ge (x y : Q) : Core.Qltb x y = false -> (y <= x)%Q.
Proof.
  unfold Core.Qltb. intros Hb. apply negb_false_iff in Hb.
  apply Qle_bool_iff. exact Hb.
Qed.

Lemma after_sweeps_S (k : nat) (V : gmap State Q) :
  Core.after_sweeps env gamma (S k) V
  = fst (Core.sweep env gamma (Core.after_sweeps env gamma k V)).
Proof.
  revert V. induction k as [| k IH]; intros V; [reflexivity |].
  change (Core.after_sweeps env gamma (S (S k)) V)
    with (Core.after_sweeps env gamma (S k) (fst (Core.sweep env gamma V))).
  rewrite IH. reflexivity.
Qed.

(** The loop from any table: it ends converged after at most [more + 1]
    further sweeps, or failed after exactly that many, and the δ it
    reports is the one of its last sweep. *)
Lemma vi_loop_outcome (more done : nat) (V : gmap State Q) :
  (exists k V' d,
      Core.vi_loop env gamma theta more done V
      = Core.dp_converged V' (Core.greedy_policy env gamma V') (done + S k) d
      /\ (k <= more)%nat
      /\ (d < theta)%Q
      /\ Core.sweep env gamma (Core.after_sweeps env gamma k V) = (V', d))
  \/ (exists d,
         Core.vi_loop env gamma theta more done V
         = Core.dp_failed "did not converge" (done + S more) d
         /\ (theta <= d)%Q
         /\ d = snd (Core.sweep env gamma (Core.after_sweeps env gamma more V))).
Proof.
  revert done V. induction more as [| m IH]; intros done V.
  - cbn [Core.vi_loop]. destruct (Core.sweep env gamma V) as [V' d] eqn:Hsw.
    destruct (Core.Qltb d theta) eqn:Hlt.
    + left. exists O, V', d. rewrite Nat.add_1_r.
      repeat split; [lia | apply Qltb_lt; exact Hlt | exact Hsw].
    + right. exists d. rewrite Nat.add_1_r. cbn [Core.after_sweeps].
      rewrite Hsw. repeat split. apply Qltb_ge; exact Hlt.
  - cbn [Core.vi_loop]. destruct (Core.sweep env gamma V) as [V' d] eqn:Hsw.
    destruct (Core.Qltb d theta) eqn:Hlt.
    + left. exists O, V', d. rewrite Nat.add_1_r.
      repeat split; [lia | apply Qltb_lt; exact Hlt | exact Hsw].
    + destruct (IH (S done) V') as [(k & V'' & d' & Heq & Hk & Hd & Hs) | (d' & Heq & Hd & Hs)].
      * left. exists (S k), V'', d'.
        replace (done + S (S k))%nat with (S done + S k)%nat by lia.
        repeat split; [exact Heq | lia | exact Hd |].
        cbn [Core.after_sweeps]. rewrite Hsw. exact Hs.
      * right. exists d'.
        replace (done + S (S m))%nat with (S done + S m)%nat by lia.
        repeat split; [exact Heq | exact Hd |].
        cbn [Core.after_sweeps]. rewrite Hsw. exact Hs.
Qed.

(** C4.  For every model, discount, threshold and safety bound, value
    iteration returns.  Either it has converged: after [k] sweeps, with
    [1 <= k <= max 1 bound], the last sweep had [δ < θ], and the result
    carries the table of that sweep and its greedy policy.  Or it has
    failed with "did not converge" after exactly [max 1 bound] sweeps,
    and the δ it carries is that of the last sweep, which is at least
    θ. *)
Theorem value_iteration_stops (bound : nat) :
  (exists k V d,
      Core.value_iteration env gamma theta bound
      = Core.dp_converged V (Core.greedy_policy env gamma V) k d
      /\ (1 <= k <= Nat.max 1 bound)%nat
      /\ (d < theta)%Q
      /\ Core.sweep env gamma (Core.after_sweeps env gamma (k - 1) ∅) = (V, d))
  \/ (exists d,
         Core.value_iteration env gamma theta bound
         = Core.dp_failed "did not converge" (Nat.max 1 bound) d
         /\ (theta <= d)%Q
         /\ d = snd (Core.sweep env gamma
                       (Core.after_sweeps env gamma (Nat.max 1 bound - 1) ∅))).
Proof.
  unfold Core.value_iteration.
  destruct (vi_loop_outcome (bound - 1) 0 ∅)
    as [(k & V & d & Heq & Hk & Hd & Hs) | (d & Heq & Hd & Hs)].
  - left. exists (S k), V, d. cbn [Nat.add] in Heq.
    replace (S k - 1)%nat with k by lia.
    repeat split; [exact Heq | lia | lia | exact Hd | exact Hs].
  - right. exists d. cbn [Nat.add] in Heq.
    replace (Nat.max 1 bound) with (S (bound - 1)) by lia.
    replace (S (bound - 1) - 1)%nat with (bound - 1)%nat by lia.
    repeat split; [exact Heq | exact Hd | exact Hs].
Qed.

End ValueIterationFacts.

(** With γ = 1 on a rewarding loop every sweep has δ = 1, and the engine
    stops at the bound with that δ. *)
Example value_iteration_gamma_one :
  Core.value_iteration Samples.loop_model 1 (1 # 10000) 25
  = Core.dp_failed "did not converge" 25 1.
Proof. vm_compute. reflexivity. Qed.

Example value_iteration_corridor :
  match Core.value_iteration Samples.corridor_model (99 # 100) (1 # 10000) 100 with
  | Core.dp_converged V policy sweeps _ =>
      sweeps = 4%nat /\ policy !! O = Some 1%nat /\ (Core.value_at V 2%nat == 10)%Q
  | Core.dp_failed _ _ _ => False
  end.
Proof. vm_compute. repeat split. Qed.

(** ** SARSA is on-policy *)

Section SarsaFacts.
Context {State : Type} `{Countable State} {Rng : Type}.
Variable sim : Core.Simulator (State := State) (Rng := Rng).
Variable gamma alpha epsilon : Q.

Local Abbreviation steps := (Core.sarsa_steps sim gamma alpha epsilon).
Local Abbreviation selected := (Core.selected_before_update sim gamma alpha epsilon).

Lemma sarsa_steps_record (cap : nat) :
  forall (Qt : gmap (State * nat) Q) (s : State) (a : nat) (g : Rng),
    Forall selected (snd (steps cap Qt s a g))
    /\ Core.on_policy (snd (steps cap Qt s a g))
    /\ Core.starts_with (snd (steps cap Qt s a g)) Qt s a.
Proof.
  induction cap as [| cap IH]; intros Qt s a g.
  - cbn. repeat split. constructor.
  - cbn [Core.sarsa_steps].
    destruct (Core.step sim s a g) as [tr g1].
    destruct (Core.epsilon_greedy sim epsilon Qt (Core.next_state tr) g1)
      as [a' g2] eqn:Hsel.
    assert (Hrec : forall Qt',
               Qt' = Core.td_update gamma alpha Qt s a (Core.reward tr)
                                    (Core.next_state tr) a' (Core.terminated tr) ->
               selected {| Core.r_table := Qt; Core.r_state := s; Core.r_action := a;
                           Core.r_reward := Core.reward tr;
                           Core.r_next_state := Core.next_state tr;
                           Core.r_seed := g1; Core.r_next_action := a';
                           Core.r_done := Core.terminated tr;
                           Core.r_updated := Qt' |}).
    { intros Qt' ->. split; cbn; [rewrite Hsel; reflexivity | reflexivity]. }
    destruct (Core.terminated tr || Core.truncated tr).
    + cbn. repeat split. constructor; [apply Hrec; reflexivity | constructor].
    + specialize (IH (Core.td_update gamma alpha Qt s a (Core.reward tr)
                                     (Core.next_state tr) a' (Core.terminated tr))
                     (Core.next_state tr) a' g2).
      destruct (steps cap _ (Core.next_state tr) a' g2) as [[Qf gf] log].
      cbn [snd] in *. destruct IH as (Hall & Hchain & Hhead).
      split; [constructor; [apply Hrec; reflexivity | exact Hall] |].
      split; [| cbn; repeat split].
      destruct log as [| e2 rest]; [exact I |].
      cbn in Hhead. destruct Hhead as (Ha & Hs & Ht).
      cbn [Core.on_policy Core.r_next_action Core.r_next_state Core.r_updated].
      repeat split; assumption.
Qed.

Lemma sarsa_episode_record (cap : nat) (Qt : gmap (State * nat) Q) (g : Rng) :
  Forall selected (snd (Core.sarsa_episode sim gamma alpha epsilon cap Qt g))
  /\ Core.on_policy (snd (Core.sarsa_episode sim gamma alpha epsilon cap Qt g)).
Proof.
  unfold Core.sarsa_episode.
  destruct (Core.reset sim g) as [s0 g1].
  destruct (Core.epsilon_greedy sim epsilon Qt s0 g1) as [a0 g2].
  destruct (sarsa_steps_record cap Qt s0 a0 g2) as (Hall & Hchain & _).
  split; assumption.
Qed.

(** C3.  In every episode of a SARSA run, from any table and any random
    source, each recorded transition selected its [A'] by ε-greedy from
    the table as it stood before the update and made the update with that
    [A'], and the transition that follows starts in [S'], with the updated
    table, and executes exactly that [A']. *)
Theorem sarsa_on_policy (episodes cap : nat) (Qt : gmap (State * nat) Q) (g : Rng) :
  Forall (fun log => Forall selected log /\ Core.on_policy log)
         (snd (Core.sarsa_run sim gamma alpha epsilon episodes cap Qt g)).
Proof.
  revert Qt g. induction episodes as [| n IH]; intros Qt g; [constructor |].
  cbn [Core.sarsa_run].
  pose proof (sarsa_episode_record cap Qt g) as Hep.
  destruct (Core.sarsa_episode sim gamma alpha epsilon cap Qt g) as [[Qt1 g1] log].
  specialize (IH Qt1 g1).
  destruct (Core.sarsa_run sim gamma alpha epsilon n cap Qt1 g1) as [[Qf gf] logs].
  cbn [snd] in *. constructor; assumption.
Qed.

End SarsaFacts.

(** A run on the corridor: two episodes of nine and seven transitions, in
    which the executed action of each step is the [A'] of the step
    before. *)
Example sarsa_corridor_run :
  map (map (fun e => (Core.r_action e, Core.r_next_action e)))
      (snd (Core.sarsa_run Samples.corridor_sim (99 # 100) (1 # 10) (1 # 10)
                           2 50 ∅ 7%N))
  = [[(0, 0); (0, 1); (1, 0); (0, 1); (1, 1); (1, 0); (0, 1); (1, 1); (1, 0)];
     [(0, 0); (0, 1); (1, 0); (0, 1); (1, 1); (1, 1); (1, 0)]]%nat.
Proof. vm_compute. reflexivity. Qed.

(** ** Stopping a training session *)

Section SessionFacts.
Context {Store Request Sample Table Policy : Type}.
Variable engine : Core.Engine (Store := Store) (Request := Request)
                              (Sample := Sample) (Table := Table)
                              (Policy := Policy).

Local Abbreviation session := (Core.session (Store := Store)).
Local Abbreviation event := (Core.event (Sample := Sample) (Table := Table)
                                        (Policy := Policy)).
Local Abbreviation run := (Core.run engine).
Local Abbreviation handle := (Core.handle engine).

Lemma reached_new : Core.reached (Core.new_session : session) ([] : list event).
Proof. repeat split; cbn; intros; discriminate. Qed.

Lemma reached_handle (s : session) (evs : list event) (i : Core.input) :
  Core.reached s evs ->
  Core.reached (fst (handle s i)) (evs ++ snd (handle s i))%list.
Proof.
  intros (Hst & Hidle & Hprog).
  destruct i as [req | |]; cbn [Core.handle].
  - unfold Core.start. destruct (Core.lifecycle s) eqn:Hl;
      try (cbn [fst snd]; rewrite app_nil_r; repeat split; rewrite ?Hl; auto; discriminate).
    destruct (Core.validate engine req); cbn [fst snd].
    + rewrite (Hidle eq_refl). repeat split; cbn; intros; try discriminate. eauto.
    + rewrite app_nil_r. repeat split; rewrite ?Hl; auto; discriminate.
  - cbn [fst snd]. rewrite app_nil_r. unfold Core.stop.
    destruct (Core.lifecycle s) eqn:Hl; repeat split; cbn; rewrite ?Hl; auto; discriminate.
  - unfold Core.turn. destruct (Core.lifecycle s) eqn:Hl;
      try (cbn [fst snd]; rewrite app_nil_r; repeat split; rewrite ?Hl; auto; discriminate).
    destruct (Hst eq_refl) as [st Hs]. rewrite Hs.
    destruct ((0 <? Core.unit_index s)%nat && Core.cancel_flag s);
      [cbn; repeat split; intros; discriminate |].
    destruct (Core.engine_done s);
      [cbn; repeat split; intros; discriminate |].
    unfold Core.increment.
    destruct (Core.run_unit engine st) as [[st' m] [| | reason]];
      cbn; repeat split; intros; cbn; try discriminate; eauto; lia.
Qed.

Lemma run_cons (s : session) (i : Core.input) (ins : list Core.input) :
  run s (i :: ins)
  = (fst (run (fst (handle s i)) ins),
     (snd (handle s i) ++ snd (run (fst (handle s i)) ins))%list).
Proof.
  cbn [Core.run]. destruct (handle s i) as [s1 e1].
  cbn [fst snd]. destruct (run s1 ins) as [s2 e2]. reflexivity.
Qed.

Lemma reached_run (ins : list Core.input) :
  forall (s : session) (evs : list event),
    Core.reached s evs -> Core.reached (fst (run s ins)) (evs ++ snd (run s ins))%list.
Proof.
  induction ins as [| i ins IH]; intros s evs Hr.
  - cbn. rewrite app_nil_r. exact Hr.
  - rewrite run_cons. cbn [fst snd]. rewrite app_assoc.
    apply IH. apply reached_handle. exact Hr.
Qed.

(** A session that has ended ignores every later command and turn. *)
Lemma ended_run (ins : list Core.input) (s : session) :
  Core.lifecycle s = Core.completed \/ Core.lifecycle s = Core.cancelled
  \/ Core.lifecycle s = Core.failed ->
  run s ins = (s, []).
Proof.
  intros Hend. induction ins as [| i ins IH]; [reflexivity |].
  assert (Hh : handle s i = (s, [])).
  { destruct i as [req | |]; cbn [Core.handle];
      unfold Core.start, Core.stop, Core.turn;
      destruct Hend as [Hl | [Hl | Hl]]; rewrite Hl; reflexivity. }
  rewrite run_cons, Hh. cbn [fst snd]. rewrite IH. reflexivity.
Qed.

(** With the flag set at an increment boundary, the schedule that follows
    emits the [cancelled] event on the driver's first turn and nothing
    else. *)
Lemma flagged_run (ins : list Core.input) (s : session) (st : Store) :
  Core.lifecycle s = Core.running ->
  Core.store s = Some st ->
  Core.cancel_flag s = true ->
  (0 < Core.unit_index s)%nat ->
  run s ins
  = if Core.has_turn ins
    then (Core.finish Core.cancelled s,
          [Core.ev_cancelled (Core.table_of engine st) (Core.history s)])
    else (s, []).
Proof.
  intros Hl Hs Hc Hu. induction ins as [| i ins IH]; [reflexivity |].
  rewrite run_cons. destruct i as [req | |]; cbn [Core.handle Core.has_turn existsb orb].
  - unfold Core.start. rewrite Hl. cbn [fst snd]. rewrite IH.
    fold (Core.has_turn ins). destruct (Core.has_turn ins); reflexivity.
  - assert (Hstop : Core.stop s = s).
    { unfold Core.stop. rewrite Hl. destruct s; cbn in *; subst; reflexivity. }
    cbn [fst snd]. rewrite Hstop, IH.
    fold (Core.has_turn ins). destruct (Core.has_turn ins); reflexivity.
  - unfold Core.turn. rewrite Hl, Hs, Hc.
    apply Nat.ltb_lt in Hu. rewrite Hu. cbn [andb fst snd].
    rewrite ended_run by (right; left; reflexivity). reflexivity.
Qed.

(** C2.  Take any schedule of commands and driver turns from a new
    session, after which the session is still running and a progress event
    has been emitted, and let [stop] be issued then.  Whatever schedule
    follows, the events emitted after the stop are exactly one [cancelled]
    event, carrying the table and the history as they stood, emitted on the
    driver's next turn, and nothing after it; with no further turn nothing
    is emitted at all.  So no [progress] and no [completed] event follows
    the stop. *)
Theorem stop_yields_cancelled
        (pre post : list Core.input) (s1 : session) (evs1 : list event) :
  run Core.new_session pre = (s1, evs1) ->
  Core.lifecycle s1 = Core.running ->
  existsb Core.is_progress evs1 = true ->
  exists st,
    Core.store s1 = Some st
    /\ run s1 (Core.in_stop :: post)
       = (if Core.has_turn post
          then (Core.finish Core.cancelled (Core.stop s1),
                [Core.ev_cancelled (Core.table_of engine st) (Core.history s1)])
          else (Core.stop s1, []))
    /\ existsb Core.is_progress (snd (run s1 (Core.in_stop :: post))) = false
    /\ existsb Core.is_completed (snd (run s1 (Core.in_stop :: post))) = false.
Proof.
  intros Hrun Hl Hp.
  pose proof (reached_run pre Core.new_session [] reached_new) as Hr.
  rewrite Hrun in Hr. cbn [fst snd app] in Hr.
  destruct Hr as (Hst & _ & Hprog).
  destruct (Hst Hl) as [st Hs]. specialize (Hprog Hl Hp).
  exists st. split; [exact Hs |].
  assert (Heq : run s1 (Core.in_stop :: post)
                = if Core.has_turn post
                  then (Core.finish Core.cancelled (Core.stop s1),
                        [Core.ev_cancelled (Core.table_of engine st) (Core.history s1)])
                  else (Core.stop s1, [])).
  { rewrite run_cons. cbn [Core.handle fst snd app].
    rewrite (flagged_run post (Core.stop s1) st);
      unfold Core.stop; rewrite Hl; cbn; try assumption; try reflexivity.
    destruct (Core.has_turn post); reflexivity. }
  split; [exact Heq |].
  rewrite Heq. destruct (Core.has_turn post); split; reflexivity.
Qed.

End SessionFacts.

Lemma stop_yields_cancelled_witness :
  let pre := [Core.in_start 3%nat; Core.in_turn] in
  let post := [Core.in_turn; Core.in_turn] in
  let s1 := fst (Core.run Samples.counting_engine Core.new_session pre) in
  let evs1 := snd (Core.run Samples.counting_engine Core.new_session pre) in
  Core.lifecycle s1 = Core.running
  /\ existsb Core.is_progress evs1 = true
  /\ exists st,
      Core.store s1 = Some st
      /\ Core.run Samples.counting_engine s1 (Core.in_stop :: post)
         = (if Core.has_turn post
            then (Core.finish Core.cancelled (Core.stop s1),
                  [Core.ev_cancelled (Core.table_of Samples.counting_engine st)
                                     (Core.history s1)])
            else (Core.stop s1, []))
      /\ existsb Core.is_progress
           (snd (Core.run Samples.counting_engine s1 (Core.in_stop :: post))) = false
      /\ existsb Core.is_completed
           (snd (Core.run Samples.counting_engine s1 (Core.in_stop :: post))) = false.
Proof.
  intros pre post s1 evs1.
  split; [reflexivity |]. split; [reflexivity |].
  apply (stop_yields_cancelled Samples.counting_engine pre post s1 evs1);
    reflexivity.
Defined.

(** The client side of a stop: on an open socket [stopTraining] sends one
    [stop_training] command, and the [training_stopped] reply, like
    [error], only drops the training flag. *)
Lemma stopTraining_sends (h : Hook.HookState) :
  Hook.socketOpen h = true ->
  Hook.stopTraining h = (Hook.setIsTraining false h, [Hook.stop_training])
  /\ Hook.onmessage (Stated.bare "training_stopped") h = (Hook.setIsTraining false h, [])
  /\ Hook.onmessage (Stated.bare "error") h = (Hook.setIsTraining false h, []).
Proof.
  intros Hopen. unfold Hook.stopTraining. rewrite Hopen. repeat split.
Qed.

(** * Further properties of the client code *)

(** ** The tables and the panels that read them *)

(** X1.  [getAlgorithmById] and [getEnvironmentById] find an entry for
    every member of the union types, and the entry carries the identifier
    asked for; each table lists every identifier exactly once, in the
    order of the type. *)
Theorem table_lookup_total :
  (forall id, exists info,
        Tables.getAlgorithmById id = Some info /\ Tables.a_id info = id)
  /\ (forall id, exists info,
         Tables.getEnvironmentById id = Some info /\ Tables.e_id info = id)
  /\ map Tables.a_id Tables.ALGORITHMS = ALGORITHMS_ids
  /\ map Tables.e_id Tables.ENVIRONMENTS = ENVIRONMENTS_ids
  /\ NoDup ALGORITHMS_ids
  /\ NoDup ENVIRONMENTS_ids.
Proof.
  split; [intros []; eexists; split; reflexivity |].
  split; [intros []; eexists; split; reflexivity |].
  split; [reflexivity |]. split; [reflexivity |].
  split; apply NoDup_ListNoDup;
    repeat (constructor; [cbn; intuition discriminate |]); constructor.
Qed.

(** X2.  Every parameter row of both tables can be shown on its range
    slider: the step is positive, the default lies between the minimum and
    the maximum, and it is a whole number of steps above the minimum. *)
Theorem table_rows_on_slider :
  Forall (fun info => Forall (fun p => Tables.onSlider p = true)
                             (Tables.a_parameters info))
         Tables.ALGORITHMS
  /\ Forall (fun info => Forall (fun p => Tables.onSlider p = true)
                                (Tables.e_parameters info))
            Tables.ENVIRONMENTS.
Proof. split; repeat constructor. Qed.

Lemma sliders_unfold (a : AlgorithmType) (params : ParamSlice.ParamState) :
  Panels.sliders a params
  = omap (fun param =>
            match Panels.paramKeyMap !! Tables.p_key param with
            | None => None
            | Some stateKey =>
                Some {| Panels.s_key := Tables.p_key param;
                        Panels.s_name := Tables.p_name param;
                        Panels.s_value := Panels.readParam params stateKey;
                        Panels.s_min := Tables.p_min param;
                        Panels.s_max := Tables.p_max param;
                        Panels.s_step := Tables.p_step param;
                        Panels.s_description := Tables.p_description param;
                        Panels.s_target := stateKey |}
            end)
         (Derived.parametersOf a).
Proof. destruct a; reflexivity. Qed.

(** X3.  For every algorithm and every parameter state the panel renders
    one slider for each table row other than [n_steps], in the order of the
    table, showing the value of the state field the row's key maps to and
    the row's range; on the initial parameter state each slider shows the
    default of its row. *)
Theorem sliders_follow_table (a : AlgorithmType) (params : ParamSlice.ParamState) :
  map (fun i => (Panels.s_key i, Panels.s_min i, Panels.s_max i, Panels.s_step i))
      (Panels.sliders a params)
  = map (fun p => (Tables.p_key p, Tables.p_min p, Tables.p_max p, Tables.p_step p))
        (List.filter (fun p => negb (Derived.isNSteps p)) (Derived.parametersOf a))
  /\ Forall (fun i => Panels.paramKeyMap !! Panels.s_key i = Some (Panels.s_target i)
                      /\ Panels.s_value i = Panels.readParam params (Panels.s_target i))
            (Panels.sliders a params)
  /\ map (fun i => (Panels.s_key i, Panels.s_value i))
         (Panels.sliders a ParamSlice.initialState)
     = map (fun p => (Tables.p_key p, Tables.p_default p))
           (List.filter (fun p => negb (Derived.isNSteps p)) (Derived.parametersOf a)).
Proof.
  split; [destruct a; reflexivity |].
  split; [| destruct a; reflexivity].
  rewrite sliders_unfold.
  induction (Derived.parametersOf a) as [| p ps IH]; [constructor |].
  cbn [omap list_omap].
  destruct (Panels.paramKeyMap !! Tables.p_key p) as [k |] eqn:Hk; [| exact IH].
  constructor; [split; [exact Hk | reflexivity] | exact IH].
Qed.

(** X4.  The table declares an [n_steps] row for n-step TD, but the panel
    renders no slider for it under any parameter state, and the
    [start_training] message that the training panel has the hook send
    carries no [n_steps], whatever is selected. *)
Theorem n_steps_never_set_nor_sent :
  existsb Derived.isNSteps (Derived.parametersOf n_step_td) = true
  /\ (forall a params,
         existsb (fun i => String.eqb (Panels.s_key i) "n_steps")
                 (Panels.sliders a params) = false)
  /\ (forall a e config params,
         Hook.m_n_steps
           (Hook.startTrainingMessage (Panels.realtimeConfig a e config params))
         = None).
Proof.
  split; [reflexivity |]. split; [| reflexivity].
  intros a params. destruct a; reflexivity.
Qed.

(** X5.  Started from the same store, the realtime path and the REST path
    send the same grid size, start, goal and hyperparameters, namely those
    of the store: no default of [runAlgorithm] is used.  The REST body has
    no field for the environment, the slippery flag or the brick rows,
    which only the [start_training] message carries. *)
Theorem training_paths_agree
        (a : AlgorithmType) (e : EnvironmentType)
        (config : EnvSlice.EnvironmentConfig) (params : ParamSlice.ParamState) :
  let m := Hook.startTrainingMessage (Panels.realtimeConfig a e config params) in
  let b := Api.runAlgorithm (Panels.apiParams a config params) in
  (Hook.m_grid_size m, Hook.m_agent_position m, Hook.m_goal_position m,
   Hook.m_gamma m, Hook.m_theta m, Hook.m_num_episodes m, Hook.m_alpha m,
   Hook.m_epsilon m)
  = (Api.rb_grid_size b, Api.rb_agent_position b, Api.rb_goal_position b,
     Api.rb_gamma b, Api.rb_theta b, Api.rb_num_episodes b, Api.rb_alpha b,
     Api.rb_epsilon b)
  /\ b = {| Api.rb_algorithm := algorithm_literal a;
            Api.rb_grid_size := EnvSlice.gridSize config;
            Api.rb_agent_position := EnvSlice.agentPosition config;
            Api.rb_goal_position := EnvSlice.goalPosition config;
            Api.rb_gamma := ParamSlice.gamma params;
            Api.rb_theta := ParamSlice.theta params;
            Api.rb_num_episodes := ParamSlice.numEpisodes params;
            Api.rb_alpha := ParamSlice.alpha params;
            Api.rb_epsilon := ParamSlice.epsilon params |}
  /\ Hook.m_environment m = environment_literal e
  /\ Hook.m_is_slippery m = EnvSlice.isSlippery config
  /\ Hook.m_num_brick_rows m = EnvSlice.numBrickRows config.
Proof. repeat split. Qed.

(** X6.  The training panel shows the convergence plot exactly for the
    algorithms the table files under dynamic programming. *)
Theorem dp_panel_matches_category (a : AlgorithmType) :
  exists info,
    Tables.getAlgorithmById a = Some info
    /\ Panels.isDPAlgorithm a = Derived.isDP (Tables.a_category info).
Proof. destruct a; eexists; split; reflexivity. Qed.

(** ** Reducers *)

Lemma clamp_twice (c n m : Z) :
  EnvSlice.clampCoordinate (EnvSlice.clampCoordinate c n) m
  = EnvSlice.clampCoordinate c (Z.min n m).
Proof.
  unfold EnvSlice.clampCoordinate.
  destruct (Z.geb_spec c n), (Z.geb_spec c (Z.min n m));
    try destruct (Z.geb_spec (n - 1) m); try destruct (Z.geb_spec c m); lia.
Qed.

(** X7.  Two resizes in a row leave the agent and the goal where a single
    resize to the smaller of the two sizes would put them, and the grid
    size is the one set last; so repeating a resize changes nothing, and
    growing the grid back after shrinking it does not bring a clamped
    position back. *)
Theorem setGridSize_twice (state : EnvSlice.EnvState) (n m : Z) :
  let twice := EnvSlice.setGridSize (EnvSlice.setGridSize state n) m in
  let once := EnvSlice.setGridSize state (Z.min n m) in
  EnvSlice.agentPosition (EnvSlice.config twice)
  = EnvSlice.agentPosition (EnvSlice.config once)
  /\ EnvSlice.goalPosition (EnvSlice.config twice)
     = EnvSlice.goalPosition (EnvSlice.config once)
  /\ EnvSlice.gridSize (EnvSlice.config twice) = m
  /\ EnvSlice.setGridSize (EnvSlice.setGridSize state n) n
     = EnvSlice.setGridSize state n.
Proof.
  cbn. rewrite !clamp_twice. repeat split.
  unfold EnvSlice.setGridSize. cbn. rewrite !clamp_twice, Z.min_id. reflexivity.
Qed.

(** X8.  A resize does not move the agent marker: [currentPosition] keeps
    its value and may lie outside the new grid.  A reset after the resize
    puts the marker on the clamped start, inside the grid, when the start
    coordinates were nonnegative and the new size is at least 1. *)
Theorem reset_after_resize (state : EnvSlice.EnvState) (n : Z) :
  0 <= fst (EnvSlice.agentPosition (EnvSlice.config state)) ->
  0 <= snd (EnvSlice.agentPosition (EnvSlice.config state)) ->
  1 <= n ->
  EnvSlice.currentPosition (EnvSlice.setGridSize state n)
  = EnvSlice.currentPosition state
  /\ EnvSlice.currentPosition
       (EnvReducers.resetEnvironment (EnvSlice.setGridSize state n))
     = EnvSlice.agentPosition (EnvSlice.config (EnvSlice.setGridSize state n))
  /\ EnvReducers.inGrid n
       (EnvSlice.currentPosition
          (EnvReducers.resetEnvironment (EnvSlice.setGridSize state n))).
Proof.
  intros Hx Hy Hn. split; [reflexivity |]. split; [reflexivity |].
  unfold EnvReducers.inGrid. cbn.
  split; apply clampCoordinate_range; assumption.
Qed.

Lemma reset_after_resize_witness :
  EnvReducers.inGrid 2
    (EnvSlice.currentPosition
       (EnvReducers.resetEnvironment
          (EnvSlice.setGridSize
             (EnvReducers.setAgentPosition EnvSlice.initialState (3, 1)) 2))).
Proof.
  apply (reset_after_resize
           (EnvReducers.setAgentPosition EnvSlice.initialState (3, 1)) 2);
    cbn; lia.
Defined.

Lemma incrementStep_trajectory (s : SimulationSlice.SimulationState) :
  SimulationSlice.trajectory (SimReducers.incrementStep s)
  = SimulationSlice.trajectory s.
Proof.
  unfold SimReducers.incrementStep.
  destruct (_ <? _); reflexivity.
Qed.

Lemma incrementStep_step (s : SimulationSlice.SimulationState) :
  SimulationSlice.currentStep (SimReducers.incrementStep s)
  = if SimulationSlice.currentStep s
       <? Z.of_nat (length (SimulationSlice.trajectory s)) - 1
    then SimulationSlice.currentStep s + 1
    else SimulationSlice.currentStep s.
Proof.
  unfold SimReducers.incrementStep.
  destruct (_ <? _); reflexivity.
Qed.

(** X9.  Stepping forward saturates at the last step of the trajectory:
    after [n] dispatches of [incrementStep] from a step before the last one
    the current step is [min (step + n) (length - 1)], and from the last
    step on, or with an empty trajectory, it does not change.  The
    trajectory itself is never touched. *)
Theorem incrementStep_saturates (s : SimulationSlice.SimulationState) (n : nat) :
  let last := Z.of_nat (length (SimulationSlice.trajectory s)) - 1 in
  SimulationSlice.currentStep (Nat.iter n SimReducers.incrementStep s)
  = (if SimulationSlice.currentStep s <? last
     then Z.min (SimulationSlice.currentStep s + Z.of_nat n) last
     else SimulationSlice.currentStep s)
  /\ SimulationSlice.trajectory (Nat.iter n SimReducers.incrementStep s)
     = SimulationSlice.trajectory s.
Proof.
  intros last. induction n as [| n [IHstep IHtraj]]; rewrite ?Nat.iter_succ;
    [change (Nat.iter 0 SimReducers.incrementStep s) with s |].
  - split; [| reflexivity].
    destruct (Z.ltb_spec (SimulationSlice.currentStep s) last); lia.
  - split; [| rewrite incrementStep_trajectory; exact IHtraj].
    rewrite incrementStep_step, IHtraj, IHstep. fold last.
    destruct (Z.ltb_spec (SimulationSlice.currentStep s) last) as [Hlt | Hge].
    + destruct (Z.ltb_spec
                  (Z.min (SimulationSlice.currentStep s + Z.of_nat n) last) last);
        lia.
    + destruct (Z.ltb_spec (SimulationSlice.currentStep s) last); lia.
Qed.

(** X10.  For a positive total and a count between 0 and the total,
    [setEpisodeProgress] stores both counters and a progress between 0 and
    100. *)
Theorem setEpisodeProgress_range
        (s : SimulationSlice.SimulationState) (current total : Z) :
  0 <= current <= total ->
  0 < total ->
  exists s',
    SimReducers.setEpisodeProgress s current total = Some s'
    /\ SimulationSlice.currentEpisode s' = current
    /\ SimulationSlice.totalEpisodes s' = total
    /\ (0 <= SimulationSlice.progress s' <= 100)%Q.
Proof.
  intros Hc Ht. unfold SimReducers.setEpisodeProgress.
  destruct (Z.eqb_spec total 0) as [-> | _]; [lia |].
  eexists. split; [reflexivity |]. cbn. split; [reflexivity |]. split; [reflexivity |].
  assert (Hpos : (0 < inject_Z total)%Q) by (unfold Qlt; cbn; lia).
  assert (H0 : (0 <= inject_Z current / inject_Z total)%Q).
  { apply Qle_shift_div_l; [exact Hpos |]. unfold Qle; cbn; lia. }
  assert (H1 : (inject_Z current / inject_Z total <= 1)%Q).
  { apply Qle_shift_div_r; [exact Hpos |]. unfold Qle; cbn; lia. }
  split; lra.
Qed.

Lemma setEpisodeProgress_range_witness :
  exists s',
    SimReducers.setEpisodeProgress SimulationSlice.initialState 30 120 = Some s'
    /\ SimulationSlice.currentEpisode s' = 30
    /\ SimulationSlice.totalEpisodes s' = 120
    /\ (0 <= SimulationSlice.progress s' <= 100)%Q.
Proof.
  apply (setEpisodeProgress_range SimulationSlice.initialState 30 120); lia.
Defined.

(** ** Requests *)

(** X11.  Given the same grid size, start and goal, present or left out,
    [createEnvironment] and [runAlgorithm] post the same grid size, start
    and goal: the environment that is created and the run that follows use
    the same defaults. *)
Theorem create_and_run_agree
        (cp : ApiEnvironment.CreateEnvironmentParams) (rp : Api.RunAlgorithmParams) :
  ApiEnvironment.ce_gridSize cp = Api.ra_gridSize rp ->
  ApiEnvironment.ce_agentPosition cp = Api.ra_agentPosition rp ->
  ApiEnvironment.ce_goalPosition cp = Api.ra_goalPosition rp ->
  ApiEnvironment.cb_grid_size (ApiEnvironment.createEnvironment cp)
  = Api.rb_grid_size (Api.runAlgorithm rp)
  /\ ApiEnvironment.cb_agent_position (ApiEnvironment.createEnvironment cp)
     = Api.rb_agent_position (Api.runAlgorithm rp)
  /\ ApiEnvironment.cb_goal_position (ApiEnvironment.createEnvironment cp)
     = Api.rb_goal_position (Api.runAlgorithm rp).
Proof.
  intros Hg Ha Hp. cbn. rewrite Hg, Ha, Hp. repeat split.
Qed.

Lemma create_and_run_agree_witness :
  ApiEnvironment.cb_goal_position
    (ApiEnvironment.createEnvironment
       {| ApiEnvironment.ce_environment := frozen_lake;
          ApiEnvironment.ce_gridSize := Some 8;
          ApiEnvironment.ce_agentPosition := None;
          ApiEnvironment.ce_goalPosition := None;
          ApiEnvironment.ce_isSlippery := Some true;
          ApiEnvironment.ce_numBrickRows := None |})
  = Api.rb_goal_position
      (Api.runAlgorithm
         {| Api.ra_algorithm := sarsa; Api.ra_gridSize := Some 8;
            Api.ra_agentPosition := None; Api.ra_goalPosition := None;
            Api.ra_gamma := None; Api.ra_theta := None;
            Api.ra_numEpisodes := None; Api.ra_alpha := None;
            Api.ra_epsilon := None |}).
Proof.
  exact (proj2 (proj2 (create_and_run_agree
           {| ApiEnvironment.ce_environment := frozen_lake;
              ApiEnvironment.ce_gridSize := Some 8;
              ApiEnvironment.ce_agentPosition := None;
              ApiEnvironment.ce_goalPosition := None;
              ApiEnvironment.ce_isSlippery := Some true;
              ApiEnvironment.ce_numBrickRows := None |}
           {| Api.ra_algorithm := sarsa; Api.ra_gridSize := Some 8;
              Api.ra_agentPosition := None; Api.ra_goalPosition := None;
              Api.ra_gamma := None; Api.ra_theta := None;
              Api.ra_numEpisodes := None; Api.ra_alpha := None;
              Api.ra_epsilon := None |}
           eq_refl eq_refl eq_refl))).
Defined.

(** X12.  When the goal is left out of [runAlgorithm] and the grid size is
    left out or at least 1, the goal that is posted is the far corner of
    the grid that is posted, and so lies inside it. *)
Theorem default_goal_in_grid (rp : Api.RunAlgorithmParams) :
  Api.ra_goalPosition rp = None ->
  match Api.ra_gridSize rp with
  | Some g => 1 <= g
  | None => True
  end ->
  let b := Api.runAlgorithm rp in
  Api.rb_goal_position b = (Api.rb_grid_size b - 1, Api.rb_grid_size b - 1)
  /\ EnvReducers.inGrid (Api.rb_grid_size b) (Api.rb_goal_position b).
Proof.
  intros Hgoal Hsize. cbn. rewrite Hgoal. unfold EnvReducers.inGrid.
  destruct (Api.ra_gridSize rp) as [g |]; cbn.
  - unfold truthyZ. destruct (Z.eqb_spec g 0); [lia |]. cbn.
    split; [reflexivity | lia].
  - split; [reflexivity | lia].
Qed.

Lemma default_goal_in_grid_witness :
  EnvReducers.inGrid 4 (Api.rb_goal_position (Api.runAlgorithm (Api.run_omitted sarsa))).
Proof.
  exact (proj2 (default_goal_in_grid (Api.run_omitted sarsa) eq_refl I)).
Defined.

(** X13.  [simulatePolicy] never posts an empty policy: when the body has
    a policy it is the one that was passed and it has at least one entry;
    an empty policy is left out like a missing one. *)
Theorem simulatePolicy_policy
        (params : Api.SimulatePolicyParams) (p : gmap string Z) :
  Api.sb_policy (Api.simulatePolicy params) = Some p ->
  Api.sp_policy params = Some p /\ p <> ∅.
Proof.
  unfold Api.simulatePolicy. cbn [Api.sb_policy].
  destruct (Api.sp_policy params) as [q |]; [| discriminate].
  destruct (0 <? size q)%nat eqn:Hsize; [| discriminate].
  intros [= ->]. split; [reflexivity |].
  apply Nat.ltb_lt in Hsize. apply map_size_non_empty_iff. lia.
Qed.

Lemma simulatePolicy_policy_witness :
  ({[ "(0, 0)" := 3 ]} : gmap string Z) <> ∅.
Proof.
  exact (proj2 (simulatePolicy_policy
           {| Api.sp_maxSteps := None; Api.sp_agentPosition := None;
              Api.sp_goalPosition := (3, 3); Api.sp_gridSize := None;
              Api.sp_gamma := None; Api.sp_environment := None;
              Api.sp_policy := Some {[ "(0, 0)" := 3 ]};
              Api.sp_isSlippery := None; Api.sp_numBrickRows := None |}
           {[ "(0, 0)" := 3 ]} eq_refl)).
Defined.

(** ** [truncate] *)

Lemma length_append (s t : string) :
  String.length (s ++ t) = (String.length s + String.length t)%nat.
Proof.
  induction s as [| c s IH]; [reflexivity |].
  rewrite append_cons. cbn [String.length]. rewrite IH. reflexivity.
Qed.

Lemma length_takeChars (n : nat) (s : string) :
  String.length (Text.takeChars n s) = Nat.min n (String.length s).
Proof.
  revert s. induction n as [| n IH]; intros [| c r]; cbn; try reflexivity.
  rewrite IH. reflexivity.
Qed.

(** X14.  With a limit of at least 3, [truncate] never returns more than
    [maxLength] characters: a string that fits comes back as it is, and a
    longer one is cut to its first [maxLength - 3] characters followed by
    three dots. *)
Theorem truncate_fits (str : string) (maxLength : Z) :
  3 <= maxLength ->
  Z.of_nat (String.length (Text.truncate str maxLength)) <= maxLength
  /\ Text.truncate str maxLength
     = if Z.of_nat (String.length str) <=? maxLength then str
       else Text.takeChars (Z.to_nat (maxLength - 3)) str ++ "...".
Proof.
  intros Hm. unfold Text.truncate, Text.sliceTo.
  destruct (Z.leb_spec (Z.of_nat (String.length str)) maxLength) as [Hfit | Hlong].
  - split; [exact Hfit | reflexivity].
  - destruct (Z.ltb_spec (maxLength - 3) 0); [lia |].
    split; [| reflexivity].
    rewrite length_append, length_takeChars. cbn [String.length]. lia.
Qed.

Lemma truncate_fits_witness :
  Z.of_nat (String.length (Text.truncate "monte_carlo_first_visit" 10)) <= 10
  /\ Text.truncate "monte_carlo_first_visit" 10
     = if Z.of_nat (String.length "monte_carlo_first_visit") <=? 10
       then "monte_carlo_first_visit"
       else Text.takeChars (Z.to_nat (10 - 3)) "monte_carlo_first_visit" ++ "...".
Proof. apply (truncate_fits "monte_carlo_first_visit" 10). lia. Defined.

(** X15.  With a limit of 0, 1 or 2 the cut is counted from the end of the
    string, so [truncate] of a string of at least 3 characters returns
    [maxLength] characters more than the string has, not fewer. *)
Theorem truncate_small_limit (str : string) (maxLength : Z) :
  0 <= maxLength < 3 ->
  (3 <= String.length str)%nat ->
  Z.of_nat (String.length (Text.truncate str maxLength))
  = Z.of_nat (String.length str) + maxLength.
Proof.
  intros Hm Hlen. unfold Text.truncate, Text.sliceTo.
  destruct (Z.leb_spec (Z.of_nat (String.length str)) maxLength); [lia |].
  destruct (Z.ltb_spec (maxLength - 3) 0); [| lia].
  rewrite length_append, length_takeChars. cbn [String.length]. lia.
Qed.

Lemma truncate_small_limit_witness :
  Z.of_nat (String.length (Text.truncate "sarsa" 2)) = Z.of_nat (String.length "sarsa") + 2.
Proof. apply (truncate_small_limit "sarsa" 2); cbn; lia. Defined.

(** ** [parseStateKey] on other keys *)

Lemma matchAt_other (c : ascii) (r : string) :
  Ascii.eqb c "(" = false -> CanvasUtils.matchAt (String c r) = None.
Proof.
  destruct c as [[] [] [] [] [] [] [] []]; cbn; intros Hc;
    solve [reflexivity | discriminate Hc].
Qed.

Lemma regexMatch_skip (pre key : string) :
  KeyText.lacks "(" pre = true ->
  CanvasUtils.regexMatch (pre ++ key) = CanvasUtils.regexMatch key.
Proof.
  induction pre as [| c pre IH]; intros Hpre; [reflexivity |].
  cbn [KeyText.lacks] in Hpre. apply andb_prop in Hpre as [Hc Hrest].
  apply negb_true_iff in Hc.
  rewrite append_cons. cbn [CanvasUtils.regexMatch].
  rewrite (matchAt_other c _ Hc). apply IH. exact Hrest.
Qed.

Lemma append_empty (s : string) : s ++ EmptyString = s.
Proof.
  induction s as [| c s IH]; [reflexivity |].
  rewrite append_cons, IH. reflexivity.
Qed.

(** X16.  The pattern is searched for anywhere in the key: text before
    the key that has no opening parenthesis does not change the result, and
    a key without any opening parenthesis gives [null]. *)
Theorem parseStateKey_skips_prefix (pre key : string) :
  KeyText.lacks "(" pre = true ->
  CanvasUtils.parseStateKey (pre ++ key) = CanvasUtils.parseStateKey key
  /\ CanvasUtils.parseStateKey pre = None.
Proof.
  intros Hpre. unfold CanvasUtils.parseStateKey. split.
  - rewrite (regexMatch_skip pre key Hpre). reflexivity.
  - pose proof (regexMatch_skip pre EmptyString Hpre) as Hnone.
    rewrite append_empty in Hnone. rewrite Hnone. reflexivity.
Qed.

Lemma parseStateKey_skips_prefix_witness :
  CanvasUtils.parseStateKey ("state " ++ "(2, 5)") = CanvasUtils.parseStateKey "(2, 5)"
  /\ CanvasUtils.parseStateKey "state " = None.
Proof. apply (parseStateKey_skips_prefix "state " "(2, 5)"). reflexivity. Defined.

Lemma skipSpaces_blanks (ws : string) (n : N) (rest : string) :
  KeyText.allSpaces ws = true ->
  Js.skipSpaces (ws ++ Js.digitsN n ++ rest) = Js.digitsN n ++ rest.
Proof.
  induction ws as [| c ws IH]; intros Hws.
  - rewrite append_nil. apply skipSpaces_digitsN.
  - cbn [KeyText.allSpaces] in Hws. apply andb_prop in Hws as [Hc Hrest].
    rewrite append_cons. cbn [Js.skipSpaces]. rewrite Hc. apply IH. exact Hrest.
Qed.

Lemma matchAt_blanks (n m : N) (ws : string) :
  KeyText.allSpaces ws = true ->
  CanvasUtils.matchAt ("(" ++ Js.digitsN n ++ "," ++ ws ++ Js.digitsN m ++ ")")
  = Some (Js.digitsN n, Js.digitsN m).
Proof.
  intros Hws. rewrite !append_cons, !append_nil. cbn [CanvasUtils.matchAt].
  rewrite takeDigits_digitsN by exact eq_refl.
  rewrite (skipSpaces_blanks ws m _ Hws).
  rewrite takeDigits_digitsN by exact eq_refl.
  destruct (digitsN_head n) as (c & r & Heq & _).
  destruct (digitsN_head m) as (c' & r' & Heq' & _).
  rewrite Heq, Heq'. reflexivity.
Qed.

(** X17.  The parser accepts any run of blanks, also none, between the
    comma and the second number: for integers [x] and [y] from 0 to 2^53,
    the key made of [(], the digits of [x], a comma, blanks, the digits of
    [y] and [)] parses to [(x, y)]. *)
Theorem parseStateKey_blanks (x y : Z) (ws : string) :
  0 <= x <= KeyText.exactBound ->
  0 <= y <= KeyText.exactBound ->
  KeyText.allSpaces ws = true ->
  CanvasUtils.parseStateKey
    ("(" ++ Js.digitsN (Z.to_N x) ++ "," ++ ws ++ Js.digitsN (Z.to_N y) ++ ")")
  = Some (x, y).
Proof.
  intros Hx Hy Hws. unfold CanvasUtils.parseStateKey.
  rewrite (regexMatch_head _ _ (matchAt_blanks (Z.to_N x) (Z.to_N y) ws Hws)).
  rewrite !parseIntDigits_digitsN, !Z2N.id by lia. reflexivity.
Qed.

Lemma parseStateKey_blanks_witness :
  CanvasUtils.parseStateKey "(3,12)" = Some (3, 12)
  /\ CanvasUtils.parseStateKey "(3,   12)" = Some (3, 12).
Proof.
  split.
  - apply (parseStateKey_blanks 3 12 EmptyString);
      [unfold KeyText.exactBound; lia | unfold KeyText.exactBound; lia | reflexivity].
  - apply (parseStateKey_blanks 3 12 "   ");
      [unfold KeyText.exactBound; lia | unfold KeyText.exactBound; lia | reflexivity].
Defined.

Lemma lacks_append (c : ascii) (s t : string) :
  KeyText.lacks c (s ++ t) = KeyText.lacks c s && KeyText.lacks c t.
Proof.
  induction s as [| a s IH]; [reflexivity |].
  rewrite append_cons. cbn [KeyText.lacks]. rewrite IH, andb_assoc. reflexivity.
Qed.

Lemma lacks_uint (d : Decimal.uint) :
  KeyText.lacks "(" (NilEmpty.string_of_uint d) = true.
Proof. induction d; cbn; try assumption; reflexivity. Qed.

Lemma lacks_digitsN (n : N) : KeyText.lacks "(" (Js.digitsN n) = true.
Proof. rewrite digitsN_plain. apply lacks_uint. Qed.

Lemma lacks_number (z : Z) :
  - 1000000000000000000000 < z < 1000000000000000000000 ->
  KeyText.lacks "(" (Js.numberToString z) = true.
Proof.
  intros Hz. destruct z as [| p | p].
  - reflexivity.
  - rewrite numberToString_plain by lia. apply lacks_digitsN.
  - unfold Js.numberToString, Js.natToString.
    change (10 ^ 21)%N with 1000000000000000000000%N.
    destruct (N.ltb_spec (N.pos p) 1000000000000000000000); [| lia].
    rewrite append_cons, append_nil. cbn [KeyText.lacks].
    rewrite lacks_digitsN. reflexivity.
Qed.

(** X18.  A key made by [createStateKey] from a negative first coordinate
    is not parsed: for [-10^21 < x < 0] and [-10^21 < y < 10^21],
    [parseStateKey (createStateKey x y)] is [null]. *)
Theorem negative_key_not_parsed (x y : Z) :
  - 10 ^ 21 < x < 0 ->
  - 10 ^ 21 < y < 10 ^ 21 ->
  CanvasUtils.parseStateKey (CanvasUtils.createStateKey x y) = None.
Proof.
  change (10 ^ 21) with 1000000000000000000000. intros Hx Hy.
  unfold CanvasUtils.parseStateKey, CanvasUtils.createStateKey.
  destruct x as [| p | p]; try lia.
  assert (Hnum : Js.numberToString (Z.neg p) = String "-" (Js.digitsN (N.pos p))).
  { unfold Js.numberToString, Js.natToString.
    change (10 ^ 21)%N with 1000000000000000000000%N.
    destruct (N.ltb_spec (N.pos p) 1000000000000000000000); [reflexivity | lia]. }
  rewrite Hnum, !append_cons, !append_nil.
  set (tail := Js.digitsN (N.pos p) ++ String "," (String " "
                 (Js.numberToString y ++ ")"))).
  assert (Hhead : CanvasUtils.matchAt (String "(" (String "-" tail)) = None)
    by reflexivity.
  assert (Hrest : CanvasUtils.regexMatch (String "-" tail) = None).
  { pose proof (regexMatch_skip (String "-" tail) EmptyString) as Hskip.
    rewrite append_empty in Hskip. apply Hskip.
    subst tail. cbn [KeyText.lacks]. rewrite lacks_append, lacks_digitsN.
    cbn [KeyText.lacks]. rewrite lacks_append, lacks_number by lia. reflexivity. }
  change (CanvasUtils.regexMatch (String "(" (String "-" tail)))
    with (match CanvasUtils.matchAt (String "(" (String "-" tail)) with
          | Some groups => Some groups
          | None => CanvasUtils.regexMatch (String "-" tail)
          end).
  rewrite Hhead, Hrest. reflexivity.
Qed.

Lemma negative_key_not_parsed_witness :
  CanvasUtils.parseStateKey (CanvasUtils.createStateKey (-1) 2) = None.
Proof.
  apply (negative_key_not_parsed (-1) 2);
    change (10 ^ 21) with 1000000000000000000000; lia.
Defined.

(** ** The heat map *)

Section HeatmapFacts.
Context {A : Type}.

Lemma emptyGrid_square (n : Z) :
  Shapes.square (Z.to_nat n) (Heatmap.emptyGrid (A := A) n).
Proof.
  unfold Shapes.square, Heatmap.emptyGrid. split.
  - apply length_replicate.
  - apply Forall_replicate. apply length_replicate.
Qed.

Lemma emptyGrid_cell (n : Z) (x y : nat) :
  Heatmap.cellAt (Heatmap.emptyGrid (A := A) n) x y = None.
Proof.
  unfold Heatmap.cellAt, Heatmap.emptyGrid.
  destruct (replicate (Z.to_nat n) _ !! y) as [row |] eqn:Hrow; [| reflexivity].
  apply lookup_replicate in Hrow as [-> _].
  destruct (replicate (Z.to_nat n) _ !! x) as [cell |] eqn:Hcell; [| reflexivity].
  apply lookup_replicate in Hcell as [-> _]. reflexivity.
Qed.

Lemma writeCell_square (k : nat) (grid : list (list (option A))) (x y : nat) (v : A) :
  Shapes.square k grid -> Shapes.square k (Heatmap.writeCell grid x y v).
Proof.
  intros [Hlen Hrows]. unfold Heatmap.writeCell. split.
  - rewrite length_alter. exact Hlen.
  - apply Forall_alter; [exact Hrows |].
    intros row _ Hrow. rewrite length_insert. exact Hrow.
Qed.

Lemma cellAt_writeCell (k : nat) (grid : list (list (option A)))
      (x' y' : nat) (v : A) (x y : nat) :
  Shapes.square k grid -> (x' < k)%nat -> (y' < k)%nat ->
  Heatmap.cellAt (Heatmap.writeCell grid x' y' v) x y
  = if ((x' =? x) && (y' =? y))%nat then Some v else Heatmap.cellAt grid x y.
Proof.
  intros [Hlen Hrows] Hx Hy. unfold Heatmap.cellAt, Heatmap.writeCell.
  destruct (Nat.eqb_spec y' y) as [<- | Hne].
  - rewrite list_lookup_alter_eq.
    destruct (lookup_lt_is_Some_2 grid y') as [row Hrow]; [lia |].
    rewrite Hrow. cbn [fmap option_fmap option_map].
    assert (Hrowlen : length row = k)
      by (eapply (proj1 (Forall_lookup _ _) Hrows); exact Hrow).
    destruct (Nat.eqb_spec x' x) as [<- | Hnex]; cbn [andb].
    + rewrite list_lookup_insert_eq by lia. reflexivity.
    + rewrite list_lookup_insert_ne by exact Hnex. reflexivity.
  - rewrite list_lookup_alter_ne by exact Hne.
    rewrite andb_false_r. reflexivity.
Qed.

End HeatmapFacts.

Lemma parseIntDigits_nonneg (s : string) : 0 <= Js.parseIntDigits s.
Proof.
  unfold Js.parseIntDigits. destruct (NilEmpty.uint_of_string s); lia.
Qed.

Lemma cellOf_inside (n : Z) (key : string) (x y : nat) :
  Heatmap.cellOf n key = Some (x, y) -> (x < Z.to_nat n)%nat /\ (y < Z.to_nat n)%nat.
Proof.
  unfold Heatmap.cellOf.
  destruct (CanvasUtils.regexMatch key) as [[g1 g2] |]; [| discriminate].
  pose proof (parseIntDigits_nonneg g1). pose proof (parseIntDigits_nonneg g2).
  destruct (Z.ltb_spec (Js.parseIntDigits g1) n); [| discriminate].
  destruct (Z.ltb_spec (Js.parseIntDigits g2) n); [| discriminate].
  cbn [andb]. intros [= <- <-]. lia.
Qed.

Lemma visit_fold (n : Z) (entries : list (string * Q)) :
  forall (grid : list (list (option Q))) (lo hi : option Q),
    Shapes.square (Z.to_nat n) grid ->
    Shapes.bounded grid lo hi ->
    exists grid' lo' hi',
      fold_left (Heatmap.visit n) entries (grid, lo, hi) = (grid', lo', hi')
      /\ Shapes.square (Z.to_nat n) grid'
      /\ Shapes.bounded grid' lo' hi'
      /\ forall x y,
          Heatmap.cellAt grid' x y
          = fold_left
              (fun acc entry =>
                 match Heatmap.cellOf n (fst entry) with
                 | Some (x', y') =>
                     if ((x' =? x) && (y' =? y))%nat then Some (snd entry) else acc
                 | None => acc
                 end)
              entries (Heatmap.cellAt grid x y).
Proof.
  induction entries as [| [key value] entries IH]; intros grid lo hi Hsq Hb.
  - exists grid, lo, hi.
    split; [reflexivity |]. split; [exact Hsq |]. split; [exact Hb |].
    intros x y. reflexivity.
  - cbn [fold_left Heatmap.visit fst snd].
    destruct (Heatmap.cellOf n key) as [[x' y'] |] eqn:Hcell.
    + destruct (cellOf_inside n key x' y' Hcell) as [Hx Hy].
      destruct (IH (Heatmap.writeCell grid x' y' value)
                   (Heatmap.lower lo value) (Heatmap.upper hi value))
        as (g' & lo' & hi' & Hfold & Hsq' & Hb' & Hcells).
      * apply writeCell_square. exact Hsq.
      * intros x y v. rewrite (cellAt_writeCell _ _ _ _ _ _ _ Hsq Hx Hy).
        destruct ((x' =? x) && (y' =? y))%nat.
        -- intros [= ->]. split.
           ++ destruct lo as [a |]; cbn; eexists; (split; [reflexivity |]);
                [apply Q.le_min_r | apply Qle_refl].
           ++ destruct hi as [b |]; cbn; eexists; (split; [reflexivity |]);
                [apply Q.le_max_r | apply Qle_refl].
        -- intros Hv. destruct (Hb x y v Hv) as [(a & -> & Ha) (b & -> & Hbv)].
           split; cbn; eexists; (split; [reflexivity |]).
           ++ eapply Qle_trans; [apply Q.le_min_l | exact Ha].
           ++ eapply Qle_trans; [exact Hbv | apply Q.le_max_l].
      * exists g', lo', hi'.
        split; [exact Hfold |]. split; [exact Hsq' |]. split; [exact Hb' |].
        intros x y. rewrite Hcells.
        rewrite (cellAt_writeCell _ _ _ _ _ _ _ Hsq Hx Hy). reflexivity.
    + destruct (IH grid lo hi Hsq Hb) as (g' & lo' & hi' & Hfold & Hsq' & Hb' & Hcells).
      exists g', lo', hi'.
      split; [exact Hfold |]. split; [exact Hsq' |]. split; [exact Hb' |].
      exact Hcells.
Qed.

Lemma heatmapData_fold (entries : list (string * Q)) (n : Z) (d : Heatmap.HeatmapData) :
  Heatmap.heatmapData entries n = Some d ->
  n < Heatmap.arrayLimit
  /\ exists lo hi,
      fold_left (Heatmap.visit n) entries (Heatmap.emptyGrid n, None, None)
      = (Heatmap.gridValues d, lo, hi)
      /\ Heatmap.minValue d = nullish lo 0%Q
      /\ Heatmap.maxValue d = nullish hi 0%Q.
Proof.
  unfold Heatmap.heatmapData.
  destruct (Z.leb_spec Heatmap.arrayLimit n); [discriminate |].
  destruct (fold_left _ _ _) as [[grid lo] hi]. intros [= <-].
  split; [assumption |]. exists lo, hi. repeat split.
Qed.

Lemma empty_bounded (n : Z) :
  Shapes.bounded (Heatmap.emptyGrid n) None None.
Proof. intros x y v Hv. rewrite emptyGrid_cell in Hv. discriminate Hv. Qed.

(** X19.  The grid of the heat map is square whatever the value function
    holds: it has [gridSize] rows of [gridSize] cells (none for a negative
    size), and keys that do not parse or address a cell outside the grid
    leave it as it is. *)
Theorem heatmap_is_square
        (entries : list (string * Q)) (n : Z) (d : Heatmap.HeatmapData) :
  Heatmap.heatmapData entries n = Some d ->
  Shapes.square (Z.to_nat n) (Heatmap.gridValues d).
Proof.
  intros Hd. destruct (heatmapData_fold entries n d Hd) as (_ & lo & hi & Hfold & _).
  destruct (visit_fold n entries (Heatmap.emptyGrid n) None None
                       (emptyGrid_square n) (empty_bounded n))
    as (g' & lo' & hi' & Hfold' & Hsq & _).
  rewrite Hfold in Hfold'. injection Hfold' as -> _ _. exact Hsq.
Qed.

(** X20.  Each cell of the heat map shows the value of the last entry of
    the value function whose key addresses that cell, and is empty when no
    entry does; this holds for every column and row, also outside the
    grid, where every cell is empty. *)
Theorem heatmap_cell
        (entries : list (string * Q)) (n : Z) (d : Heatmap.HeatmapData)
        (x y : nat) :
  Heatmap.heatmapData entries n = Some d ->
  Heatmap.cellAt (Heatmap.gridValues d) x y = Heatmap.lastFor n entries x y.
Proof.
  intros Hd. destruct (heatmapData_fold entries n d Hd) as (_ & lo & hi & Hfold & _).
  destruct (visit_fold n entries (Heatmap.emptyGrid n) None None
                       (emptyGrid_square n) (empty_bounded n))
    as (g' & lo' & hi' & Hfold' & _ & _ & Hcells).
  rewrite Hfold in Hfold'. injection Hfold' as -> _ _.
  rewrite Hcells, emptyGrid_cell. reflexivity.
Qed.

(** X21.  Every value the heat map shows lies between its [minValue] and
    its [maxValue], so the colour scale covers all cells. *)
Theorem heatmap_bounds
        (entries : list (string * Q)) (n : Z) (d : Heatmap.HeatmapData)
        (x y : nat) (v : Q) :
  Heatmap.heatmapData entries n = Some d ->
  Heatmap.cellAt (Heatmap.gridValues d) x y = Some v ->
  (Heatmap.minValue d <= v <= Heatmap.maxValue d)%Q.
Proof.
  intros Hd Hv.
  destruct (heatmapData_fold entries n d Hd) as (_ & lo & hi & Hfold & Hmin & Hmax).
  destruct (visit_fold n entries (Heatmap.emptyGrid n) None None
                       (emptyGrid_square n) (empty_bounded n))
    as (g' & lo' & hi' & Hfold' & _ & Hb & _).
  rewrite Hfold in Hfold'. injection Hfold' as Hg Hlo Hhi.
  subst lo' hi'. rewrite Hg in Hv.
  destruct (Hb x y v Hv) as [(a & Hlo & Ha) (b & Hhi & Hbv)].
  rewrite Hmin, Hmax, Hlo, Hhi. cbn. split; assumption.
Qed.

Lemma cellOf_created (n x y : Z) :
  n < Heatmap.arrayLimit -> 0 <= x < n -> 0 <= y < n ->
  Heatmap.cellOf n (CanvasUtils.createStateKey x y) = Some (Z.to_nat x, Z.to_nat y).
Proof.
  unfold Heatmap.arrayLimit. intros Hn Hx Hy.
  unfold Heatmap.cellOf, CanvasUtils.createStateKey.
  rewrite (numberToString_plain x), (numberToString_plain y) by lia.
  rewrite (regexMatch_head _ _ (matchAt_key (Z.to_N x) (Z.to_N y))).
  rewrite !parseIntDigits_digitsN, !Z2N.id by lia.
  destruct (Z.ltb_spec x n); [| lia]. destruct (Z.ltb_spec y n); [| lia].
  reflexivity.
Qed.

Lemma lastFor_snoc {A : Type} (n : Z) (entries : list (string * A))
      (key : string) (v : A) (x y : nat) :
  Heatmap.cellOf n key = Some (x, y) ->
  Heatmap.lastFor n (entries ++ [(key, v)]) x y = Some v.
Proof.
  intros Hcell. unfold Heatmap.lastFor.
  rewrite fold_left_app. cbn [fold_left fst snd]. rewrite Hcell.
  rewrite !Nat.eqb_refl. reflexivity.
Qed.

(** X22.  A value stored last under the key [createStateKey x y] is shown
    at column [x] of row [y] of the heat map, for every cell [(x, y)] of the
    grid. *)
Theorem heatmap_shows_created_key
        (entries : list (string * Q)) (n x y : Z) (v : Q)
        (d : Heatmap.HeatmapData) :
  0 <= x < n ->
  0 <= y < n ->
  Heatmap.heatmapData (entries ++ [(CanvasUtils.createStateKey x y, v)]) n = Some d ->
  Heatmap.cellAt (Heatmap.gridValues d) (Z.to_nat x) (Z.to_nat y) = Some v.
Proof.
  intros Hx Hy Hd.
  destruct (heatmapData_fold _ n d Hd) as (Hn & lo & hi & Hfold & _).
  destruct (visit_fold n (entries ++ [(CanvasUtils.createStateKey x y, v)])
                       (Heatmap.emptyGrid n) None None
                       (emptyGrid_square n) (empty_bounded n))
    as (g' & lo' & hi' & Hfold' & _ & _ & Hcells).
  rewrite Hfold in Hfold'. injection Hfold' as -> _ _.
  rewrite Hcells, emptyGrid_cell.
  apply (lastFor_snoc n entries). apply cellOf_created; assumption.
Qed.

Lemma heatmap_witness_data :
  exists d,
    Heatmap.heatmapData
      ([("(1, 0)", (5 # 1)%Q); ("bias", (9 # 1)%Q)]
         ++ [(CanvasUtils.createStateKey 0 1, (7 # 2)%Q)]) 2 = Some d.
Proof. eexists. reflexivity. Defined.

Lemma heatmap_is_square_witness :
  exists d,
    Heatmap.heatmapData
      ([("(1, 0)", (5 # 1)%Q); ("bias", (9 # 1)%Q)]
         ++ [(CanvasUtils.createStateKey 0 1, (7 # 2)%Q)]) 2 = Some d
    /\ Shapes.square (Z.to_nat 2) (Heatmap.gridValues d).
Proof.
  destruct heatmap_witness_data as [d Hd]. exists d.
  split; [exact Hd | exact (heatmap_is_square _ 2 d Hd)].
Defined.

Lemma heatmap_cell_witness :
  exists d,
    Heatmap.heatmapData
      ([("(1, 0)", (5 # 1)%Q); ("bias", (9 # 1)%Q)]
         ++ [(CanvasUtils.createStateKey 0 1, (7 # 2)%Q)]) 2 = Some d
    /\ Heatmap.cellAt (Heatmap.gridValues d) 1 0
       = Heatmap.lastFor 2 ([("(1, 0)", (5 # 1)%Q); ("bias", (9 # 1)%Q)]
                              ++ [(CanvasUtils.createStateKey 0 1, (7 # 2)%Q)]) 1 0.
Proof.
  destruct heatmap_witness_data as [d Hd]. exists d.
  split; [exact Hd | exact (heatmap_cell _ 2 d 1%nat 0%nat Hd)].
Defined.

Lemma heatmap_bounds_witness :
  exists d,
    Heatmap.heatmapData [("(1, 0)", (5 # 1)%Q); ("(0, 1)", (7 # 2)%Q)] 2 = Some d
    /\ (Heatmap.minValue d <= 5 # 1 <= Heatmap.maxValue d)%Q.
Proof.
  eexists. split; [reflexivity |].
  exact (heatmap_bounds [("(1, 0)", (5 # 1)%Q); ("(0, 1)", (7 # 2)%Q)] 2 _
                        1%nat 0%nat (5 # 1)%Q eq_refl eq_refl).
Defined.

Lemma heatmap_shows_created_key_witness :
  exists d,
    Heatmap.heatmapData
      ([("(1, 0)", (5 # 1)%Q); ("bias", (9 # 1)%Q)]
         ++ [(CanvasUtils.createStateKey 0 1, (7 # 2)%Q)]) 2 = Some d
    /\ Heatmap.cellAt (Heatmap.gridValues d) (Z.to_nat 0) (Z.to_nat 1)
       = Some (7 # 2)%Q.
Proof.
  destruct heatmap_witness_data as [d Hd]. exists d.
  split; [exact Hd |].
  apply (heatmap_shows_created_key
           [("(1, 0)", (5 # 1)%Q); ("bias", (9 # 1)%Q)] 2 0 1 (7 # 2)%Q d);
    [lia | lia | exact Hd].
Defined.

Lemma visitPolicy_fold (n : Z) (entries : list (string * Z)) :
  forall grid : list (list (option Z)),
    Shapes.square (Z.to_nat n) grid ->
    Shapes.square (Z.to_nat n) (fold_left (Heatmap.visitPolicy n) entries grid)
    /\ forall x y,
        Heatmap.cellAt (fold_left (Heatmap.visitPolicy n) entries grid) x y
        = fold_left
            (fun acc entry =>
               match Heatmap.cellOf n (fst entry) with
               | Some (x', y') =>
                   if ((x' =? x) && (y' =? y))%nat then Some (snd entry) else acc
               | None => acc
               end)
            entries (Heatmap.cellAt grid x y).
Proof.
  induction entries as [| [key action] entries IH]; intros grid Hsq.
  - split; [exact Hsq | intros; reflexivity].
  - cbn [fold_left]. unfold Heatmap.visitPolicy at 2 4. cbn [fst snd].
    destruct (Heatmap.cellOf n key) as [[x' y'] |] eqn:Hcell.
    + destruct (cellOf_inside n key x' y' Hcell) as [Hx Hy].
      destruct (IH (Heatmap.writeCell grid x' y' action)
                   (writeCell_square _ _ _ _ _ Hsq)) as [Hsq' Hcells].
      split; [exact Hsq' |]. intros x y. rewrite Hcells.
      rewrite (cellAt_writeCell _ _ _ _ _ _ _ Hsq Hx Hy). reflexivity.
    + apply IH. exact Hsq.
Qed.

(** X23.  The arrow grid has the shape of the heat map, and each of its
    cells holds the action of the last policy entry whose key addresses the
    cell; without a policy there is no arrow grid. *)
Theorem policyGrid_cell (policy : list (string * Z)) (n : Z)
        (grid : list (list (option Z))) (x y : nat) :
  Heatmap.policyGrid (Some policy) n = Some (Heatmap.policyCells grid) ->
  Shapes.square (Z.to_nat n) grid
  /\ Heatmap.cellAt grid x y = Heatmap.lastFor n policy x y
  /\ Heatmap.policyGrid None n = Some Heatmap.noPolicy.
Proof.
  unfold Heatmap.policyGrid.
  destruct (Heatmap.arrayLimit <=? n); [discriminate |]. intros [= <-].
  destruct (visitPolicy_fold n policy (Heatmap.emptyGrid n) (emptyGrid_square n))
    as [Hsq Hcells].
  split; [exact Hsq |]. split; [| reflexivity].
  rewrite Hcells, emptyGrid_cell. reflexivity.
Qed.

Lemma policyGrid_cell_witness :
  Heatmap.cellAt [[None; Some 3]; [None; None]] 1 0
  = Heatmap.lastFor 2 [("(1, 0)", 1); ("(7, 7)", 2); ("(1,0)", 3)] 1 0.
Proof.
  exact (proj1 (proj2 (policyGrid_cell
           [("(1, 0)", 1); ("(7, 7)", 2); ("(1,0)", 3)] 2
           [[None; Some 3]; [None; None]] 1%nat 0%nat eq_refl))).
Defined.

(** ** The convergence plot *)

Lemma points_positive (index : Z) (deltaHistory : list Q) :
  List.filter (fun p => ConvergencePlot.positive (ConvergencePlot.delta p))
              (ConvergencePlot.points index deltaHistory)
  = ConvergencePlot.points index deltaHistory.
Proof.
  revert index. induction deltaHistory as [| d rest IH]; intros index; [reflexivity |].
  cbn [ConvergencePlot.points List.filter ConvergencePlot.delta].
  destruct (ConvergencePlot.positive d) eqn:Hd.
  - rewrite Hd, IH. reflexivity.
  - change (ConvergencePlot.positive (1 # 10000000000)) with true.
    cbv iota. rewrite IH. reflexivity.
Qed.

Lemma points_columns (index : Z) (deltaHistory : list Q) :
  map ConvergencePlot.iteration (ConvergencePlot.points index deltaHistory)
  = map (fun i => index + Z.of_nat i + 1) (seq 0 (length deltaHistory))
  /\ map ConvergencePlot.delta (ConvergencePlot.points index deltaHistory)
     = map (fun d => if ConvergencePlot.positive d then d else (1 # 10000000000)%Q)
           deltaHistory.
Proof.
  revert index. induction deltaHistory as [| d rest IH]; intros index;
    [split; reflexivity |].
  destruct (IH (index + 1)) as [Hit Hd].
  cbn [ConvergencePlot.points map length seq ConvergencePlot.iteration
       ConvergencePlot.delta].
  rewrite Hit, Hd. split; [| reflexivity].
  f_equal; [f_equal; lia |].
  rewrite <- seq_shift, map_map. apply map_ext. intros i. lia.
Qed.

(** X24.  The plot has one point per entry of the delta history, numbered
    from 1, and every plotted delta is positive: a positive delta is plotted
    as it is and any other as 1e-10, so the filter that follows drops
    nothing and the logarithmic axis is always defined. *)
Theorem chartData_points (deltaHistory : list Q) :
  length (ConvergencePlot.chartData deltaHistory) = length deltaHistory
  /\ map ConvergencePlot.iteration (ConvergencePlot.chartData deltaHistory)
     = map (fun i => Z.of_nat i + 1) (seq 0 (length deltaHistory))
  /\ map ConvergencePlot.delta (ConvergencePlot.chartData deltaHistory)
     = map (fun d => if ConvergencePlot.positive d then d else (1 # 10000000000)%Q)
           deltaHistory
  /\ Forall (fun p => ConvergencePlot.positive (ConvergencePlot.delta p) = true)
            (ConvergencePlot.chartData deltaHistory).
Proof.
  unfold ConvergencePlot.chartData. rewrite points_positive.
  destruct (points_columns 0 deltaHistory) as [Hit Hd].
  split; [| split; [exact Hit | split; [exact Hd |]]].
  - rewrite <- (length_map ConvergencePlot.delta), Hd, length_map. reflexivity.
  - rewrite <- points_positive. apply Forall_forall. intros p Hp.
    apply list_elem_of_In, filter_In in Hp as [_ Hp]. exact Hp.
Qed.

Lemma filter_not_positive (zs : list Q) :
  forallb (fun z => negb (ConvergencePlot.positive z)) zs = true ->
  List.filter ConvergencePlot.positive zs = [].
Proof.
  induction zs as [| z zs IH]; [reflexivity |].
  cbn [forallb List.filter]. intros Hz. apply andb_prop in Hz as [Hz Hrest].
  apply negb_true_iff in Hz. rewrite Hz. apply IH. exact Hrest.
Qed.

(** X25.  The summary of the plot looks at positive deltas only: deltas
    that are zero or negative, appended to a history, raise the iteration
    count and leave the initial delta, the final delta and the converged
    flag as they were.  So a run whose last delta is exactly 0 is judged by
    the last positive delta before it. *)
Theorem stats_ignore_zero_deltas (deltaHistory zs : list Q) (theta : Q) :
  forallb (fun z => negb (ConvergencePlot.positive z)) zs = true ->
  let before := ConvergencePlot.stats deltaHistory theta in
  let after := ConvergencePlot.stats (deltaHistory ++ zs)%list theta in
  ConvergencePlot.initial after = ConvergencePlot.initial before
  /\ ConvergencePlot.final after = ConvergencePlot.final before
  /\ ConvergencePlot.converged after = ConvergencePlot.converged before
  /\ ConvergencePlot.iterations after
     = ConvergencePlot.iterations before + Z.of_nat (length zs).
Proof.
  intros Hzs. unfold ConvergencePlot.stats. cbn.
  rewrite List.filter_app, (filter_not_positive zs Hzs), app_nil_r.
  repeat split. rewrite length_app. lia.
Qed.

Lemma stats_ignore_zero_deltas_witness :
  ConvergencePlot.final
    (ConvergencePlot.stats ([(1 # 2)%Q; (1 # 100000)%Q] ++ [0%Q])%list (1 # 10000))
  = ConvergencePlot.final
      (ConvergencePlot.stats [(1 # 2)%Q; (1 # 100000)%Q] (1 # 10000)).
Proof.
  exact (proj1 (proj2 (stats_ignore_zero_deltas
           [(1 # 2)%Q; (1 # 100000)%Q] [0%Q] (1 # 10000) eq_refl))).
Defined.

(** ** The hook over a run of messages *)

Ltac by_message_type data :=
  repeat match goal with
         | |- context [String.eqb (Hook.type data) ?t] =>
             destruct (String.eqb_spec (Hook.type data) t); cbv iota
         end.

Lemma updatePositionFromStep_deltaHistory (step : Hook.TrajectoryStep) (h : Hook.HookState) :
  Hook.deltaHistory (fst (Hook.updatePositionFromStep step h)) = Hook.deltaHistory h.
Proof. destruct step; reflexivity. Qed.

Lemma onmessage_deltaHistory (data : Hook.TrainingUpdate) (h : Hook.HookState) :
  Hook.deltaHistory (fst (Hook.onmessage data h))
  = (Hook.deltaHistory h
       ++ match (if Stream.isType "dp_iteration" data then Hook.delta data else None) with
          | Some d => [d]
          | None => []
          end)%list.
Proof.
  unfold Stream.isType, Hook.onmessage. by_message_type data;
    try (exfalso; congruence); cbn [fst]; rewrite ?app_nil_r; try reflexivity.
  - unfold Hook.setEnvironmentIfGiven.
    destruct (Hook.environment data) as [env |]; [destruct (truthyS env) |]; reflexivity.
  - unfold Hook.setEnvironmentIfGiven.
    destruct (Hook.environment data) as [env |]; [destruct (truthyS env) |]; reflexivity.
  - destruct (Hook.trajectory data) as [[| step rest] |]; try reflexivity.
    unfold Hook.animateTrajectory. destruct (_ !! _); [| reflexivity].
    rewrite updatePositionFromStep_deltaHistory. reflexivity.
  - destruct (Hook.episode_rewards data) as [[| r rs] |]; reflexivity.
  - destruct (Hook.delta data); cbn; rewrite ?app_nil_r; reflexivity.
  - destruct (Hook.episode_rewards data); reflexivity.
Qed.

(** X26.  Over any run of incoming messages the delta history grows by
    exactly the deltas of the [dp_iteration] messages that carry one, in
    their order; no other message adds, drops or reorders an entry.  As
    [sendStartTraining] on an open socket empties the history, the history
    after a start is the list of deltas reported since. *)
Theorem deltaHistory_collects
        (msgs : list Hook.TrainingUpdate) (h : Hook.HookState) (s : Hook.Store)
        (config : Hook.TrainingConfig) :
  Hook.deltaHistory (fst (Stream.deliverAll msgs (h, s)))
  = (Hook.deltaHistory h ++ Stream.reportedDeltas msgs)%list
  /\ Hook.deltaHistory
       (fst (Stream.deliverAll msgs (fst (fst (Hook.sendStartTraining config h)), s)))
     = ((if Hook.socketOpen h then [] else Hook.deltaHistory h)
          ++ Stream.reportedDeltas msgs)%list.
Proof.
  assert (Hall : forall st,
             Hook.deltaHistory (fst (Stream.deliverAll msgs st))
             = (Hook.deltaHistory (fst st) ++ Stream.reportedDeltas msgs)%list).
  { unfold Stream.deliverAll. induction msgs as [| data msgs IH]; intros st.
    - cbn. rewrite app_nil_r. reflexivity.
    - cbn [fold_left]. rewrite IH. unfold Stream.deliver.
      pose proof (onmessage_deltaHistory data (fst st)) as Hone.
      destruct (Hook.onmessage data (fst st)) as [h' acts]. cbn [fst] in *.
      rewrite Hone, <- app_assoc. f_equal.
      unfold Stream.reportedDeltas. cbn [omap list_omap].
      destruct (if Stream.isType "dp_iteration" data then Hook.delta data else None);
        reflexivity. }
  split; [apply (Hall (h, s)) |].
  rewrite Hall. cbn [fst]. unfold Hook.sendStartTraining.
  destruct (Hook.socketOpen h); reflexivity.
Qed.

Lemma deliver_isTrained (data : Hook.TrainingUpdate) (st : Hook.HookState * Hook.Store) :
  AlgoSlice.isTrained (Hook.st_algorithm (snd (Stream.deliver st data)))
  = AlgoSlice.isTrained (Hook.st_algorithm (snd st))
    || Stream.isType "training_complete" data.
Proof.
  unfold Stream.deliver, Stream.isType.
  destruct (String.eqb_spec (Hook.type data) "training_complete") as [Heq | Hne].
  - unfold Hook.onmessage. rewrite Heq. cbn [String.eqb Ascii.eqb Bool.eqb snd].
    rewrite orb_true_r.
    destruct (Hook.value_function data), (Hook.policy data); reflexivity.
  - pose proof (other_messages_no_result data (fst st) Hne) as Hno.
    destruct (Hook.onmessage data (fst st)) as [h' acts]. cbn [snd] in *.
    rewrite orb_false_r. apply (dispatchAll_frame acts (snd st) Hno).
Qed.

(** X27.  No incoming message ever clears the trained flag: after any run
    of messages the store is marked trained exactly when it was before or
    a [training_complete] message was among them. *)
Theorem isTrained_after_messages
        (msgs : list Hook.TrainingUpdate) (st : Hook.HookState * Hook.Store) :
  AlgoSlice.isTrained (Hook.st_algorithm (snd (Stream.deliverAll msgs st)))
  = AlgoSlice.isTrained (Hook.st_algorithm (snd st))
    || existsb (Stream.isType "training_complete") msgs.
Proof.
  unfold Stream.deliverAll. revert st.
  induction msgs as [| data msgs IH]; intros st.
  - cbn. rewrite orb_false_r. reflexivity.
  - cbn [fold_left existsb]. rewrite IH, deliver_isTrained, orb_assoc. reflexivity.
Qed.

(** X28.  A [training_complete] message ends the run on the client: the
    training flag is dropped, the progress is 100, the store is marked
    trained, and the value function, the policy and the episode rewards
    are replaced by those of the message where it carries them and kept
    otherwise.  The environment and parameter slices are not touched. *)
Theorem training_complete_effect
        (data : Hook.TrainingUpdate) (h : Hook.HookState) (s : Hook.Store) :
  Hook.type data = "training_complete" ->
  let h' := fst (Stream.deliver (h, s) data) in
  let s' := snd (Stream.deliver (h, s) data) in
  Hook.isTraining h' = false
  /\ Hook.episodeRewards h' = nullish (Hook.episode_rewards data) (Hook.episodeRewards h)
  /\ SimulationSlice.progress (Hook.st_simulation s') = 100%Q
  /\ AlgoSlice.isTrained (Hook.st_algorithm s') = true
  /\ AlgoSlice.valueFunction (Hook.st_algorithm s')
     = nullish (Hook.value_function data)
               (AlgoSlice.valueFunction (Hook.st_algorithm s))
  /\ AlgoSlice.policy (Hook.st_algorithm s')
     = nullish (Hook.policy data) (AlgoSlice.policy (Hook.st_algorithm s))
  /\ Hook.st_environment s' = Hook.st_environment s
  /\ Hook.st_parameters s' = Hook.st_parameters s.
Proof.
  intros Ht. unfold Stream.deliver, Hook.onmessage. rewrite Ht.
  cbn [String.eqb Ascii.eqb Bool.eqb fst snd].
  destruct (Hook.episode_rewards data), (Hook.value_function data),
    (Hook.policy data); repeat split.
Qed.

Lemma training_complete_effect_witness :
  AlgoSlice.isTrained
    (Hook.st_algorithm
       (snd (Stream.deliver (Stated.freshHook, Stated.freshStore)
                            (Stated.bare "training_complete")))) = true.
Proof.
  exact (proj1 (proj2 (proj2 (proj2
           (training_complete_effect (Stated.bare "training_complete")
              Stated.freshHook Stated.freshStore eq_refl))))).
Defined.

(** X29.  A message of a type the handler has no case for, such as the
    [algorithm_complete] event of the batch run, changes nothing and
    dispatches nothing. *)
Theorem unknown_message_ignored (data : Hook.TrainingUpdate) (h : Hook.HookState) :
  existsb (String.eqb (Hook.type data)) Stream.handledTypes = false ->
  Hook.onmessage data h = (h, []).
Proof.
  unfold Stream.handledTypes. cbn [existsb]. intros Hnone.
  unfold Hook.onmessage. by_message_type data;
    solve [reflexivity | cbn in Hnone; discriminate Hnone].
Qed.

Lemma unknown_message_ignored_witness :
  Hook.onmessage (Stated.bare "algorithm_complete") Stated.freshHook
  = (Stated.freshHook, []).
Proof.
  exact (unknown_message_ignored (Stated.bare "algorithm_complete")
                                 Stated.freshHook eq_refl).
Defined.

(** ** A whole animation *)

Lemma animate_fold_marker (frames : list Hook.TrajectoryStep) :
  forall eff : Hook.Effect,
    Hook.agentPosition
      (fst (fold_left
              (fun eff step =>
                 let '(h', acts) := Hook.updatePositionFromStep step (fst eff) in
                 (h', (snd eff ++ acts)%list))
              frames eff))
    = match last frames with
      | Some step => Some (Stream.markerOf step)
      | None => Hook.agentPosition (fst eff)
      end.
Proof.
  induction frames as [| step frames IH] using rev_ind; intros eff; [reflexivity |].
  rewrite fold_left_app, last_snoc. cbn [fold_left].
  destruct step; reflexivity.
Qed.

(** X30.  An animation that is not interrupted shows the last
    [min(length, 10)] steps of the trajectory in order, the first of them
    inside the call itself, and leaves the agent marker on the position of
    the last step of the trajectory; an empty trajectory moves nothing. *)
Theorem animation_shows_tail (traj : list Hook.TrajectoryStep) (h : Hook.HookState) :
  length (Stream.animationFrames traj) = Nat.min (length traj) 10
  /\ (take (length traj - Nat.min (length traj) 10) traj
        ++ Stream.animationFrames traj)%list = traj
  /\ Hook.animateTrajectory traj h
     = match Stream.animationFrames traj with
       | step :: _ => Hook.updatePositionFromStep step h
       | [] => (h, [])
       end
  /\ Hook.agentPosition (fst (Stream.animateAll traj h))
     = match last traj with
       | Some step => Some (Stream.markerOf step)
       | None => Hook.agentPosition h
       end.
Proof.
  unfold Stream.animationFrames.
  split; [rewrite length_drop; lia |].
  split; [apply take_drop |].
  split.
  - unfold Hook.animateTrajectory.
    rewrite <- (Nat.add_0_r (length traj - Nat.min (length traj) 10)) at 1.
    rewrite <- lookup_drop.
    destruct (drop _ traj) as [| step rest]; reflexivity.
  - unfold Stream.animateAll, Stream.animationFrames.
    rewrite animate_fold_marker. cbn [fst].
    set (k := (length traj - Nat.min (length traj) 10)%nat).
    assert (Hl : last traj
                 = match last (drop k traj) with
                   | Some step => Some step
                   | None => last (take k traj)
                   end).
    { rewrite <- (take_drop k traj) at 1. apply last_app. }
    rewrite Hl. subst k.
    destruct (last (drop _ traj)) as [step |] eqn:Hlast; [reflexivity |].
    apply last_None in Hlast.
    assert (Hlen : length (drop (length traj - Nat.min (length traj) 10) traj) = O)
      by (rewrite Hlast; reflexivity).
    rewrite length_drop in Hlen.
    assert (Hnil : traj = []) by (destruct traj; [reflexivity | cbn in Hlen; lia]).
    subst traj. reflexivity.
Qed.
